(** * jhipster-uml: the UML Designer parser

    A shallow embedding of [UMLDesignerParser] (the parser for UML Designer
    exports) and the properties of its five phases: element classification,
    types, enumerations, classes with their fields, and associations.

    The parser walks the tree that xml2js builds from the XMI file.  An XML
    element is a JavaScript object whose [$] member holds its attributes and
    whose other members hold arrays of child elements.  An attribute that is
    absent reads as [undefined], so attribute values are [option string];
    a child array that is absent reads as [undefined] too, so child arrays
    are [option (list _)].  Every element is taken to carry its [$] object,
    as every element of an XMI export has at least an [xmi:id] or an
    [xmi:type].  Exceptions are results of a small error monad; the parser
    object ([this]) is threaded explicitly. *)

From Stdlib Require Import String Ascii List Bool Arith Lia Sorted.
Import ListNotations.
Local Open Scope string_scope.

(* ================================================================= *)
(** ** JavaScript values and strings *)

(** [!!v] for a value that is either [undefined] or a string. *)
Definition truthy (v : option string) : bool :=
  match v with
  | Some s => negb (s =? "")
  | None => false
  end.

(** [a === b] on such values. *)
Definition strictEq (a b : option string) : bool :=
  match a, b with
  | Some x, Some y => x =? y
  | None, None => true
  | _, _ => false
  end.

(** A value inside a template literal: [`${v}`]. *)
Definition interpolate (v : option string) : string :=
  match v with
  | Some s => s
  | None => "undefined"
  end.

(** Letter case.  The model covers the ASCII letters; any other character is
    left as it is. *)
Definition isLowerLetter (c : ascii) : bool :=
  ((97 <=? nat_of_ascii c) && (nat_of_ascii c <=? 122))%nat.

Definition isUpperLetter (c : ascii) : bool :=
  ((65 <=? nat_of_ascii c) && (nat_of_ascii c <=? 90))%nat.

Definition upperChar (c : ascii) : ascii :=
  if isLowerLetter c then ascii_of_nat (nat_of_ascii c - 32) else c.

Definition lowerChar (c : ascii) : ascii :=
  if isUpperLetter c then ascii_of_nat (nat_of_ascii c + 32) else c.

(** [String.prototype.toUpperCase] and [toLowerCase]. *)
Fixpoint toUpperCase (s : string) : string :=
  match s with
  | EmptyString => EmptyString
  | String c r => String (upperChar c) (toUpperCase r)
  end.

Fixpoint toLowerCase (s : string) : string :=
  match s with
  | EmptyString => EmptyString
  | String c r => String (lowerChar c) (toLowerCase r)
  end.

(** lodash's [_.upperFirst] and [_.lowerFirst]; both turn [undefined] into
    the empty string first. *)
Definition upperFirst (v : option string) : string :=
  match v with
  | Some (String c r) => String (upperChar c) r
  | _ => EmptyString
  end.

Definition lowerFirst (v : option string) : string :=
  match v with
  | Some (String c r) => String (lowerChar c) r
  | _ => EmptyString
  end.

(* ================================================================= *)
(** ** Exceptions *)

(** The names of [exceptions] that the parser and the entry point use, and
    [ReservedName], which the spec gives for the reserved-word checks. *)
Inductive exceptions : Type :=
  | NullPointer
  | WrongType
  | WrongField
  | WrongCall
  | ReservedName.

(** What a [throw] carries: an exception made by [buildException], or the
    [TypeError] that the JavaScript runtime raises when a property of
    [undefined] is read. *)
Inductive Thrown : Type :=
  | buildException (name : exceptions) (message : string)
  | TypeError.

Inductive result (A : Type) : Type :=
  | Ok (a : A)
  | Throw (e : Thrown).

Arguments Ok {A} a.
Arguments Throw {A} e.

Definition bind {A B : Type} (r : result A) (k : A -> result B) : result B :=
  match r with
  | Ok a => k a
  | Throw e => Throw e
  end.

Notation "x <- r ;; k" := (bind r (fun x => k))
  (at level 61, r at next level, right associativity).

(** [l.forEach(f, this)] where [f] updates [this] or throws. *)
Fixpoint forEach {A T : Type} (f : A -> T -> result T) (l : list A) (this : T)
  : result T :=
  match l with
  | [] => Ok this
  | x :: r => this' <- f x this ;; forEach f r this'
  end.

(** [l.forEach(function (element, index) {...}, this)] with a callback that
    cannot throw; [index] is the position of the first element of [l]. *)
Fixpoint forEachIndexed {A T : Type} (f : A -> nat -> T -> T) (l : list A)
  (index : nat) (this : T) : T :=
  match l with
  | [] => this
  | x :: r => forEachIndexed f r (S index) (f x index this)
  end.

(** [a[i]] followed by a property read: reading a property of a missing array
    or of a missing element is a [TypeError]. *)
Definition at_ {A : Type} (a : option (list A)) (i : nat) : result A :=
  match a with
  | Some l =>
      match nth_error l i with
      | Some x => Ok x
      | None => Throw TypeError
      end
  | None => Throw TypeError
  end.

(** [s.toUpperCase()] on a value that may be [undefined]. *)
Definition callToUpperCase (v : option string) : result string :=
  match v with
  | Some s => Ok (toUpperCase s)
  | None => Throw TypeError
  end.

Definition callToLowerCase (v : option string) : result string :=
  match v with
  | Some s => Ok (toLowerCase s)
  | None => Throw TypeError
  end.

(* ================================================================= *)
(** ** The document tree *)

(** The [$] object of an element: the attributes the parser reads. *)
Record Attributes : Type := {
  xmi_type : option string;
  xmi_id : option string;
  name : option string;
  type : option string;
  value : option string;
  href : option string
}.

Definition noAttributes : Attributes :=
  {| xmi_type := None; xmi_id := None; name := None; type := None;
     value := None; href := None |}.

(** [<ownedComment><body>text</body></ownedComment>] *)
Record Comment : Type := {
  body : option (list string)
}.

(** [<lowerValue value=.../>], [<upperValue value=.../>], [<type href=.../>]:
    elements of which only the attributes are read. *)
Record Leaf : Type := {
  leaf_ : Attributes
}.

Record OwnedLiteral : Type := {
  literal_ : Attributes
}.

Record OwnedAttribute : Type := {
  attribute_ : Attributes;
  attribute_type : option (list Leaf);
  attribute_ownedComment : option (list Comment)
}.

Record OwnedEnd : Type := {
  end_ : Attributes;
  lowerValue : option (list Leaf);
  upperValue : option (list Leaf)
}.

Record PackagedElement : Type := {
  element_ : Attributes;
  ownedLiteral : option (list OwnedLiteral);
  ownedAttribute : option (list OwnedAttribute);
  ownedEnd : option (list OwnedEnd);
  ownedComment : option (list Comment)
}.

Record Root : Type := {
  packagedElement : option (list PackagedElement)
}.

(** The guard [c && c[0].body] that classes, fields and associations put
    before reading a comment: the [body] array when the guard holds.  An
    empty [ownedComment] array makes [c[0].body] a [TypeError]. *)
Definition ownedCommentBody (c : option (list Comment))
  : result (option (list string)) :=
  match c with
  | None => Ok None
  | Some _ => c0 <- at_ c 0 ;; Ok (body c0)
  end.

(** [if (c && c[0].body) { data.comment = c[0].body[0]; }]: the comment that
    the data object ends with.  A member that is never assigned and one
    assigned [undefined] both read as [undefined], hence [None]. *)
Definition firstCommentBody (c : option (list Comment))
  : result (option string) :=
  b <- ownedCommentBody c ;;
  match b with
  | Some b => Ok (nth_error b 0)
  | None => Ok None
  end.

(* ================================================================= *)
(** ** The modules the parser requires *)

(** Modelled from the spec: the constants of the [cardinalities] module, the
    four classifications of a binary association. *)
Inductive cardinalities : Type :=
  | ONE_TO_ONE
  | ONE_TO_MANY
  | MANY_TO_ONE
  | MANY_TO_MANY.

(** The [databaseTypes] object handed to the constructor: the backend's
    allow-list of type names and the backend's name. *)
Record DatabaseTypes : Type := {
  contains : string -> bool;
  getName : string
}.

(** The functions of [parser_helper] and the reserved-word tables behind
    [jhipster_utils], which the parser calls and does not define.  Each takes
    its argument as the call site passes it: a computed string, or an
    attribute value that may be [undefined]. *)
Record Imports : Type := {
  isAnId : option string -> bool;
  extractClassName : option string -> string * string;
  getTypeNameFromURL : option string -> result string;
  isReservedClassName : string -> bool;
  isReservedTableName : string -> string -> bool;
  isReservedFieldName : option string -> string -> bool
}.

Definition entityName (names : string * string) : string := fst names.
Definition tableName (names : string * string) : string := snd names.

(** Modelled from the spec: [checkForReservedClassName],
    [checkForReservedTableName] and [checkForReservedFieldName] of
    [utils/jhipster_utils], which the parser imports.  Each is a membership
    test in the reserved words; with [shouldThrow] a match is a [ReservedName]
    failure that carries the offending name.  The class-name check is called
    without a database type. *)
Definition checkForReserved (reserved shouldThrow : bool) (offending : string)
  : result unit :=
  if reserved && shouldThrow
  then Throw (buildException ReservedName offending)
  else Ok tt.

Definition checkForReservedClassName (env : Imports) (name : string)
  (shouldThrow : bool) : result unit :=
  checkForReserved (isReservedClassName env name) shouldThrow name.

Definition checkForReservedTableName (env : Imports) (name : string)
  (databaseTypeName : string) (shouldThrow : bool) : result unit :=
  checkForReserved (isReservedTableName env name databaseTypeName)
    shouldThrow name.

Definition checkForReservedFieldName (env : Imports) (name : option string)
  (databaseTypeName : string) (shouldThrow : bool) : result unit :=
  checkForReserved (isReservedFieldName env name databaseTypeName)
    shouldThrow (interpolate name).

(* ================================================================= *)
(** ** The intermediate model *)

Record TypeData : Type := {
  type_name : string
}.

Record EnumData : Type := {
  enum_name : option string;
  values : list string
}.

Record ClassData : Type := {
  class_name : string;
  class_tableName : string;
  class_comment : option string
}.

Record FieldData : Type := {
  field_name : string;
  field_type : option string;
  field_comment : option string
}.

(** A member that the parser leaves out of the object literal and assigns
    only under a condition is an [option]. *)
Record AssociationData : Type := {
  from : option string;
  to : option string;
  injectedFieldInFrom : option string;
  injectedFieldInTo : option string;
  isInjectedFieldInFromRequired : option bool;
  isInjectedFieldInToRequired : option bool;
  association_type : option cardinalities;
  commentInFrom : option string;
  commentInTo : option string
}.

(** Modelled from the spec: [ParsedData], the container behind
    [this.parsedData], which the parser fills and does not define.  It is
    append-only and indexed by the source element's identifier: each table
    holds its insertions, oldest first, keyed by [xmi:id] (a field also by
    its class's id).  The type table, in which the parser registers the type
    of a cross-reference again for every field that refers to it, is written
    once per key: a type is registered only if its key is not already
    present. *)
Record ParsedData : Type := {
  types : list (option string * TypeData);
  enums : list (option string * EnumData);
  classes : list (option string * ClassData);
  fields : list (option string * option string * FieldData);
  associations : list (option string * AssociationData)
}.

Definition emptyParsedData : ParsedData :=
  {| types := []; enums := []; classes := []; fields := [];
     associations := [] |}.

Module ParsedDataOps.

(** Modelled from the spec: whether the type table has an entry under the
    key [id]. *)
Definition hasKey (id : option string)
  (table : list (option string * TypeData)) : bool :=
  existsb (fun e => strictEq (fst e) id) table.

(** Modelled from the spec: the registration of a type under [id], which
    leaves the table as it is when the key is already present. *)
Definition insertType (id : option string) (data : TypeData)
  (table : list (option string * TypeData))
  : list (option string * TypeData) :=
  if hasKey id table then table else table ++ [(id, data)].

Definition addType (id : option string) (data : TypeData) (d : ParsedData)
  : ParsedData :=
  {| types := insertType id data (types d); enums := enums d;
     classes := classes d; fields := fields d;
     associations := associations d |}.

Definition addEnum (id : option string) (data : EnumData) (d : ParsedData)
  : ParsedData :=
  {| types := types d; enums := enums d ++ [(id, data)];
     classes := classes d; fields := fields d;
     associations := associations d |}.

Definition addClass (id : option string) (data : ClassData) (d : ParsedData)
  : ParsedData :=
  {| types := types d; enums := enums d;
     classes := classes d ++ [(id, data)]; fields := fields d;
     associations := associations d |}.

Definition addField (classId id : option string) (data : FieldData)
  (d : ParsedData) : ParsedData :=
  {| types := types d; enums := enums d; classes := classes d;
     fields := fields d ++ [(classId, id, data)];
     associations := associations d |}.

Definition addAssociation (id : option string) (data : AssociationData)
  (d : ParsedData) : ParsedData :=
  {| types := types d; enums := enums d; classes := classes d;
     fields := fields d;
     associations := associations d ++ [(id, data)] |}.

End ParsedDataOps.

(* ================================================================= *)
(** ** The parser object *)

Record Parser : Type := {
  root : Root;
  databaseTypes : DatabaseTypes;
  parsedData : ParsedData;
  rawTypesIndexes : list nat;
  rawEnumsIndexes : list nat;
  rawClassesIndexes : list nat;
  rawAssociationsIndexes : list nat;
  userClassId : option string
}.

(** Modelled from the spec: the constructor of [AbstractParser], which binds
    the document and the database types to a fresh empty model and empty scan
    state. *)
Definition AbstractParser (root : Root) (databaseTypes : DatabaseTypes)
  : Parser :=
  {| root := root; databaseTypes := databaseTypes;
     parsedData := emptyParsedData;
     rawTypesIndexes := []; rawEnumsIndexes := [];
     rawClassesIndexes := []; rawAssociationsIndexes := [];
     userClassId := None |}.

Definition UMLDesignerParser := AbstractParser.

Definition setParsedData (d : ParsedData) (this : Parser) : Parser :=
  {| root := root this; databaseTypes := databaseTypes this;
     parsedData := d;
     rawTypesIndexes := rawTypesIndexes this;
     rawEnumsIndexes := rawEnumsIndexes this;
     rawClassesIndexes := rawClassesIndexes this;
     rawAssociationsIndexes := rawAssociationsIndexes this;
     userClassId := userClassId this |}.

Definition setUserClassId (id : option string) (this : Parser) : Parser :=
  {| root := root this; databaseTypes := databaseTypes this;
     parsedData := parsedData this;
     rawTypesIndexes := rawTypesIndexes this;
     rawEnumsIndexes := rawEnumsIndexes this;
     rawClassesIndexes := rawClassesIndexes this;
     rawAssociationsIndexes := rawAssociationsIndexes this;
     userClassId := id |}.

Definition pushRawTypesIndex (index : nat) (this : Parser) : Parser :=
  {| root := root this; databaseTypes := databaseTypes this;
     parsedData := parsedData this;
     rawTypesIndexes := rawTypesIndexes this ++ [index];
     rawEnumsIndexes := rawEnumsIndexes this;
     rawClassesIndexes := rawClassesIndexes this;
     rawAssociationsIndexes := rawAssociationsIndexes this;
     userClassId := userClassId this |}.

Definition pushRawEnumsIndex (index : nat) (this : Parser) : Parser :=
  {| root := root this; databaseTypes := databaseTypes this;
     parsedData := parsedData this;
     rawTypesIndexes := rawTypesIndexes this;
     rawEnumsIndexes := rawEnumsIndexes this ++ [index];
     rawClassesIndexes := rawClassesIndexes this;
     rawAssociationsIndexes := rawAssociationsIndexes this;
     userClassId := userClassId this |}.

Definition pushRawClassesIndex (index : nat) (this : Parser) : Parser :=
  {| root := root this; databaseTypes := databaseTypes this;
     parsedData := parsedData this;
     rawTypesIndexes := rawTypesIndexes this;
     rawEnumsIndexes := rawEnumsIndexes this;
     rawClassesIndexes := rawClassesIndexes this ++ [index];
     rawAssociationsIndexes := rawAssociationsIndexes this;
     userClassId := userClassId this |}.

Definition pushRawAssociationsIndex (index : nat) (this : Parser) : Parser :=
  {| root := root this; databaseTypes := databaseTypes this;
     parsedData := parsedData this;
     rawTypesIndexes := rawTypesIndexes this;
     rawEnumsIndexes := rawEnumsIndexes this;
     rawClassesIndexes := rawClassesIndexes this;
     rawAssociationsIndexes := rawAssociationsIndexes this ++ [index];
     userClassId := userClassId this |}.

(** Assignments to the members of [associationData] after its literal. *)
Definition setIsInjectedFieldInFromRequired (b : bool) (a : AssociationData)
  : AssociationData :=
  {| from := from a; to := to a;
     injectedFieldInFrom := injectedFieldInFrom a;
     injectedFieldInTo := injectedFieldInTo a;
     isInjectedFieldInFromRequired := Some b;
     isInjectedFieldInToRequired := isInjectedFieldInToRequired a;
     association_type := association_type a;
     commentInFrom := commentInFrom a; commentInTo := commentInTo a |}.

Definition setIsInjectedFieldInToRequired (b : bool) (a : AssociationData)
  : AssociationData :=
  {| from := from a; to := to a;
     injectedFieldInFrom := injectedFieldInFrom a;
     injectedFieldInTo := injectedFieldInTo a;
     isInjectedFieldInFromRequired := isInjectedFieldInFromRequired a;
     isInjectedFieldInToRequired := Some b;
     association_type := association_type a;
     commentInFrom := commentInFrom a; commentInTo := commentInTo a |}.

Definition setType (c : cardinalities) (a : AssociationData)
  : AssociationData :=
  {| from := from a; to := to a;
     injectedFieldInFrom := injectedFieldInFrom a;
     injectedFieldInTo := injectedFieldInTo a;
     isInjectedFieldInFromRequired := isInjectedFieldInFromRequired a;
     isInjectedFieldInToRequired := isInjectedFieldInToRequired a;
     association_type := Some c;
     commentInFrom := commentInFrom a; commentInTo := commentInTo a |}.

Definition setCommentInFrom (c : option string) (a : AssociationData)
  : AssociationData :=
  {| from := from a; to := to a;
     injectedFieldInFrom := injectedFieldInFrom a;
     injectedFieldInTo := injectedFieldInTo a;
     isInjectedFieldInFromRequired := isInjectedFieldInFromRequired a;
     isInjectedFieldInToRequired := isInjectedFieldInToRequired a;
     association_type := association_type a;
     commentInFrom := c; commentInTo := commentInTo a |}.

Definition setCommentInTo (c : option string) (a : AssociationData)
  : AssociationData :=
  {| from := from a; to := to a;
     injectedFieldInFrom := injectedFieldInFrom a;
     injectedFieldInTo := injectedFieldInTo a;
     isInjectedFieldInFromRequired := isInjectedFieldInFromRequired a;
     isInjectedFieldInToRequired := isInjectedFieldInToRequired a;
     association_type := association_type a;
     commentInFrom := commentInFrom a; commentInTo := c |}.

(** [end.lowerValue[0].$.value] and [end.upperValue[0].$.value] *)
Definition lowerBound (e : OwnedEnd) : result (option string) :=
  l <- at_ (lowerValue e) 0 ;; Ok (value (leaf_ l)).

Definition upperBound (e : OwnedEnd) : result (option string) :=
  u <- at_ (upperValue e) 0 ;; Ok (value (leaf_ u)).

(* ================================================================= *)
(** ** The phases of [UMLDesignerParser] *)

Section UMLDesignerParser.

Variable env : Imports.

Definition findConstraints (this : Parser) : Parser := this.

(** The [switch] of [findElements] on [element.$['xmi:type']]. *)
Definition classify (element : PackagedElement) (index : nat) (this : Parser)
  : Parser :=
  let t := xmi_type (element_ element) in
  if strictEq t (Some "uml:PrimitiveType") || strictEq t (Some "uml:DataType")
  then pushRawTypesIndex index this
  else if strictEq t (Some "uml:Enumeration")
  then pushRawEnumsIndex index this
  else if strictEq t (Some "uml:Class")
  then pushRawClassesIndex index this
  else if strictEq t (Some "uml:Association")
  then pushRawAssociationsIndex index this
  else this.

Definition findElements (this : Parser) : result Parser :=
  match packagedElement (root this) with
  | Some elements =>
      Ok (findConstraints (forEachIndexed classify elements 0 this))
  | None => Throw TypeError
  end.

Definition addType (typeName typeId : option string) (this : Parser)
  : result Parser :=
  if negb (contains (databaseTypes this) (upperFirst typeName))
  then Throw (buildException WrongType
         ("The type '" ++ interpolate typeName
          ++ "' isn't supported by JHipster."))
  else Ok (setParsedData
         (ParsedDataOps.addType typeId {| type_name := upperFirst typeName |}
            (parsedData this)) this).

Definition fillTypes (this : Parser) : result Parser :=
  forEach
    (fun element this =>
       type <- at_ (packagedElement (root this)) element ;;
       addType (name (element_ type)) (xmi_id (element_ type)) this)
    (rawTypesIndexes this) this.

(** The callback over [enumElement.ownedLiteral]; [values] is
    [enumData.values]. *)
Definition pushLiteral (literalIndex : OwnedLiteral) (values : list string)
  : result (list string) :=
  upper <- callToUpperCase (name (literal_ literalIndex)) ;;
  if upper =? ""
  then Throw (buildException NullPointer
         "The Enumeration's values can't be null.")
  else
    upper' <- callToUpperCase (name (literal_ literalIndex)) ;;
    Ok (values ++ [upper'])%list.

(** The callback of [fillEnums] over [rawEnumsIndexes]. *)
Definition fillEnum (index : nat) (this : Parser) : result Parser :=
  enumElement <- at_ (packagedElement (root this)) index ;;
  if negb (truthy (name (element_ enumElement)))
  then Throw (buildException NullPointer
         "The enumeration's name can't be null.")
  else
    values <-
      match ownedLiteral enumElement with
      | Some literals => forEach pushLiteral literals []
      | None => Ok []
      end ;;
    Ok (setParsedData
          (ParsedDataOps.addEnum (xmi_id (element_ enumElement))
             {| enum_name := name (element_ enumElement); values := values |}
             (parsedData this)) this).

Definition fillEnums (this : Parser) : result Parser :=
  forEach fillEnum (rawEnumsIndexes this) this.

Definition checkForUserClass (element : PackagedElement) (this : Parser)
  : result Parser :=
  if negb (truthy (userClassId this))
  then
    lower <- callToLowerCase (name (element_ element)) ;;
    if lower =? "user"
    then Ok (setUserClassId (xmi_id (element_ element)) this)
    else Ok this
  else Ok this.

Definition addClass (element : PackagedElement) (this : Parser)
  : result Parser :=
  let names := extractClassName env (name (element_ element)) in
  let name := upperFirst (Some (entityName names)) in
  let tableName := tableName names in
  _ <- checkForReservedClassName env name true ;;
  _ <- checkForReservedTableName env tableName
         (getName (databaseTypes this)) true ;;
  comment <- firstCommentBody (ownedComment element) ;;
  Ok (setParsedData
        (ParsedDataOps.addClass (xmi_id (element_ element))
           {| class_name := name; class_tableName := tableName;
              class_comment := comment |}
           (parsedData this)) this).

(** The type of a field and the parser after resolving it: the inline [type]
    attribute as it is, or the name extracted from the [href] of the [type]
    child, registered as a type whose id is its name. *)
Definition resolveFieldType (element : OwnedAttribute) (this : Parser)
  : result (option string * Parser) :=
  if truthy (type (attribute_ element))
  then Ok (type (attribute_ element), this)
  else
    match attribute_type element with
    | None =>
        Throw (buildException WrongField
          ("The field '" ++ interpolate (name (attribute_ element))
           ++ "' does not possess any type."))
    | Some _ =>
        type0 <- at_ (attribute_type element) 0 ;;
        extracted <- getTypeNameFromURL env (href (leaf_ type0)) ;;
        let typeName := upperFirst (Some extracted) in
        this' <- addType (Some typeName) (Some typeName) this ;;
        Ok (Some typeName, this')
    end.

Definition addRegularField (element : OwnedAttribute)
  (classId : option string) (this : Parser) : result Parser :=
  _ <- checkForReservedFieldName env (name (attribute_ element))
         (getName (databaseTypes this)) true ;;
  let fieldName := lowerFirst (name (attribute_ element)) in
  resolved <- resolveFieldType element this ;;
  let (fieldType, this') := resolved in
  comment <- firstCommentBody (attribute_ownedComment element) ;;
  Ok (setParsedData
        (ParsedDataOps.addField classId (xmi_id (attribute_ element))
           {| field_name := fieldName; field_type := fieldType;
              field_comment := comment |}
           (parsedData this')) this').

Definition addField (element : OwnedAttribute) (classId : option string)
  (this : Parser) : result Parser :=
  addRegularField element classId this.

(** The callback of [handleAttributes] over [element.ownedAttribute]. *)
Definition handleAttribute (element : PackagedElement)
  (attribute : OwnedAttribute) (this : Parser) : result Parser :=
  if negb (truthy (name (attribute_ attribute)))
  then Throw (buildException NullPointer
         ("No name is defined for the passed attribute, for class '"
          ++ interpolate (name (element_ element)) ++ "'."))
  else if negb (isAnId env (name (attribute_ attribute)))
  then addField attribute (xmi_id (element_ element)) this
  else Ok this.

Definition handleAttributes (element : PackagedElement) (this : Parser)
  : result Parser :=
  match ownedAttribute element with
  | Some attributes => forEach (handleAttribute element) attributes this
  | None => Throw TypeError
  end.

(** The callback of [fillClassesAndFields] over [rawClassesIndexes]. *)
Definition fillClassAndFields (index : nat) (this : Parser) : result Parser :=
  element <- at_ (packagedElement (root this)) index ;;
  if negb (truthy (name (element_ element)))
  then Throw (buildException NullPointer "Classes must have a name.")
  else
    this1 <- checkForUserClass element this ;;
    this2 <- addClass element this1 ;;
    match ownedAttribute element with
    | Some _ => handleAttributes element this2
    | None => Ok this2
    end.

Definition fillClassesAndFields (this : Parser) : result Parser :=
  forEach fillClassAndFields (rawClassesIndexes this) this.

(** [associationData] as [fillAssociations] builds it from one association
    element.  Every path through the cardinality tests reads the upper bound
    of both ends, and every read that can fail fails with a [TypeError], so
    the four bounds are read first. *)
Definition buildAssociationData (association : PackagedElement)
  : result AssociationData :=
  end0 <- at_ (ownedEnd association) 0 ;;
  end1 <- at_ (ownedEnd association) 1 ;;
  let associationData :=
    {| from := type (end_ end0);
       to := type (end_ end1);
       injectedFieldInFrom := name (end_ end1);
       injectedFieldInTo := name (end_ end0);
       isInjectedFieldInFromRequired := None;
       isInjectedFieldInToRequired := None;
       association_type := None;
       commentInFrom := None; commentInTo := None |} in
  lower0 <- lowerBound end0 ;;
  lower1 <- lowerBound end1 ;;
  upper1 <- upperBound end1 ;;
  upper0 <- upperBound end0 ;;
  let associationData :=
    if negb (strictEq lower0 (Some "0"))
    then setIsInjectedFieldInFromRequired true associationData
    else associationData in
  let associationData :=
    if negb (strictEq lower1 (Some "0"))
    then setIsInjectedFieldInToRequired true associationData
    else associationData in
  let associationData :=
    if strictEq upper1 (Some "*") && strictEq upper0 (Some "*")
    then setType MANY_TO_MANY associationData
    else if strictEq upper1 (Some "*") && negb (strictEq upper0 (Some "*"))
    then setType ONE_TO_MANY associationData
    else if negb (strictEq upper1 (Some "*")) && strictEq upper0 (Some "*")
    then setType MANY_TO_ONE associationData
    else setType ONE_TO_ONE associationData in
  b <- ownedCommentBody (ownedComment association) ;;
  let associationData :=
    match b with
    | Some b =>
        let associationData :=
          setCommentInFrom (nth_error b 0) associationData in
        setCommentInTo (commentInFrom associationData) associationData
    | None => associationData
    end in
  Ok associationData.

(** The callback of [fillAssociations] over [rawAssociationsIndexes]. *)
Definition fillAssociation (rawAssociationsIndex : nat) (this : Parser)
  : result Parser :=
  association <- at_ (packagedElement (root this)) rawAssociationsIndex ;;
  associationData <- buildAssociationData association ;;
  Ok (setParsedData
        (ParsedDataOps.addAssociation (xmi_id (element_ association))
           associationData (parsedData this)) this).

Definition fillAssociations (this : Parser) : result Parser :=
  forEach fillAssociation (rawAssociationsIndexes this) this.

Definition fillConstraints (this : Parser) : Parser := this.

Definition parse (this : Parser) : result ParsedData :=
  this1 <- findElements this ;;
  this2 <- fillTypes this1 ;;
  this3 <- fillEnums this2 ;;
  this4 <- fillClassesAndFields this3 ;;
  this5 <- fillAssociations this4 ;;
  Ok (parsedData this5).

End UMLDesignerParser.

(* ================================================================= *)
(** ** A sample configuration and sample documents *)

Module Sample.

(** Modelled from the spec: [parser_helper.isAnId], the predicate of the
    structural-identifier convention; here the name [id] in any letter
    case. *)
Definition isAnId (v : option string) : bool :=
  match v with
  | Some s => toLowerCase s =? "id"
  | None => false
  end.

(** Modelled from the spec: [parser_helper.extractClassName], the splitter of
    a class label into entity name and table name; here a label is its own
    entity name and, in lower case, its table name. *)
Definition extractClassName (v : option string) : string * string :=
  (interpolate v, toLowerCase (interpolate v)).

(** What follows the last [#] of a link, if there is one. *)
Fixpoint afterLastHash (s : string) (acc : option string) : option string :=
  match s with
  | EmptyString => acc
  | String c r =>
      if Ascii.eqb c "#"%char
      then afterLastHash r (Some r)
      else afterLastHash r acc
  end.

(** Modelled from the spec: [parser_helper.getTypeNameFromURL], which pulls
    the trailing type name out of a type reference link. *)
Definition getTypeNameFromURL (v : option string) : result string :=
  match v with
  | Some url =>
      match afterLastHash url None with
      | Some t => Ok t
      | None => Throw TypeError
      end
  | None => Throw TypeError
  end.

(** Modelled from the spec: the reserved-word membership tests, here in any
    letter case over short word lists; class names are tested against a list
    that takes no backend. *)
Definition reservedIn (words : list string) (s : string) : bool :=
  existsb (String.eqb (toUpperCase s)) words.

Definition javaKeywords : list string := ["CLASS"; "PUBLIC"; "STATIC"; "NEW"].

Definition databaseKeywords (databaseTypeName : string) : list string :=
  if databaseTypeName =? "sql"
  then ["SELECT"; "TABLE"; "ORDER"; "GROUP"]
  else if databaseTypeName =? "cassandra"
  then ["KEYSPACE"; "TABLE"; "TOKEN"]
  else [].

(** The sample configuration. *)
Definition imports : Imports :=
  Build_Imports isAnId extractClassName getTypeNameFromURL
    (reservedIn javaKeywords)
    (fun n db => reservedIn (databaseKeywords db) n)
    (fun v db =>
       match v with
       | Some n => reservedIn (javaKeywords ++ databaseKeywords db) n
       | None => false
       end).

(** Modelled from the spec: the database types of the [sql] backend, with a
    short allow-list of type names. *)
Definition sql : DatabaseTypes :=
  {| contains := fun t =>
       existsb (String.eqb t)
         ["String"; "Integer"; "Long"; "BigDecimal"; "LocalDate"; "Boolean"];
     getName := "sql" |}.

(** Builders for the elements of a document. *)
Definition attrs (xmiType xmiId nm : option string) : Attributes :=
  {| xmi_type := xmiType; xmi_id := xmiId; name := nm; type := None;
     value := None; href := None |}.

Definition bound (v : option string) : option (list Leaf) :=
  Some [ {| leaf_ := {| xmi_type := None; xmi_id := None; name := None;
                        type := None; value := v; href := None |} |} ].

Definition ownedEndOf (nm ty lower upper : option string) : OwnedEnd :=
  {| end_ := {| xmi_type := None; xmi_id := None; name := nm; type := ty;
                value := None; href := None |};
     lowerValue := bound lower; upperValue := bound upper |}.

Definition associationOf (id : string) (end0 end1 : OwnedEnd)
  (comment : option (list Comment)) : PackagedElement :=
  {| element_ := attrs (Some "uml:Association") (Some id) None;
     ownedLiteral := None; ownedAttribute := None;
     ownedEnd := Some [end0; end1]; ownedComment := comment |}.

Definition literalOf (nm : option string) : OwnedLiteral :=
  {| literal_ := attrs None None nm |}.

Definition enumerationOf (id : string) (nm : option string)
  (literals : option (list OwnedLiteral)) : PackagedElement :=
  {| element_ := attrs (Some "uml:Enumeration") (Some id) nm;
     ownedLiteral := literals; ownedAttribute := None;
     ownedEnd := None; ownedComment := None |}.

Definition attributeOf (id : string) (nm inlineType : option string)
  : OwnedAttribute :=
  {| attribute_ := {| xmi_type := None; xmi_id := Some id; name := nm;
                      type := inlineType; value := None; href := None |};
     attribute_type := None; attribute_ownedComment := None |}.

Definition classOf (id : string) (nm : option string)
  (attributes : option (list OwnedAttribute)) : PackagedElement :=
  {| element_ := attrs (Some "uml:Class") (Some id) nm;
     ownedLiteral := None; ownedAttribute := attributes;
     ownedEnd := None; ownedComment := None |}.

Definition document (elements : list PackagedElement) : Parser :=
  UMLDesignerParser {| packagedElement := Some elements |} sql.

(** An enumeration, two classes and an association between them: every
    customer end is mandatory and unbounded, the invoice end is optional. *)
Definition customerToInvoice : PackagedElement :=
  associationOf "x1"
    (ownedEndOf (Some "customer") (Some "c1") (Some "1") (Some "*"))
    (ownedEndOf (Some "invoice") (Some "c2") (Some "0") (Some "1"))
    (Some [ {| body := Some ["billing"] |} ]).

(** An enumeration whose second literal has no [name] attribute, and one
    whose second literal has an empty name. *)
Definition statusWithUnnamedLiteral : PackagedElement :=
  enumerationOf "e1" (Some "Status")
    (Some [literalOf (Some "active"); literalOf None]).

Definition statusWithEmptyLiteral : PackagedElement :=
  enumerationOf "e1" (Some "Status")
    (Some [literalOf (Some "active"); literalOf (Some "")]).

(** A class with one field of inline type [string]. *)
Definition customer : PackagedElement :=
  classOf "c1" (Some "Customer")
    (Some [attributeOf "a1" (Some "name") (Some "string")]).

(** An attribute named by a reserved word of the backend, one that follows
    the identifier convention, and one with a plain name; none has a type. *)
Definition selectAttribute : OwnedAttribute :=
  attributeOf "a1" (Some "select") None.

Definition idAttribute : OwnedAttribute :=
  attributeOf "a2" (Some "id") None.

Definition totalAttribute : OwnedAttribute :=
  attributeOf "a3" (Some "total") None.

Definition untypedCustomer : PackagedElement :=
  classOf "c1" (Some "Customer") (Some [totalAttribute]).

(** A configuration in which every field name is reserved. *)
Definition strict : Imports :=
  Build_Imports isAnId extractClassName getTypeNameFromURL
    (reservedIn javaKeywords)
    (fun n db => reservedIn (databaseKeywords db) n)
    (fun _ _ => true).

Definition shop : list PackagedElement :=
  [ enumerationOf "e1" (Some "Status")
      (Some [literalOf (Some "active"); literalOf (Some "inactive")]);
    classOf "c1" (Some "Customer")
      (Some [attributeOf "a1" (Some "name") (Some "string");
             attributeOf "a2" (Some "id") None;
             attributeOf "a3" (Some "status") (Some "e1")]);
    classOf "c2" (Some "Invoice") None;
    customerToInvoice ].

(** A primitive type element. *)
Definition primitiveTypeOf (id : string) (nm : option string)
  : PackagedElement :=
  {| element_ := attrs (Some "uml:PrimitiveType") (Some id) nm;
     ownedLiteral := None; ownedAttribute := None;
     ownedEnd := None; ownedComment := None |}.

(** An attribute whose type is given by the link of a [type] child. *)
Definition referenceAttributeOf (id : string) (nm link : option string)
  : OwnedAttribute :=
  {| attribute_ := {| xmi_type := None; xmi_id := Some id; name := nm;
                      type := None; value := None; href := None |};
     attribute_type :=
       Some [ {| leaf_ := {| xmi_type := None; xmi_id := None; name := None;
                             type := None; value := None; href := link |} |} ];
     attribute_ownedComment := Some [ {| body := Some ["in cents"] |} ] |}.

(** A document with two declared types and a class with one field of inline
    type between two fields typed by a cross-reference to the same type. *)
Definition ledger : list PackagedElement :=
  [ primitiveTypeOf "t1" (Some "string");
    classOf "c1" (Some "Account")
      (Some [referenceAttributeOf "a1" (Some "Balance")
               (Some "pathmap://UML_LIBRARIES/Types.uml#bigDecimal");
             attributeOf "a2" (Some "owner") (Some "t1");
             referenceAttributeOf "a3" (Some "Limit")
               (Some "pathmap://UML_LIBRARIES/Types.uml#bigDecimal")]);
    primitiveTypeOf "t2" (Some "long") ].

(** Three classes of which the last two are named [user] in some letter
    case. *)
Definition twoUsers : list PackagedElement :=
  [ classOf "c1" (Some "Customer") None;
    classOf "c2" (Some "User") None;
    classOf "c3" (Some "USER") None ].

(** An association with a single end, and one between classes that the
    document does not have. *)
Definition oneEnded : PackagedElement :=
  {| element_ := attrs (Some "uml:Association") (Some "x2") None;
     ownedLiteral := None; ownedAttribute := None;
     ownedEnd :=
       Some [ownedEndOf (Some "customer") (Some "c1") (Some "1") (Some "1")];
     ownedComment := None |}.

Definition dangling : PackagedElement :=
  associationOf "x3"
    (ownedEndOf (Some "left") (Some "nowhere") (Some "0") (Some "1"))
    (ownedEndOf (Some "right") (Some "nobody") (Some "0") (Some "*"))
    None.

(** A top-level element of a kind that the parser has no case for. *)
Definition package : PackagedElement :=
  {| element_ := attrs (Some "uml:Package") (Some "p1") (Some "docs");
     ownedLiteral := None; ownedAttribute := None;
     ownedEnd := None; ownedComment := None |}.

(** The elements of [shop] in another order, around a package: the
    association first, the enumeration between the two classes. *)
Definition shopReordered : list PackagedElement :=
  [ customerToInvoice;
    classOf "c1" (Some "Customer")
      (Some [attributeOf "a1" (Some "name") (Some "string");
             attributeOf "a2" (Some "id") None;
             attributeOf "a3" (Some "status") (Some "e1")]);
    package;
    enumerationOf "e1" (Some "Status")
      (Some [literalOf (Some "active"); literalOf (Some "inactive")]);
    classOf "c2" (Some "Invoice") None ].

End Sample.

(* ================================================================= *)
(** ** The vocabulary of the properties *)

(** No lower-case letter is left after [toUpperCase]. *)
Fixpoint noLowerLetter (s : string) : bool :=
  match s with
  | EmptyString => true
  | String c r => negb (isLowerLetter c) && noLowerLetter r
  end.

(** The test of one [case] of [findElements]. *)
Definition hasType (t : string) (element : PackagedElement) : bool :=
  strictEq (xmi_type (element_ element)) (Some t).

(** The two cases that fall through to [rawTypesIndexes]. *)
Definition isTypeElement (element : PackagedElement) : bool :=
  hasType "uml:PrimitiveType" element || hasType "uml:DataType" element.

(** The positions, counted from [index], of the elements that satisfy [p]. *)
Fixpoint indexesOf (p : PackagedElement -> bool) (l : list PackagedElement)
  (index : nat) : list nat :=
  match l with
  | [] => []
  | x :: r =>
      if p x then index :: indexesOf p r (S index)
      else indexesOf p r (S index)
  end.

(** The part of the parser that only [findElements] writes. *)
Definition scanOf (this : Parser) :=
  (root this, databaseTypes this,
   (rawTypesIndexes this, rawEnumsIndexes this),
   (rawClassesIndexes this, rawAssociationsIndexes this)).

(** What [fillTypes], [fillEnums], [fillClassesAndFields] and
    [fillAssociations] leave as it was, from parser [a] to parser [b]. *)
Definition typesFrame (a b : Parser) : Prop :=
  scanOf b = scanOf a /\
  userClassId b = userClassId a /\
  enums (parsedData b) = enums (parsedData a) /\
  classes (parsedData b) = classes (parsedData a) /\
  fields (parsedData b) = fields (parsedData a) /\
  associations (parsedData b) = associations (parsedData a).

Definition enumsFrame (a b : Parser) : Prop :=
  scanOf b = scanOf a /\
  userClassId b = userClassId a /\
  types (parsedData b) = types (parsedData a) /\
  classes (parsedData b) = classes (parsedData a) /\
  fields (parsedData b) = fields (parsedData a) /\
  associations (parsedData b) = associations (parsedData a).

Definition classesFrame (a b : Parser) : Prop :=
  scanOf b = scanOf a /\
  enums (parsedData b) = enums (parsedData a) /\
  associations (parsedData b) = associations (parsedData a).

Definition associationsFrame (a b : Parser) : Prop :=
  scanOf b = scanOf a /\
  userClassId b = userClassId a /\
  types (parsedData b) = types (parsedData a) /\
  enums (parsedData b) = enums (parsedData a) /\
  classes (parsedData b) = classes (parsedData a) /\
  fields (parsedData b) = fields (parsedData a).

(** The scan state that [findElements] leaves on a fresh parser. *)
Definition scanned (r : Root) (db : DatabaseTypes)
  (elements : list PackagedElement) (this : Parser) : Prop :=
  scanOf this =
    (r, db,
     (indexesOf isTypeElement elements 0,
      indexesOf (hasType "uml:Enumeration") elements 0),
     (indexesOf (hasType "uml:Class") elements 0,
      indexesOf (hasType "uml:Association") elements 0)).

(** The two ends of an association element and their bounds, when they can
    be read. *)
Definition lowerBounds (a : PackagedElement) (lower0 lower1 : option string)
  : Prop :=
  exists end0 end1,
    at_ (ownedEnd a) 0 = Ok end0 /\ at_ (ownedEnd a) 1 = Ok end1 /\
    lowerBound end0 = Ok lower0 /\ lowerBound end1 = Ok lower1.

Definition upperBounds (a : PackagedElement) (upper0 upper1 : option string)
  : Prop :=
  exists end0 end1,
    at_ (ownedEnd a) 0 = Ok end0 /\ at_ (ownedEnd a) 1 = Ok end1 /\
    upperBound end0 = Ok upper0 /\ upperBound end1 = Ok upper1.

(** The required flag of each side follows the lower bound of one end: the
    flag of the field injected in [from] follows end 0, the flag of the field
    injected in [to] follows end 1; a flag is left unset when the lower bound
    of its end is ['0']. *)
Definition requiredFlags (a : PackagedElement) (d : AssociationData) : Prop :=
  exists lower0 lower1,
    lowerBounds a lower0 lower1 /\
    (lower0 <> Some "0" -> isInjectedFieldInFromRequired d = Some true) /\
    (lower1 <> Some "0" -> isInjectedFieldInToRequired d = Some true) /\
    (lower0 = Some "0" -> isInjectedFieldInFromRequired d = None) /\
    (lower1 = Some "0" -> isInjectedFieldInToRequired d = None).

(** The cardinality follows the upper bounds of the two ends, and is one of
    the four. *)
Definition derivedCardinality (a : PackagedElement) (d : AssociationData)
  : Prop :=
  exists upper0 upper1,
    upperBounds a upper0 upper1 /\
    (upper1 = Some "*" -> upper0 = Some "*" ->
     association_type d = Some MANY_TO_MANY) /\
    (upper1 = Some "*" -> upper0 <> Some "*" ->
     association_type d = Some ONE_TO_MANY) /\
    (upper0 = Some "*" -> upper1 <> Some "*" ->
     association_type d = Some MANY_TO_ONE) /\
    (upper0 <> Some "*" -> upper1 <> Some "*" ->
     association_type d = Some ONE_TO_ONE) /\
    exists! c, association_type d = Some c.

(** One comment serves both ends. *)
Definition commentOnBothEnds (a : PackagedElement) (d : AssociationData)
  : Prop :=
  commentInTo d = commentInFrom d /\
  (forall b, ownedCommentBody (ownedComment a) = Ok (Some b) ->
             commentInFrom d = nth_error b 0) /\
  (ownedCommentBody (ownedComment a) = Ok None ->
   commentInFrom d = None /\ commentInTo d = None).

(** The literals of an enumeration element. *)
Definition literalsOf (enumElement : PackagedElement) : list OwnedLiteral :=
  match ownedLiteral enumElement with
  | Some literals => literals
  | None => []
  end.

(** An accepted enumeration: it is named, so are its literals, and the entry
    holds its name and the names of its literals in upper case, in order. *)
Definition acceptedEnum (enumElement : PackagedElement)
  (e : option string * EnumData) : Prop :=
  fst e = xmi_id (element_ enumElement) /\
  truthy (name (element_ enumElement)) = true /\
  enum_name (snd e) = name (element_ enumElement) /\
  Forall (fun l => truthy (name (literal_ l)) = true)
    (literalsOf enumElement) /\
  values (snd e) =
    map (fun l => toUpperCase (interpolate (name (literal_ l))))
      (literalsOf enumElement).

(** Every literal of the enumeration carries a [name] attribute. *)
Definition literalsHaveName (enumElement : PackagedElement) : Prop :=
  Forall (fun l => name (literal_ l) <> None) (literalsOf enumElement).

(** The enumeration has no name, or one of its literals has an empty one. *)
Definition lacksAName (enumElement : PackagedElement) : bool :=
  negb (truthy (name (element_ enumElement)))
  || existsb (fun l => negb (truthy (name (literal_ l))))
       (literalsOf enumElement).

(** The attributes of a class element. *)
Definition attributesOf (element : PackagedElement) : list OwnedAttribute :=
  match ownedAttribute element with
  | Some attributes => attributes
  | None => []
  end.

(** The attributes that [handleAttributes] passes to [addField]. *)
Definition isRegular (env : Imports) (attribute : OwnedAttribute) : bool :=
  negb (isAnId env (name (attribute_ attribute))).

(** The entry that [addRegularField] appends for an attribute. *)
Definition insertedField (env : Imports) (db : DatabaseTypes)
  (classId : option string) (a : OwnedAttribute)
  (e : option string * option string * FieldData) : Prop :=
  fst (fst e) = classId /\
  snd (fst e) = xmi_id (attribute_ a) /\
  field_name (snd e) = lowerFirst (name (attribute_ a)) /\
  isReservedFieldName env (name (attribute_ a)) (getName db) = false /\
  (truthy (type (attribute_ a)) = true ->
   field_type (snd e) = type (attribute_ a)) /\
  (truthy (type (attribute_ a)) = false ->
   attribute_type a <> None /\
   exists extracted,
     field_type (snd e) = Some (upperFirst (Some extracted)) /\
     contains db (upperFirst (Some (upperFirst (Some extracted)))) = true).

(** What [handleAttributes] does with one attribute: it has a name, and it
    gets one field unless its name follows the identifier convention. *)
Definition attributeHandled (env : Imports) (db : DatabaseTypes)
  (classId : option string) (a : OwnedAttribute)
  (es : list (option string * option string * FieldData)) : Prop :=
  truthy (name (attribute_ a)) = true /\
  if isRegular env a
  then exists e, es = [e] /\ insertedField env db classId a e
  else es = [].

(** What [fillClassesAndFields] does with one class element: the class has a
    name, its names pass the reserved-word checks, and its attributes are
    handled in order. *)
Definition classHandled (env : Imports) (db : DatabaseTypes)
  (c : PackagedElement)
  (es : list (option string * option string * FieldData)) : Prop :=
  truthy (name (element_ c)) = true /\
  isReservedClassName env
    (upperFirst (Some (entityName
       (extractClassName env (name (element_ c)))))) = false /\
  isReservedTableName env
    (tableName (extractClassName env (name (element_ c))))
    (getName db) = false /\
  exists ess,
    es = concat ess /\
    Forall2 (attributeHandled env db (xmi_id (element_ c)))
      (attributesOf c) ess.

(** The names of a class element that [addClass] checks. *)
Definition className (env : Imports) (c : PackagedElement) : string :=
  upperFirst (Some (entityName (extractClassName env (name (element_ c))))).

Definition classTableName (env : Imports) (c : PackagedElement) : string :=
  tableName (extractClassName env (name (element_ c))).

(* ================================================================= *)
(** ** The callbacks of the phases, element by element *)

(** The callback of [fillTypes] once [type] is read from the document. *)
Definition fillTypeOf (type : PackagedElement) (this : Parser)
  : result Parser :=
  addType (name (element_ type)) (xmi_id (element_ type)) this.

(** The callback of [fillEnums] once [enumElement] is read. *)
Definition fillEnumOf (enumElement : PackagedElement) (this : Parser)
  : result Parser :=
  if negb (truthy (name (element_ enumElement)))
  then Throw (buildException NullPointer
         "The enumeration's name can't be null.")
  else
    values <-
      match ownedLiteral enumElement with
      | Some literals => forEach pushLiteral literals []
      | None => Ok []
      end ;;
    Ok (setParsedData
          (ParsedDataOps.addEnum (xmi_id (element_ enumElement))
             {| enum_name := name (element_ enumElement); values := values |}
             (parsedData this)) this).

(** The callback of [fillClassesAndFields] once [element] is read. *)
Definition fillClassAndFieldsOf (env : Imports) (element : PackagedElement)
  (this : Parser) : result Parser :=
  if negb (truthy (name (element_ element)))
  then Throw (buildException NullPointer "Classes must have a name.")
  else
    this1 <- checkForUserClass element this ;;
    this2 <- addClass env element this1 ;;
    match ownedAttribute element with
    | Some _ => handleAttributes env element this2
    | None => Ok this2
    end.

(** The callback of [fillAssociations] once [association] is read. *)
Definition fillAssociationOf (association : PackagedElement) (this : Parser)
  : result Parser :=
  associationData <- buildAssociationData association ;;
  Ok (setParsedData
        (ParsedDataOps.addAssociation (xmi_id (element_ association))
           associationData (parsedData this)) this).

(** The four filling phases of [parse] over the elements of each kind, in
    the order of [parse]. *)
Definition fillAll (env : Imports)
  (typeElements enumElements classElements associationElements
     : list PackagedElement)
  (this : Parser) : result Parser :=
  this2 <- forEach fillTypeOf typeElements this ;;
  this3 <- forEach fillEnumOf enumElements this2 ;;
  this4 <- forEach (fillClassAndFieldsOf env) classElements this3 ;;
  forEach fillAssociationOf associationElements this4.

(** The parser [this] with the document and the index arrays of [scan]. *)
Definition setScan (scan this : Parser) : Parser :=
  {| root := root scan; databaseTypes := databaseTypes this;
     parsedData := parsedData this;
     rawTypesIndexes := rawTypesIndexes scan;
     rawEnumsIndexes := rawEnumsIndexes scan;
     rawClassesIndexes := rawClassesIndexes scan;
     rawAssociationsIndexes := rawAssociationsIndexes scan;
     userClassId := userClassId this |}.

(** The outcome of a computation, seen through [f] when it returns. *)
Definition mapResult {A B : Type} (f : A -> B) (r : result A) : result B :=
  match r with
  | Ok a => Ok (f a)
  | Throw e => Throw e
  end.

(** The entry of the type table for a type element. *)
Definition typeEntry (t : PackagedElement) : option string * TypeData :=
  (xmi_id (element_ t), {| type_name := upperFirst (name (element_ t)) |}).

(** The type element passes the test of [addType] for the database types. *)
Definition isSupported (db : DatabaseTypes) (t : PackagedElement) : bool :=
  contains db (upperFirst (name (element_ t))).

(** The type table after the registrations [entries], in order. *)
Definition insertTypes (entries table : list (option string * TypeData))
  : list (option string * TypeData) :=
  fold_left (fun t e => ParsedDataOps.insertType (fst e) (snd e) t)
    entries table.

(** The attributes for which [addRegularField] registers a type: those that
    [handleAttributes] passes on and that have no inline type. *)
Definition isTypedByReference (env : Imports) (a : OwnedAttribute) : bool :=
  isRegular env a && negb (truthy (type (attribute_ a))).

(** The entry that [addRegularField] registers for such an attribute: keyed
    and named by the name extracted from the link of its first [type] child,
    with a capital first letter, which the database types allow. *)
Definition referenceEntry (env : Imports) (db : DatabaseTypes)
  (a : OwnedAttribute) (e : option string * TypeData) : Prop :=
  exists type0 rest extracted,
    attribute_type a = Some (type0 :: rest) /\
    getTypeNameFromURL env (href (leaf_ type0)) = Ok extracted /\
    contains db (upperFirst (Some extracted)) = true /\
    e = (Some (upperFirst (Some extracted)),
         {| type_name := upperFirst (Some extracted) |}).



(** A parser without its user class id, and two outcomes that are the same
    failure or two parsers that differ at most in their user class id. *)
Definition forgetUser (this : Parser) : Parser := setUserClassId None this.

Definition sameOutcome (r r' : result Parser) : Prop :=
  mapResult forgetUser r = mapResult forgetUser r'.

(* ================================================================= *)
(** ** Strings and values *)

Local Open Scope list_scope.

Lemma strictEq_true (a b : option string) : strictEq a b = true <-> a = b.
Proof.
  destruct a as [x|], b as [y|]; simpl; split; intros H;
    try discriminate; try reflexivity.
  - apply String.eqb_eq in H. now subst.
  - inversion H. apply String.eqb_refl.
Qed.

Lemma strictEq_false (a b : option string) : strictEq a b = false <-> a <> b.
Proof.
  split.
  - intros H E. apply strictEq_true in E. congruence.
  - intros H. destruct (strictEq a b) eqn:E; [|reflexivity].
    apply strictEq_true in E. contradiction.
Qed.

Lemma truthy_Some (v : option string) :
  truthy v = true <-> exists s, v = Some s /\ s <> "".
Proof.
  destruct v as [s|]; simpl.
  - rewrite negb_true_iff, String.eqb_neq. split.
    + intros H. now exists s.
    + intros (s' & E & H). now inversion E; subst.
  - split; [discriminate|]. now intros (s & E & _).
Qed.

Lemma toUpperCase_empty (s : string) : toUpperCase s = "" <-> s = "".
Proof. destruct s; simpl; split; intros H; try discriminate; reflexivity. Qed.

Lemma toUpperCase_length (s : string) :
  String.length (toUpperCase s) = String.length s.
Proof. induction s; simpl; congruence. Qed.

Lemma upperChar_not_lower (c : ascii) : isLowerLetter (upperChar c) = false.
Proof.
  unfold upperChar. destruct (isLowerLetter c) eqn:E; [|exact E].
  unfold isLowerLetter in *.
  apply andb_true_iff in E. destruct E as [E1 E2].
  apply Nat.leb_le in E1. apply Nat.leb_le in E2.
  rewrite nat_ascii_embedding by lia.
  apply andb_false_iff. left. apply Nat.leb_gt. lia.
Qed.

Lemma toUpperCase_noLowerLetter (s : string) :
  noLowerLetter (toUpperCase s) = true.
Proof.
  induction s as [|c r IH]; simpl; [reflexivity|].
  now rewrite upperChar_not_lower, IH.
Qed.

(* ================================================================= *)
(** ** The error monad and [forEach] *)

Lemma bind_Ok {A B : Type} (r : result A) (k : A -> result B) (b : B) :
  bind r k = Ok b -> exists a, r = Ok a /\ k a = Ok b.
Proof. destruct r as [a|e]; simpl; [|discriminate]. intros H. now exists a. Qed.

Lemma forEach_app {A T : Type} (f : A -> T -> result T) (l1 l2 : list A)
  (this : T) :
  forEach f (l1 ++ l2) this = (this' <- forEach f l1 this ;; forEach f l2 this').
Proof.
  revert this. induction l1 as [|x l1 IH]; intros this; simpl; [reflexivity|].
  destruct (f x this) as [this'|e]; simpl; [apply IH|reflexivity].
Qed.

(** A property that every successful call of the callback carries over is
    carried over by the loop. *)
Lemma forEach_preserves {A T : Type} (f : A -> T -> result T)
  (R : T -> T -> Prop) :
  (forall this, R this this) ->
  (forall a b c, R a b -> R b c -> R a c) ->
  (forall x this this', f x this = Ok this' -> R this this') ->
  forall l this this', forEach f l this = Ok this' -> R this this'.
Proof.
  intros Hrefl Htrans Hf l.
  induction l as [|x l IH]; intros this this' H; simpl in H.
  - inversion H. apply Hrefl.
  - apply bind_Ok in H. destruct H as (this1 & H1 & H2).
    eapply Htrans; [eapply Hf; exact H1 | apply IH; exact H2].
Qed.

(** What a loop appends to a log of the state, when each call of the callback
    appends entries that are related to the element it visits. *)
Lemma forEach_log {A T E : Type} (f : A -> T -> result T) (log : T -> list E)
  (I : T -> Prop) (R : A -> list E -> Prop) :
  (forall x this this', I this -> f x this = Ok this' ->
     I this' /\ exists es, log this' = log this ++ es /\ R x es) ->
  forall l this this', I this -> forEach f l this = Ok this' ->
    I this' /\
    exists ess, log this' = log this ++ concat ess /\ Forall2 R l ess.
Proof.
  intros Hf l.
  induction l as [|x l IH]; intros this this' HI H; simpl in H.
  - inversion H; subst. split; [exact HI|].
    exists []. simpl. rewrite app_nil_r. split; [reflexivity|constructor].
  - apply bind_Ok in H. destruct H as (this1 & H1 & H2).
    destruct (Hf _ _ _ HI H1) as (HI1 & es & Hes & HR).
    destruct (IH _ _ HI1 H2) as (HI' & ess & Hess & HF).
    split; [exact HI'|].
    exists (es :: ess). simpl. rewrite Hess, Hes, app_assoc.
    split; [reflexivity|]. now constructor.
Qed.

(** When each element appends exactly one entry. *)
Lemma Forall2_singletons {A E : Type} (Q : A -> E -> Prop) (l : list A)
  (ess : list (list E)) :
  Forall2 (fun x es => exists e, es = [e] /\ Q x e) l ess ->
  Forall2 Q l (concat ess).
Proof.
  induction 1 as [|x es l ess (e & -> & HQ) _ IH]; simpl; now constructor.
Qed.

(** When some elements append one entry and the others none. *)
Lemma Forall2_filtered {A E : Type} (keep : A -> bool) (Q : A -> E -> Prop)
  (l : list A) (ess : list (list E)) :
  Forall2 (fun x es => if keep x then exists e, es = [e] /\ Q x e
                       else es = []) l ess ->
  Forall2 Q (filter keep l) (concat ess).
Proof.
  induction 1 as [|x es l ess H _ IH]; simpl; [constructor|].
  destruct (keep x).
  - destruct H as (e & -> & HQ). now constructor.
  - now subst.
Qed.

(* ================================================================= *)
(** ** Classification of the top-level elements *)

Lemma classify_cases (element : PackagedElement) (index : nat)
  (this : Parser) :
  classify element index this =
    if isTypeElement element then pushRawTypesIndex index this
    else if hasType "uml:Enumeration" element
    then pushRawEnumsIndex index this
    else if hasType "uml:Class" element
    then pushRawClassesIndex index this
    else if hasType "uml:Association" element
    then pushRawAssociationsIndex index this
    else this.
Proof. reflexivity. Qed.

Lemma hasType_exclusive (t t' : string) (element : PackagedElement) :
  (t =? t')%string = false ->
  hasType t element = true -> hasType t' element = false.
Proof.
  unfold hasType. intros Hne H. apply strictEq_true in H.
  apply String.eqb_neq in Hne.
  apply strictEq_false. rewrite H. congruence.
Qed.

(** Rewrites with what [E : hasType t x = true] excludes. *)
Ltac exclusive E :=
  match type of E with
  | hasType ?t ?x = true =>
      try rewrite (hasType_exclusive t "uml:PrimitiveType" x eq_refl E);
      try rewrite (hasType_exclusive t "uml:DataType" x eq_refl E);
      try rewrite (hasType_exclusive t "uml:Enumeration" x eq_refl E);
      try rewrite (hasType_exclusive t "uml:Class" x eq_refl E);
      try rewrite (hasType_exclusive t "uml:Association" x eq_refl E)
  end.

(** The scan state after classifying [l] from position [index]. *)
Lemma forEachIndexed_classify (l : list PackagedElement) :
  forall (index : nat) (this : Parser),
    let this' := forEachIndexed classify l index this in
    root this' = root this /\
    databaseTypes this' = databaseTypes this /\
    parsedData this' = parsedData this /\
    userClassId this' = userClassId this /\
    rawTypesIndexes this' =
      rawTypesIndexes this ++ indexesOf isTypeElement l index /\
    rawEnumsIndexes this' =
      rawEnumsIndexes this ++ indexesOf (hasType "uml:Enumeration") l index /\
    rawClassesIndexes this' =
      rawClassesIndexes this ++ indexesOf (hasType "uml:Class") l index /\
    rawAssociationsIndexes this' =
      rawAssociationsIndexes this
      ++ indexesOf (hasType "uml:Association") l index.
Proof.
  induction l as [|x l IH]; intros index this; simpl.
  - now rewrite !app_nil_r.
  - specialize (IH (S index) (classify x index this)). simpl in IH.
    destruct IH as (H1 & H2 & H3 & H4 & H5 & H6 & H7 & H8).
    rewrite H1, H2, H3, H4, H5, H6, H7, H8, classify_cases.
    unfold isTypeElement.
    destruct (hasType "uml:PrimitiveType" x) eqn:E1;
      [exclusive E1; simpl; now rewrite <- !app_assoc|].
    destruct (hasType "uml:DataType" x) eqn:E2;
      [exclusive E2; simpl; now rewrite <- !app_assoc|].
    destruct (hasType "uml:Enumeration" x) eqn:E3;
      [exclusive E3; simpl; now rewrite <- !app_assoc|].
    destruct (hasType "uml:Class" x) eqn:E4;
      [exclusive E4; simpl; now rewrite <- !app_assoc|].
    destruct (hasType "uml:Association" x) eqn:E5; simpl;
      now rewrite <- ?app_assoc.
Qed.

(** Entries that are related to the elements at the classified positions are
    related to the classified elements, in document order. *)
Lemma Forall2_indexesOf {E : Type} (Q : PackagedElement -> E -> Prop)
  (p : PackagedElement -> bool) (l : list PackagedElement) :
  forall (pre : list PackagedElement) (new : list E),
    Forall2 (fun i e => exists a, nth_error (pre ++ l) i = Some a /\ Q a e)
      (indexesOf p l (length pre)) new ->
    Forall2 Q (filter p l) new.
Proof.
  induction l as [|x l IH]; intros pre new H; simpl in *.
  - inversion H. constructor.
  - assert (Htail : forall new',
      Forall2 (fun i e => exists a,
                 nth_error (pre ++ x :: l) i = Some a /\ Q a e)
        (indexesOf p l (S (length pre))) new' ->
      Forall2 Q (filter p l) new').
    { intros new' H'. apply (IH (pre ++ [x])).
      rewrite length_app, <- app_assoc. simpl.
      now rewrite Nat.add_1_r. }
    destruct (p x).
    + inversion H as [|i e idxs new' (a & Ha & HQ) Hrest]; subst.
      constructor; [|now apply Htail].
      rewrite nth_error_app2 in Ha by lia.
      rewrite Nat.sub_diag in Ha. simpl in Ha. now inversion Ha; subst.
    + now apply Htail.
Qed.

(* ================================================================= *)
(** ** What each phase leaves alone *)

Lemma scanOf_setParsedData (d : ParsedData) (this : Parser) :
  scanOf (setParsedData d this) = scanOf this.
Proof. reflexivity. Qed.

Lemma scanOf_setUserClassId (id : option string) (this : Parser) :
  scanOf (setUserClassId id this) = scanOf this.
Proof. reflexivity. Qed.

Lemma scanOf_root (a b : Parser) : scanOf b = scanOf a -> root b = root a.
Proof. unfold scanOf. now inversion 1. Qed.

Lemma scanOf_databaseTypes (a b : Parser) :
  scanOf b = scanOf a -> databaseTypes b = databaseTypes a.
Proof. unfold scanOf. now inversion 1. Qed.

(** Splits a hypothesis [H : ... = Ok _] along the binds, tests and matches of
    the definition it comes from, and leaves the paths that return. *)
Ltac returns H :=
  lazymatch type of H with
  | bind ?r _ = Ok _ =>
      let E := fresh "E" in
      destruct r eqn:E; simpl in H; [returns E; returns H | discriminate H]
  | (if ?b then _ else _) = Ok _ =>
      let E := fresh "E" in destruct b eqn:E; returns H
  | (let (_, _) := ?p in _) = Ok _ => destruct p; returns H
  | match ?x with _ => _ end = Ok _ =>
      let E := fresh "E" in destruct x eqn:E; returns H
  | Throw _ = Ok _ => discriminate H
  | Ok _ = Ok _ => inversion H; subst; clear H
  | _ => idtac
  end.

Ltac frame_refl := repeat split; reflexivity.

Ltac frame_trans :=
  let H1 := fresh in let H2 := fresh in
  intros ? ? ? H1 H2; unfold typesFrame, enumsFrame, classesFrame,
    associationsFrame in *;
  repeat match goal with H : _ /\ _ |- _ => destruct H end;
  repeat split; congruence.

Section Frames.

Variable env : Imports.

Lemma addType_frame (typeName typeId : option string) (this this' : Parser) :
  addType typeName typeId this = Ok this' -> typesFrame this this'.
Proof. unfold addType. intros H. returns H. frame_refl. Qed.

Lemma fillTypes_frame (this this' : Parser) :
  fillTypes this = Ok this' -> typesFrame this this'.
Proof.
  unfold fillTypes.
  apply forEach_preserves; [intros; frame_refl | frame_trans |].
  intros x a b H. returns H. eapply addType_frame; eassumption.
Qed.

Lemma fillEnum_frame (index : nat) (this this' : Parser) :
  fillEnum index this = Ok this' -> enumsFrame this this'.
Proof. unfold fillEnum. intros H. returns H; frame_refl. Qed.

Lemma fillEnums_frame (this this' : Parser) :
  fillEnums this = Ok this' -> enumsFrame this this'.
Proof.
  unfold fillEnums.
  apply forEach_preserves; [intros; frame_refl | frame_trans |].
  intros x a b. apply fillEnum_frame.
Qed.

Lemma checkForUserClass_frame (element : PackagedElement)
  (this this' : Parser) :
  checkForUserClass element this = Ok this' ->
  scanOf this' = scanOf this /\ parsedData this' = parsedData this.
Proof. unfold checkForUserClass. intros H. returns H; now split. Qed.

Lemma addClass_frame (element : PackagedElement) (this this' : Parser) :
  addClass env element this = Ok this' -> classesFrame this this'.
Proof. unfold addClass. intros H. returns H. frame_refl. Qed.

Lemma addRegularField_frame (element : OwnedAttribute)
  (classId : option string) (this this' : Parser) :
  addRegularField env element classId this = Ok this' ->
  classesFrame this this'.
Proof.
  unfold addRegularField, resolveFieldType. intros H. returns H;
    try frame_refl.
  match goal with
  | E : addType _ _ _ = Ok _ |- _ =>
      apply addType_frame in E; unfold typesFrame in E
  end.
  unfold classesFrame. simpl. intuition congruence.
Qed.

Lemma handleAttribute_frame (element : PackagedElement)
  (attribute : OwnedAttribute) (this this' : Parser) :
  handleAttribute env element attribute this = Ok this' ->
  classesFrame this this'.
Proof.
  unfold handleAttribute, addField. intros H.
  destruct (negb (truthy (name (attribute_ attribute)))); [discriminate|].
  destruct (negb (isAnId env (name (attribute_ attribute)))).
  - eapply addRegularField_frame; eassumption.
  - inversion H. frame_refl.
Qed.

Lemma handleAttributes_frame (element : PackagedElement)
  (this this' : Parser) :
  handleAttributes env element this = Ok this' -> classesFrame this this'.
Proof.
  unfold handleAttributes.
  destruct (ownedAttribute element) as [attributes|]; [|discriminate].
  apply forEach_preserves; [intros; frame_refl | frame_trans |].
  intros x a b. apply handleAttribute_frame.
Qed.

Lemma classesFrame_trans (a b c : Parser) :
  classesFrame a b -> classesFrame b c -> classesFrame a c.
Proof. revert a b c. frame_trans. Qed.

Lemma fillClassAndFields_frame (index : nat) (this this' : Parser) :
  fillClassAndFields env index this = Ok this' -> classesFrame this this'.
Proof.
  unfold fillClassAndFields. intros H.
  apply bind_Ok in H. destruct H as (element & _ & H).
  destruct (negb (truthy (name (element_ element)))); [discriminate|].
  apply bind_Ok in H. destruct H as (this1 & H1 & H).
  apply bind_Ok in H. destruct H as (this2 & H2 & H).
  apply checkForUserClass_frame in H1. destruct H1 as [Hs Hd].
  apply addClass_frame in H2.
  assert (H12 : classesFrame this this2).
  { unfold classesFrame in *. rewrite <- Hs, <- Hd. exact H2. }
  destruct (ownedAttribute element).
  - apply handleAttributes_frame in H.
    eapply classesFrame_trans; eassumption.
  - now inversion H; subst.
Qed.

Lemma fillClassesAndFields_frame (this this' : Parser) :
  fillClassesAndFields env this = Ok this' -> classesFrame this this'.
Proof.
  unfold fillClassesAndFields.
  apply forEach_preserves; [intros; frame_refl | frame_trans |].
  intros x a b. apply fillClassAndFields_frame.
Qed.

Lemma fillAssociation_frame (index : nat) (this this' : Parser) :
  fillAssociation index this = Ok this' -> associationsFrame this this'.
Proof. unfold fillAssociation. intros H. returns H. frame_refl. Qed.

Lemma fillAssociations_frame (this this' : Parser) :
  fillAssociations this = Ok this' -> associationsFrame this this'.
Proof.
  unfold fillAssociations.
  apply forEach_preserves; [intros; frame_refl | frame_trans |].
  intros x a b. apply fillAssociation_frame.
Qed.

End Frames.

(* ================================================================= *)
(** ** The phases of one [parse] *)

Lemma at_Some {A : Type} (l : list A) (i : nat) (x : A) :
  at_ (Some l) i = Ok x <-> nth_error l i = Some x.
Proof.
  unfold at_. destruct (nth_error l i); split; intros H;
    inversion H; reflexivity.
Qed.

Section Phases.

Variable env : Imports.

(** A successful [parse] of a fresh parser is a successful run of the five
    phases in order; each phase starts from the scan state of [findElements]
    and from tables that no earlier phase has written. *)
Lemma parse_phases (r : Root) (db : DatabaseTypes)
  (elements : list PackagedElement) (model : ParsedData) :
  packagedElement r = Some elements ->
  parse env (UMLDesignerParser r db) = Ok model ->
  exists this1 this2 this3 this4 this5,
    fillTypes this1 = Ok this2 /\
    fillEnums this2 = Ok this3 /\
    fillClassesAndFields env this3 = Ok this4 /\
    fillAssociations this4 = Ok this5 /\
    model = parsedData this5 /\
    scanned r db elements this1 /\ scanned r db elements this2 /\
    scanned r db elements this3 /\ scanned r db elements this4 /\
    parsedData this1 = emptyParsedData /\
    enums (parsedData this2) = [] /\
    classes (parsedData this3) = [] /\
    fields (parsedData this3) = [] /\
    associations (parsedData this4) = [] /\
    enums (parsedData this5) = enums (parsedData this3) /\
    classes (parsedData this5) = classes (parsedData this4) /\
    fields (parsedData this5) = fields (parsedData this4).
Proof.
  intros Hr H. unfold parse in H.
  apply bind_Ok in H. destruct H as (this1 & H1 & H).
  apply bind_Ok in H. destruct H as (this2 & H2 & H).
  apply bind_Ok in H. destruct H as (this3 & H3 & H).
  apply bind_Ok in H. destruct H as (this4 & H4 & H).
  apply bind_Ok in H. destruct H as (this5 & H5 & H).
  inversion H; subst model; clear H.
  exists this1, this2, this3, this4, this5.
  unfold findElements, UMLDesignerParser, findConstraints in H1.
  simpl in H1. rewrite Hr in H1.
  pose proof (forEachIndexed_classify elements 0 (AbstractParser r db)) as S1.
  simpl in S1. injection H1 as E1. rewrite E1 in S1. clear E1.
  destruct S1 as (Sr & Sd & Sp & Su & St & Se & Sc & Sa).
  assert (Hs1 : scanned r db elements this1).
  { unfold scanned, scanOf. now rewrite Sr, Sd, St, Se, Sc, Sa. }
  pose proof (fillTypes_frame _ _ H2) as (F2s & _ & F2e & F2c & F2f & F2a).
  pose proof (fillEnums_frame _ _ H3) as (F3s & _ & _ & F3c & F3f & F3a).
  pose proof (fillClassesAndFields_frame env _ _ H4) as (F4s & F4e & F4a).
  pose proof (fillAssociations_frame _ _ H5)
    as (F5s & _ & _ & F5e & F5c & F5f).
  unfold scanned in *.
  repeat split; try assumption; try congruence.
  - rewrite F2e, Sp. reflexivity.
  - rewrite F3c, F2c, Sp. reflexivity.
  - rewrite F3f, F2f, Sp. reflexivity.
  - rewrite F4a, F3a, F2a, Sp. reflexivity.
Qed.

Lemma scanned_root (r : Root) (db : DatabaseTypes)
  (elements : list PackagedElement) (this : Parser) :
  scanned r db elements this -> root this = r.
Proof. unfold scanned, scanOf. now inversion 1. Qed.

Lemma scanned_databaseTypes (r : Root) (db : DatabaseTypes)
  (elements : list PackagedElement) (this : Parser) :
  scanned r db elements this -> databaseTypes this = db.
Proof. unfold scanned, scanOf. now inversion 1. Qed.

Lemma scanned_enums (r : Root) (db : DatabaseTypes)
  (elements : list PackagedElement) (this : Parser) :
  scanned r db elements this ->
  rawEnumsIndexes this = indexesOf (hasType "uml:Enumeration") elements 0.
Proof. unfold scanned, scanOf. now inversion 1. Qed.

Lemma scanned_classes (r : Root) (db : DatabaseTypes)
  (elements : list PackagedElement) (this : Parser) :
  scanned r db elements this ->
  rawClassesIndexes this = indexesOf (hasType "uml:Class") elements 0.
Proof. unfold scanned, scanOf. now inversion 1. Qed.

Lemma scanned_associations (r : Root) (db : DatabaseTypes)
  (elements : list PackagedElement) (this : Parser) :
  scanned r db elements this ->
  rawAssociationsIndexes this =
    indexesOf (hasType "uml:Association") elements 0.
Proof. unfold scanned, scanOf. now inversion 1. Qed.

End Phases.

(* ================================================================= *)
(** ** Associations *)

(** What [fillAssociations] appends: one entry per index, built from the
    element at that index and keyed by its [xmi:id]. *)
Lemma fillAssociations_log (this this' : Parser) :
  fillAssociations this = Ok this' ->
  exists new,
    associations (parsedData this') = associations (parsedData this) ++ new /\
    Forall2
      (fun i e => exists a,
         at_ (packagedElement (root this)) i = Ok a /\
         fst e = xmi_id (element_ a) /\
         buildAssociationData a = Ok (snd e))
      (rawAssociationsIndexes this) new.
Proof.
  unfold fillAssociations. intros H.
  apply (forEach_log fillAssociation
           (fun s => associations (parsedData s))
           (fun s => root s = root this)
           (fun i es => exists e, es = [e] /\ exists a,
              at_ (packagedElement (root this)) i = Ok a /\
              fst e = xmi_id (element_ a) /\
              buildAssociationData a = Ok (snd e))) in H;
    [| | reflexivity].
  - destruct H as (_ & ess & Hlog & HF).
    exists (concat ess). split; [exact Hlog|].
    now apply Forall2_singletons.
  - clear. intros i s s' Hroot H. unfold fillAssociation in H.
    apply bind_Ok in H. destruct H as (a & Ha & H).
    apply bind_Ok in H. destruct H as (d & Hd & H).
    inversion H; subst s'; clear H. simpl. split; [exact Hroot|].
    exists [(xmi_id (element_ a), d)]. split; [reflexivity|].
    exists (xmi_id (element_ a), d). split; [reflexivity|].
    exists a. rewrite <- Hroot. now repeat split.
Qed.

(** The associations of a parsed document are those built from its
    association elements, in document order. *)
Lemma parse_associations (env : Imports) (r : Root) (db : DatabaseTypes)
  (elements : list PackagedElement) (model : ParsedData) :
  packagedElement r = Some elements ->
  parse env (UMLDesignerParser r db) = Ok model ->
  Forall2
    (fun a e =>
       fst e = xmi_id (element_ a) /\ buildAssociationData a = Ok (snd e))
    (filter (hasType "uml:Association") elements) (associations model).
Proof.
  intros Hr H.
  destruct (parse_phases env r db elements model Hr H)
    as (this1 & this2 & this3 & this4 & this5 & _ & _ & _ & H5 & -> &
        _ & _ & _ & S4 & _ & _ & _ & _ & A4 & _).
  apply fillAssociations_log in H5. destruct H5 as (new & Hlog & HF).
  rewrite A4 in Hlog. simpl in Hlog. rewrite Hlog.
  rewrite (scanned_root _ _ _ _ S4), Hr,
    (scanned_associations _ _ _ _ S4) in HF.
  apply (Forall2_indexesOf _ _ elements []). simpl.
  eapply Forall2_impl; [|exact HF].
  intros i e (a & Ha & Hid & Hd). exists a.
  apply at_Some in Ha. now repeat split.
Qed.

(** Every association that is built has readable ends and bounds, and is the
    literal of [fillAssociations] after its conditional assignments. *)
Lemma buildAssociationData_Ok (a : PackagedElement) (d : AssociationData) :
  buildAssociationData a = Ok d ->
  exists lower0 lower1 upper0 upper1 b,
    lowerBounds a lower0 lower1 /\ upperBounds a upper0 upper1 /\
    ownedCommentBody (ownedComment a) = Ok b /\
    isInjectedFieldInFromRequired d =
      (if strictEq lower0 (Some "0") then None else Some true) /\
    isInjectedFieldInToRequired d =
      (if strictEq lower1 (Some "0") then None else Some true) /\
    association_type d =
      Some (if strictEq upper1 (Some "*")
            then if strictEq upper0 (Some "*")
                 then MANY_TO_MANY else ONE_TO_MANY
            else if strictEq upper0 (Some "*")
                 then MANY_TO_ONE else ONE_TO_ONE) /\
    commentInFrom d = match b with Some b => nth_error b 0 | None => None end /\
    commentInTo d = commentInFrom d.
Proof.
  unfold buildAssociationData. intros H.
  apply bind_Ok in H. destruct H as (end0 & He0 & H).
  apply bind_Ok in H. destruct H as (end1 & He1 & H).
  apply bind_Ok in H. destruct H as (lower0 & Hl0 & H).
  apply bind_Ok in H. destruct H as (lower1 & Hl1 & H).
  apply bind_Ok in H. destruct H as (upper1 & Hu1 & H).
  apply bind_Ok in H. destruct H as (upper0 & Hu0 & H).
  apply bind_Ok in H. destruct H as (b & Hb & H).
  inversion H; subst d; clear H.
  exists lower0, lower1, upper0, upper1, b.
  split; [now exists end0, end1|]. split; [now exists end0, end1|].
  split; [exact Hb|].
  destruct (strictEq lower0 (Some "0")), (strictEq lower1 (Some "0")),
    (strictEq upper1 (Some "*")), (strictEq upper0 (Some "*")), b;
    simpl; repeat split; reflexivity.
Qed.

(** Turns the outcomes of [===] tests in the context into (in)equalities. *)
Ltac reflect_strictEq :=
  repeat match goal with
  | E : strictEq _ _ = true |- _ => apply strictEq_true in E
  | E : strictEq _ _ = false |- _ => apply strictEq_false in E
  end.

(** The bounds of an association element are unique. *)
Lemma lowerBounds_unique (a : PackagedElement)
  (x0 x1 y0 y1 : option string) :
  lowerBounds a x0 x1 -> lowerBounds a y0 y1 -> x0 = y0 /\ x1 = y1.
Proof.
  intros (e0 & e1 & A0 & A1 & L0 & L1) (f0 & f1 & B0 & B1 & M0 & M1).
  split; congruence.
Qed.

Lemma upperBounds_unique (a : PackagedElement)
  (x0 x1 y0 y1 : option string) :
  upperBounds a x0 x1 -> upperBounds a y0 y1 -> x0 = y0 /\ x1 = y1.
Proof.
  intros (e0 & e1 & A0 & A1 & L0 & L1) (f0 & f1 & B0 & B1 & M0 & M1).
  split; congruence.
Qed.

(** An association element with two ends, readable bounds and a well-formed
    comment always gets its data built. *)
Lemma buildAssociationData_total (a : PackagedElement)
  (lower0 lower1 upper0 upper1 : option string) (b : option (list string)) :
  lowerBounds a lower0 lower1 -> upperBounds a upper0 upper1 ->
  ownedCommentBody (ownedComment a) = Ok b ->
  exists d, buildAssociationData a = Ok d.
Proof.
  intros (e0 & e1 & A0 & A1 & L0 & L1) (f0 & f1 & B0 & B1 & M0 & M1) Hb.
  assert (f0 = e0) by congruence. assert (f1 = e1) by congruence. subst.
  unfold buildAssociationData.
  rewrite A0, A1. simpl. rewrite L0, L1, M0, M1. simpl. rewrite Hb. simpl.
  eexists. reflexivity.
Qed.

Lemma buildAssociationData_requiredFlags (a : PackagedElement)
  (d : AssociationData) :
  buildAssociationData a = Ok d -> requiredFlags a d.
Proof.
  intros H. apply buildAssociationData_Ok in H.
  destruct H as (lower0 & lower1 & _ & _ & _ & HL & _ & _ & HF & HT & _).
  exists lower0, lower1. split; [exact HL|].
  rewrite HF, HT.
  destruct (strictEq lower0 (Some "0")) eqn:E0,
    (strictEq lower1 (Some "0")) eqn:E1;
    reflect_strictEq;
    repeat split; intros; first [contradiction | congruence].
Qed.

Lemma buildAssociationData_derivedCardinality (a : PackagedElement)
  (d : AssociationData) :
  buildAssociationData a = Ok d -> derivedCardinality a d.
Proof.
  intros H. apply buildAssociationData_Ok in H.
  destruct H as (_ & _ & upper0 & upper1 & _ & _ & HU & _ & _ & _ & HT & _).
  exists upper0, upper1. split; [exact HU|].
  rewrite HT.
  destruct (strictEq upper1 (Some "*")) eqn:E1,
    (strictEq upper0 (Some "*")) eqn:E0;
    reflect_strictEq;
    (repeat split; try (intros; first [contradiction | congruence]));
    eexists; (split; [reflexivity | intros c Hc; congruence]).
Qed.

Lemma buildAssociationData_commentOnBothEnds (a : PackagedElement)
  (d : AssociationData) :
  buildAssociationData a = Ok d -> commentOnBothEnds a d.
Proof.
  intros H. apply buildAssociationData_Ok in H.
  destruct H as (_ & _ & _ & _ & b & _ & _ & Hb & _ & _ & _ & HF & HT).
  unfold commentOnBothEnds. rewrite HT, HF, Hb.
  repeat split; intros; try congruence.
  - inversion H. reflexivity.
  - inversion H. reflexivity.
  - inversion H. reflexivity.
Qed.

(** The flags as [fillAssociations] sets them, on every association element
    of a parsed document: [isInjectedFieldInFromRequired] is set to true when
    the lower bound of end 0 is not ['0'] and [isInjectedFieldInToRequired]
    when the lower bound of end 1 is not ['0']; a flag whose end has lower
    bound ['0'] is not set.  The field injected in [from] is however the one
    named by end 1, and the one injected in [to] the one named by end 0. *)
Lemma required_flags_of_parsed_associations (env : Imports) (r : Root)
  (db : DatabaseTypes) (elements : list PackagedElement)
  (model : ParsedData) :
  packagedElement r = Some elements ->
  parse env (UMLDesignerParser r db) = Ok model ->
  Forall2
    (fun a e => fst e = xmi_id (element_ a) /\ requiredFlags a (snd e))
    (filter (hasType "uml:Association") elements) (associations model).
Proof.
  intros Hr H.
  eapply Forall2_impl; [|exact (parse_associations env r db _ _ Hr H)].
  intros a e (Hid & Hd). split; [exact Hid|].
  now apply buildAssociationData_requiredFlags.
Qed.

Lemma required_flags_of_parsed_associations_witness :
  exists model,
    parse Sample.imports (Sample.document Sample.shop) = Ok model /\
    Forall2
      (fun a e => fst e = xmi_id (element_ a) /\ requiredFlags a (snd e))
      (filter (hasType "uml:Association") Sample.shop) (associations model).
Proof.
  eexists. split.
  - vm_compute. reflexivity.
  - apply (required_flags_of_parsed_associations Sample.imports
             {| packagedElement := Some Sample.shop |} Sample.sql).
    + reflexivity.
    + vm_compute. reflexivity.
Defined.

(** C1: the code departs from the claim.  On an association whose end 0 has
    lower bound ['1'] and whose end 1 has lower bound ['0'], the claim has the
    field injected in [to] required and no other; the parsed association has
    [isInjectedFieldInToRequired] unset and [isInjectedFieldInFromRequired]
    set, although the field injected in [from] is the one that end 1 names
    and the field injected in [to] the one that end 0 names. *)
Theorem required_flag_of_end0_is_not_InTo :
  exists end0 end1 model d,
    ownedEnd Sample.customerToInvoice = Some [end0; end1] /\
    lowerBound end0 = Ok (Some "1") /\
    lowerBound end1 = Ok (Some "0") /\
    parse Sample.imports (Sample.document [Sample.customerToInvoice])
      = Ok model /\
    associations model = [(Some "x1", d)] /\
    isInjectedFieldInToRequired d = None /\
    isInjectedFieldInFromRequired d = Some true /\
    injectedFieldInFrom d = name (end_ end1) /\
    injectedFieldInTo d = name (end_ end0).
Proof.
  do 4 eexists. repeat split; vm_compute; reflexivity.
Qed.

(** C3: for every association element of a parsed document, the inserted
    association has exactly one cardinality, decided by which upper bounds
    are ['*']: both, MANY_TO_MANY; end 1 only, ONE_TO_MANY; end 0 only,
    MANY_TO_ONE; neither, ONE_TO_ONE. *)
Theorem cardinality_of_parsed_associations (env : Imports) (r : Root)
  (db : DatabaseTypes) (elements : list PackagedElement)
  (model : ParsedData) :
  packagedElement r = Some elements ->
  parse env (UMLDesignerParser r db) = Ok model ->
  Forall2
    (fun a e => fst e = xmi_id (element_ a) /\ derivedCardinality a (snd e))
    (filter (hasType "uml:Association") elements) (associations model).
Proof.
  intros Hr H.
  eapply Forall2_impl; [|exact (parse_associations env r db _ _ Hr H)].
  intros a e (Hid & Hd). split; [exact Hid|].
  now apply buildAssociationData_derivedCardinality.
Qed.

Lemma cardinality_of_parsed_associations_witness :
  exists model,
    parse Sample.imports (Sample.document Sample.shop) = Ok model /\
    Forall2
      (fun a e => fst e = xmi_id (element_ a) /\ derivedCardinality a (snd e))
      (filter (hasType "uml:Association") Sample.shop) (associations model).
Proof.
  eexists. split.
  - vm_compute. reflexivity.
  - apply (cardinality_of_parsed_associations Sample.imports
             {| packagedElement := Some Sample.shop |} Sample.sql).
    + reflexivity.
    + vm_compute. reflexivity.
Defined.

(** C9: for every association element of a parsed document, the inserted
    association has [commentInTo] equal to [commentInFrom]: both are the
    first body of the first owned comment when the element has one with a
    body, and neither is set otherwise. *)
Theorem comments_of_parsed_associations (env : Imports) (r : Root)
  (db : DatabaseTypes) (elements : list PackagedElement)
  (model : ParsedData) :
  packagedElement r = Some elements ->
  parse env (UMLDesignerParser r db) = Ok model ->
  Forall2
    (fun a e => fst e = xmi_id (element_ a) /\ commentOnBothEnds a (snd e))
    (filter (hasType "uml:Association") elements) (associations model).
Proof.
  intros Hr H.
  eapply Forall2_impl; [|exact (parse_associations env r db _ _ Hr H)].
  intros a e (Hid & Hd). split; [exact Hid|].
  now apply buildAssociationData_commentOnBothEnds.
Qed.

Lemma comments_of_parsed_associations_witness :
  exists model,
    parse Sample.imports (Sample.document Sample.shop) = Ok model /\
    Forall2
      (fun a e => fst e = xmi_id (element_ a) /\ commentOnBothEnds a (snd e))
      (filter (hasType "uml:Association") Sample.shop) (associations model).
Proof.
  eexists. split.
  - vm_compute. reflexivity.
  - apply (comments_of_parsed_associations Sample.imports
             {| packagedElement := Some Sample.shop |} Sample.sql).
    + reflexivity.
    + vm_compute. reflexivity.
Defined.

(* ================================================================= *)
(** ** Enumerations *)

(** The literals of an accepted enumeration all have a name that is not
    empty, and the values are their names in upper case, in the order of the
    literals. *)
Lemma pushLiteral_Ok (literal : OwnedLiteral) (values values' : list string) :
  pushLiteral literal values = Ok values' ->
  exists n, name (literal_ literal) = Some n /\ n <> "" /\
            values' = values ++ [toUpperCase n].
Proof.
  unfold pushLiteral, callToUpperCase. intros H.
  destruct (name (literal_ literal)) as [n|]; simpl in H; [|discriminate].
  destruct (toUpperCase n =? "")%string eqn:E; [discriminate|].
  inversion H; subst. exists n. repeat split.
  apply String.eqb_neq in E. intros ->. now apply E.
Qed.

Lemma forEach_pushLiteral_Ok (literals : list OwnedLiteral)
  (values : list string) :
  forEach pushLiteral literals [] = Ok values ->
  Forall (fun l => truthy (name (literal_ l)) = true) literals /\
  values = map (fun l => toUpperCase (interpolate (name (literal_ l))))
             literals.
Proof.
  intros H.
  apply (forEach_log pushLiteral (fun v => v) (fun _ => True)
           (fun l es => truthy (name (literal_ l)) = true /\
              es = [toUpperCase (interpolate (name (literal_ l)))])) in H;
    [| | exact I].
  - destruct H as (_ & ess & Hlog & HF). simpl in Hlog. subst values.
    clear -HF. induction HF as [|l es ls ess (Ht & ->) _ (IH1 & IH2)]; simpl.
    + now split.
    + split; [now constructor | now rewrite IH2].
  - clear. intros l v v' _ H. apply pushLiteral_Ok in H.
    destruct H as (n & Hn & Hne & ->). split; [exact I|].
    exists [toUpperCase n]. split; [reflexivity|].
    rewrite Hn. simpl. split; [|reflexivity].
    now apply negb_true_iff, String.eqb_neq.
Qed.

(** A literal whose name is the empty string stops the loop with
    [NullPointer]; one without a name attribute stops it with the
    [TypeError] of [undefined.toUpperCase()]. *)
Lemma pushLiteral_empty (literal : OwnedLiteral) (values : list string) :
  name (literal_ literal) = Some "" ->
  pushLiteral literal values =
    Throw (buildException NullPointer
             "The Enumeration's values can't be null.").
Proof. unfold pushLiteral. intros ->. reflexivity. Qed.

Lemma pushLiteral_undefined (literal : OwnedLiteral) (values : list string) :
  name (literal_ literal) = None ->
  pushLiteral literal values = Throw TypeError.
Proof. unfold pushLiteral. intros ->. reflexivity. Qed.

Lemma forEach_pushLiteral_named (before : list OwnedLiteral) :
  forall values,
    Forall (fun l => truthy (name (literal_ l)) = true) before ->
    exists values', forEach pushLiteral before values = Ok values'.
Proof.
  induction before as [|l before IH]; intros values H; simpl.
  - now exists values.
  - inversion H as [|? ? Hl Hrest]; subst.
    apply truthy_Some in Hl. destruct Hl as (n & Hn & Hne).
    unfold pushLiteral at 1. rewrite Hn. simpl.
    destruct (toUpperCase n =? "")%string eqn:E.
    + apply String.eqb_eq in E. apply (proj1 (toUpperCase_empty n)) in E.
      contradiction.
    + simpl. now apply IH.
Qed.

(** An enumeration without a name (no attribute, or the empty string) is
    refused with [NullPointer]. *)
Lemma fillEnum_unnamed (index : nat) (this : Parser)
  (enumElement : PackagedElement) :
  at_ (packagedElement (root this)) index = Ok enumElement ->
  truthy (name (element_ enumElement)) = false ->
  fillEnum index this =
    Throw (buildException NullPointer
             "The enumeration's name can't be null.").
Proof. unfold fillEnum. intros -> Hn. simpl. now rewrite Hn. Qed.

(** The first literal without a usable name decides how a named enumeration
    is refused. *)
Lemma fillEnum_literal_empty (index : nat) (this : Parser)
  (enumElement : PackagedElement) (before after : list OwnedLiteral)
  (literal : OwnedLiteral) :
  at_ (packagedElement (root this)) index = Ok enumElement ->
  truthy (name (element_ enumElement)) = true ->
  ownedLiteral enumElement = Some (before ++ literal :: after) ->
  Forall (fun l => truthy (name (literal_ l)) = true) before ->
  name (literal_ literal) = Some "" ->
  fillEnum index this =
    Throw (buildException NullPointer
             "The Enumeration's values can't be null.").
Proof.
  unfold fillEnum. intros -> Hn Ho Hb Hl. simpl. rewrite Hn. simpl.
  rewrite Ho.
  rewrite forEach_app.
  destruct (forEach_pushLiteral_named before [] Hb) as (v & ->). simpl.
  now rewrite (pushLiteral_empty _ _ Hl).
Qed.

Lemma pushLiteral_named (literal : OwnedLiteral) (values : list string)
  (c : ascii) (n : string) :
  name (literal_ literal) = Some (String c n) ->
  pushLiteral literal values = Ok (values ++ [toUpperCase (String c n)]).
Proof. unfold pushLiteral. intros ->. reflexivity. Qed.

(** Over literals that all carry a [name] attribute, the loop returns when
    every name is non-empty and fails with [NullPointer] otherwise. *)
Lemma forEach_pushLiteral_haveName (literals : list OwnedLiteral) :
  Forall (fun l => name (literal_ l) <> None) literals ->
  forall values,
    if existsb (fun l => negb (truthy (name (literal_ l)))) literals
    then forEach pushLiteral literals values =
           Throw (buildException NullPointer
                    "The Enumeration's values can't be null.")
    else exists values', forEach pushLiteral literals values = Ok values'.
Proof.
  induction 1 as [|l literals Hl _ IH]; intros values.
  - now exists values.
  - cbn [existsb forEach].
    destruct (name (literal_ l)) as [[|c n]|] eqn:Hn; [| |contradiction].
    + now rewrite (pushLiteral_empty _ _ Hn).
    + rewrite (pushLiteral_named _ _ _ _ Hn). simpl. apply IH.
Qed.

(** An enumeration element whose literals all carry a [name] attribute is
    refused with [NullPointer] when it or one of its literals lacks a name,
    and accepted otherwise. *)
Lemma fillEnum_haveName (index : nat) (this : Parser)
  (enumElement : PackagedElement) :
  at_ (packagedElement (root this)) index = Ok enumElement ->
  literalsHaveName enumElement ->
  if lacksAName enumElement
  then exists message,
         fillEnum index this = Throw (buildException NullPointer message)
  else exists this', fillEnum index this = Ok this'.
Proof.
  unfold fillEnum, lacksAName, literalsHaveName, literalsOf.
  intros -> Hl. simpl.
  destruct (truthy (name (element_ enumElement))); simpl;
    [|eexists; reflexivity].
  destruct (ownedLiteral enumElement) as [literals|]; simpl;
    [|eexists; reflexivity].
  pose proof (forEach_pushLiteral_haveName literals Hl []) as H.
  destruct (existsb _ literals).
  - rewrite H. simpl. eexists. reflexivity.
  - destruct H as (values' & ->). simpl. eexists. reflexivity.
Qed.

(** The enumeration phase over elements whose literals all carry a [name]
    attribute fails with [NullPointer] as soon as one of the enumerations or
    one of their literals lacks a name. *)
Lemma fillEnums_NullPointer (indexes : list nat) :
  forall this,
    Forall (fun i => exists e,
              at_ (packagedElement (root this)) i = Ok e /\
              literalsHaveName e) indexes ->
    Exists (fun i => exists e,
              at_ (packagedElement (root this)) i = Ok e /\
              lacksAName e = true) indexes ->
    exists message,
      forEach fillEnum indexes this
      = Throw (buildException NullPointer message).
Proof.
  induction indexes as [|i indexes IH]; intros this Hall Hex.
  - inversion Hex.
  - inversion Hall as [|? ? (e & He & Hl) Hrest]; subst. simpl.
    pose proof (fillEnum_haveName i this e He Hl) as H.
    destruct (lacksAName e) eqn:Hlack.
    + destruct H as (message & ->). simpl. now exists message.
    + destruct H as (this' & H). rewrite H. simpl.
      assert (Hroot : root this' = root this).
      { apply fillEnum_frame in H. destruct H as (Hs & _).
        now apply scanOf_root. }
      apply IH; rewrite Hroot; [exact Hrest|].
      inversion Hex as [? ? (e' & He' & Hlack')|? ? Htail]; subst;
        [|exact Htail].
      congruence.
Qed.

Lemma fillEnums_log (this this' : Parser) :
  fillEnums this = Ok this' ->
  exists new,
    enums (parsedData this') = enums (parsedData this) ++ new /\
    Forall2
      (fun i e => exists a,
         at_ (packagedElement (root this)) i = Ok a /\ acceptedEnum a e)
      (rawEnumsIndexes this) new.
Proof.
  unfold fillEnums. intros H.
  apply (forEach_log fillEnum
           (fun s => enums (parsedData s))
           (fun s => root s = root this)
           (fun i es => exists e, es = [e] /\ exists a,
              at_ (packagedElement (root this)) i = Ok a /\
              acceptedEnum a e)) in H;
    [| | reflexivity].
  - destruct H as (_ & ess & Hlog & HF).
    exists (concat ess). split; [exact Hlog|].
    now apply Forall2_singletons.
  - clear. intros i s s' Hroot H. unfold fillEnum in H.
    apply bind_Ok in H. destruct H as (a & Ha & H).
    destruct (truthy (name (element_ a))) eqn:Hn; simpl in H;
      [|discriminate].
    apply bind_Ok in H. destruct H as (vals & Hv & H).
    inversion H; subst s'; clear H. simpl. split; [exact Hroot|].
    eexists. split; [reflexivity|].
    eexists. split; [reflexivity|].
    exists a. rewrite <- Hroot. split; [exact Ha|].
    unfold acceptedEnum, literalsOf. simpl.
    destruct (ownedLiteral a) as [literals|].
    + apply forEach_pushLiteral_Ok in Hv. destruct Hv as (HF & ->).
      now repeat split.
    + inversion Hv. now repeat split.
Qed.

(** The enumerations of a parsed document are those of its enumeration
    elements, in document order, each accepted. *)
Lemma parse_enums (env : Imports) (r : Root) (db : DatabaseTypes)
  (elements : list PackagedElement) (model : ParsedData) :
  packagedElement r = Some elements ->
  parse env (UMLDesignerParser r db) = Ok model ->
  Forall2 acceptedEnum
    (filter (hasType "uml:Enumeration") elements) (enums model).
Proof.
  intros Hr H.
  destruct (parse_phases env r db elements model Hr H)
    as (this1 & this2 & this3 & this4 & this5 & _ & H3 & _ & _ & -> &
        _ & S2 & _ & _ & _ & E2 & _ & _ & _ & E5 & _).
  apply fillEnums_log in H3. destruct H3 as (new & Hlog & HF).
  rewrite E2 in Hlog. simpl in Hlog. rewrite E5, Hlog.
  rewrite (scanned_root _ _ _ _ S2), Hr, (scanned_enums _ _ _ _ S2) in HF.
  apply (Forall2_indexesOf _ _ elements []). simpl.
  eapply Forall2_impl; [|exact HF].
  intros i e (a & Ha & Hacc). exists a.
  apply at_Some in Ha. now split.
Qed.

(** C4 (where the code departs from it): a named enumeration whose first
    literal without a usable name has no [name] attribute at all is refused
    with the [TypeError] of [undefined.toUpperCase()], not with the
    [NullPointer] exception raised for a literal whose name is empty. *)
Theorem literal_without_name_attribute_is_a_TypeError (index : nat)
  (this : Parser) (enumElement : PackagedElement)
  (before after : list OwnedLiteral) (literal : OwnedLiteral) :
  at_ (packagedElement (root this)) index = Ok enumElement ->
  truthy (name (element_ enumElement)) = true ->
  ownedLiteral enumElement = Some (before ++ literal :: after) ->
  Forall (fun l => truthy (name (literal_ l)) = true) before ->
  name (literal_ literal) = None ->
  fillEnum index this = Throw TypeError.
Proof.
  unfold fillEnum. intros -> Hn Ho Hb Hl. simpl. rewrite Hn. simpl.
  rewrite Ho.
  rewrite forEach_app.
  destruct (forEach_pushLiteral_named before [] Hb) as (v & ->). simpl.
  now rewrite (pushLiteral_undefined _ _ Hl).
Qed.

Lemma literal_without_name_attribute_is_a_TypeError_witness :
  fillEnum 0 (Sample.document [Sample.statusWithUnnamedLiteral])
  = Throw TypeError /\
  parse Sample.imports (Sample.document [Sample.statusWithUnnamedLiteral])
  = Throw TypeError /\
  parse Sample.imports (Sample.document [Sample.statusWithEmptyLiteral])
  = Throw (buildException NullPointer
             "The Enumeration's values can't be null.").
Proof.
  split; [|split; reflexivity].
  apply (literal_without_name_attribute_is_a_TypeError 0
           (Sample.document [Sample.statusWithUnnamedLiteral])
           Sample.statusWithUnnamedLiteral
           [Sample.literalOf (Some "active")] [] (Sample.literalOf None)).
  - reflexivity.
  - reflexivity.
  - reflexivity.
  - repeat constructor.
  - reflexivity.
Defined.

(* ================================================================= *)
(** ** Classes and fields *)

Section Fields.

Variable env : Imports.

Lemma checkForReserved_Ok (reserved : bool) (offending : string) (u : unit) :
  checkForReserved reserved true offending = Ok u -> reserved = false.
Proof. unfold checkForReserved. now destruct reserved. Qed.

Lemma checkForReserved_true (offending : string) :
  checkForReserved true true offending
  = Throw (buildException ReservedName offending).
Proof. reflexivity. Qed.

Lemma checkForReserved_false (offending : string) :
  checkForReserved false true offending = Ok tt.
Proof. reflexivity. Qed.

Lemma addRegularField_Ok (a : OwnedAttribute) (classId : option string)
  (this this' : Parser) :
  addRegularField env a classId this = Ok this' ->
  scanOf this' = scanOf this /\
  exists e,
    fields (parsedData this') = fields (parsedData this) ++ [e] /\
    insertedField env (databaseTypes this) classId a e.
Proof.
  intros H.
  pose proof (addRegularField_frame env _ _ _ _ H) as (Hs & _).
  split; [exact Hs|].
  unfold addRegularField in H.
  apply bind_Ok in H. destruct H as (u & Hres & H).
  apply checkForReserved_Ok in Hres.
  apply bind_Ok in H. destruct H as ((ty & this1) & Hty & H).
  apply bind_Ok in H. destruct H as (comment & Hc & H).
  inversion H; subst this'; clear H. simpl.
  unfold resolveFieldType in Hty.
  destruct (truthy (type (attribute_ a))) eqn:Et.
  - inversion Hty; subst. eexists. split; [reflexivity|].
    unfold insertedField. cbn [fst snd field_name field_type].
    do 4 (split; [first [reflexivity | assumption]|]).
    split; [reflexivity | intros Hf; congruence].
  - destruct (attribute_type a) as [l|] eqn:El; [|discriminate].
    apply bind_Ok in Hty. destruct Hty as (t0 & _ & Hty).
    apply bind_Ok in Hty. destruct Hty as (extracted & _ & Hty).
    apply bind_Ok in Hty. destruct Hty as (this2 & Hadd & Hty).
    inversion Hty; subst; clear Hty.
    pose proof (addType_frame _ _ _ _ Hadd) as (_ & _ & _ & _ & Hf & _).
    rewrite Hf. eexists. split; [reflexivity|].
    unfold insertedField. cbn [fst snd field_name field_type].
    do 4 (split; [first [reflexivity | assumption]|]).
    split; [intros Ht; congruence|]. intros _.
    split; [rewrite El; discriminate|].
    exists extracted. split; [reflexivity|].
    unfold addType in Hadd.
    destruct (contains (databaseTypes this)
                (upperFirst (Some (upperFirst (Some extracted))))) eqn:Ec;
      [reflexivity | discriminate].
Qed.

Lemma handleAttribute_Ok (c : PackagedElement) (a : OwnedAttribute)
  (this this' : Parser) :
  handleAttribute env c a this = Ok this' ->
  scanOf this' = scanOf this /\
  exists es,
    fields (parsedData this') = fields (parsedData this) ++ es /\
    attributeHandled env (databaseTypes this) (xmi_id (element_ c)) a es.
Proof.
  unfold handleAttribute, addField, attributeHandled, isRegular. intros H.
  destruct (truthy (name (attribute_ a))) eqn:Hn; simpl in H;
    [|discriminate].
  destruct (negb (isAnId env (name (attribute_ a)))) eqn:Hid.
  - apply addRegularField_Ok in H. destruct H as (Hs & e & Hlog & He).
    split; [exact Hs|]. exists [e]. repeat split; [exact Hlog|].
    now exists e.
  - inversion H; subst. split; [reflexivity|].
    exists []. now rewrite app_nil_r.
Qed.

Lemma handleAttributes_Ok (c : PackagedElement) (this this' : Parser) :
  handleAttributes env c this = Ok this' ->
  scanOf this' = scanOf this /\
  exists ess,
    fields (parsedData this') = fields (parsedData this) ++ concat ess /\
    Forall2 (attributeHandled env (databaseTypes this) (xmi_id (element_ c)))
      (attributesOf c) ess.
Proof.
  unfold handleAttributes, attributesOf.
  destruct (ownedAttribute c) as [attributes|]; [|discriminate].
  intros H.
  apply (forEach_log (handleAttribute env c)
           (fun s => fields (parsedData s))
           (fun s => scanOf s = scanOf this)
           (attributeHandled env (databaseTypes this) (xmi_id (element_ c))))
    in H; [exact H | | reflexivity].
  clear. intros a s s' Hs H.
  apply handleAttribute_Ok in H. destruct H as (Hs' & es & Hlog & Hes).
  split; [congruence|]. exists es. split; [exact Hlog|].
  now rewrite <- (scanOf_databaseTypes _ _ Hs).
Qed.

Lemma addClass_Ok (c : PackagedElement) (this this' : Parser) :
  addClass env c this = Ok this' ->
  scanOf this' = scanOf this /\
  fields (parsedData this') = fields (parsedData this) /\
  isReservedClassName env
    (upperFirst (Some (entityName
       (extractClassName env (name (element_ c)))))) = false /\
  isReservedTableName env
    (tableName (extractClassName env (name (element_ c))))
    (getName (databaseTypes this)) = false.
Proof.
  unfold addClass, checkForReservedClassName, checkForReservedTableName.
  intros H.
  apply bind_Ok in H. destruct H as (u1 & H1 & H).
  apply bind_Ok in H. destruct H as (u2 & H2 & H).
  apply bind_Ok in H. destruct H as (comment & _ & H).
  inversion H; subst this'; clear H.
  apply checkForReserved_Ok in H1. apply checkForReserved_Ok in H2.
  now repeat split.
Qed.

Lemma fillClassAndFields_Ok (index : nat) (this this' : Parser) :
  fillClassAndFields env index this = Ok this' ->
  scanOf this' = scanOf this /\
  exists c es,
    at_ (packagedElement (root this)) index = Ok c /\
    fields (parsedData this') = fields (parsedData this) ++ es /\
    classHandled env (databaseTypes this) c es.
Proof.
  unfold fillClassAndFields. intros H.
  apply bind_Ok in H. destruct H as (c & Hc & H).
  destruct (truthy (name (element_ c))) eqn:Hn; simpl in H; [|discriminate].
  apply bind_Ok in H. destruct H as (this1 & H1 & H).
  apply bind_Ok in H. destruct H as (this2 & H2 & H).
  apply checkForUserClass_frame in H1. destruct H1 as (Hs1 & Hd1).
  apply addClass_Ok in H2. destruct H2 as (Hs2 & Hf2 & Hrc & Hrt).
  rewrite (scanOf_databaseTypes _ _ Hs1) in Hrt.
  assert (Hattrs : exists ess,
    scanOf this' = scanOf this2 /\
    fields (parsedData this') = fields (parsedData this2) ++ concat ess /\
    Forall2 (attributeHandled env (databaseTypes this2) (xmi_id (element_ c)))
      (attributesOf c) ess).
  { destruct (ownedAttribute c) as [attributes|] eqn:Ho.
    - apply handleAttributes_Ok in H. destruct H as (Hs & ess & Hlog & HF).
      now exists ess.
    - inversion H; subst. exists []. simpl. rewrite app_nil_r.
      repeat split. unfold attributesOf. rewrite Ho. constructor. }
  destruct Hattrs as (ess & Hs & Hlog & HF).
  split; [congruence|].
  exists c, (concat ess). split; [exact Hc|].
  split; [rewrite Hlog, Hf2, Hd1; reflexivity|].
  unfold classHandled. repeat split; try assumption.
  exists ess. split; [reflexivity|].
  assert (Hdb : databaseTypes this2 = databaseTypes this).
  { rewrite (scanOf_databaseTypes _ _ Hs2).
    apply (scanOf_databaseTypes _ _ Hs1). }
  now rewrite <- Hdb.
Qed.

Lemma fillClassesAndFields_Ok (this this' : Parser) :
  fillClassesAndFields env this = Ok this' ->
  exists perClass,
    fields (parsedData this') = fields (parsedData this) ++ concat perClass /\
    Forall2
      (fun i es => exists c,
         at_ (packagedElement (root this)) i = Ok c /\
         classHandled env (databaseTypes this) c es)
      (rawClassesIndexes this) perClass.
Proof.
  unfold fillClassesAndFields. intros H.
  apply (forEach_log (fillClassAndFields env)
           (fun s => fields (parsedData s))
           (fun s => scanOf s = scanOf this)
           (fun i es => exists c,
              at_ (packagedElement (root this)) i = Ok c /\
              classHandled env (databaseTypes this) c es))
    in H; [now destruct H | | reflexivity].
  clear. intros i s s' Hs H.
  apply fillClassAndFields_Ok in H.
  destruct H as (Hs' & c & es & Hc & Hlog & Hes).
  split; [congruence|]. exists es. split; [exact Hlog|].
  exists c.
  now rewrite <- (scanOf_root _ _ Hs), <- (scanOf_databaseTypes _ _ Hs).
Qed.

(** The fields of a parsed document, class element by class element in
    document order. *)
Lemma parse_fields (r : Root) (db : DatabaseTypes)
  (elements : list PackagedElement) (model : ParsedData) :
  packagedElement r = Some elements ->
  parse env (UMLDesignerParser r db) = Ok model ->
  exists perClass,
    fields model = concat perClass /\
    Forall2 (classHandled env db)
      (filter (hasType "uml:Class") elements) perClass.
Proof.
  intros Hr H.
  destruct (parse_phases env r db elements model Hr H)
    as (this1 & this2 & this3 & this4 & this5 & _ & _ & H4 & _ & -> &
        _ & _ & S3 & _ & _ & _ & _ & F3 & _ & _ & _ & F5).
  apply fillClassesAndFields_Ok in H4. destruct H4 as (perClass & Hlog & HF).
  rewrite F3 in Hlog. simpl in Hlog.
  exists perClass. split; [now rewrite F5|].
  rewrite (scanned_root _ _ _ _ S3), Hr, (scanned_classes _ _ _ _ S3),
    (scanned_databaseTypes _ _ _ _ S3) in HF.
  apply (Forall2_indexesOf _ _ elements []). simpl.
  eapply Forall2_impl; [|exact HF].
  intros i e (c & Hc & Hcl). exists c.
  apply at_Some in Hc. now split.
Qed.

End Fields.

(* ================================================================= *)
(** ** Properties of the fields *)

Lemma Forall2_In_left {A B : Type} (R : A -> B -> Prop) (l : list A)
  (l' : list B) (x : A) :
  Forall2 R l l' -> In x l -> exists y, In y l' /\ R x y.
Proof.
  induction 1 as [|a b l l' HR _ IH]; intros Hin; [contradiction|].
  destruct Hin as [->|Hin].
  - exists b. split; [now left | exact HR].
  - destruct (IH Hin) as (y & Hy & HRy). exists y. split; [now right|exact HRy].
Qed.

Lemma Forall2_Forall_left {A B : Type} (R : A -> B -> Prop) (P : A -> Prop)
  (l : list A) (l' : list B) :
  (forall x y, R x y -> P x) -> Forall2 R l l' -> Forall P l.
Proof. intros HP. induction 1; constructor; eauto. Qed.

(** The fields of a handled class are those of its regular attributes. *)
Lemma classHandled_fields (env : Imports) (db : DatabaseTypes)
  (c : PackagedElement)
  (es : list (option string * option string * FieldData)) :
  classHandled env db c es ->
  Forall2 (insertedField env db (xmi_id (element_ c)))
    (filter (isRegular env) (attributesOf c)) es.
Proof.
  intros (_ & _ & _ & ess & -> & HF).
  apply Forall2_filtered. eapply Forall2_impl; [|exact HF].
  intros a es (_ & H). exact H.
Qed.

(** C5: in a parsed document, the fields of the model are, class element by
    class element, those of the attributes whose name does not follow the
    identifier convention, in the order of these attributes; an attribute
    whose name follows it has no field, wherever it stands among the
    attributes of its class. *)
Theorem identifier_attributes_get_no_field (env : Imports) (r : Root)
  (db : DatabaseTypes) (elements : list PackagedElement)
  (model : ParsedData) :
  packagedElement r = Some elements ->
  parse env (UMLDesignerParser r db) = Ok model ->
  exists perClass,
    fields model = concat perClass /\
    Forall2
      (fun c es =>
         Forall2
           (fun a e =>
              fst (fst e) = xmi_id (element_ c) /\
              snd (fst e) = xmi_id (attribute_ a) /\
              field_name (snd e) = lowerFirst (name (attribute_ a)))
           (filter (fun a => negb (isAnId env (name (attribute_ a))))
              (attributesOf c))
           es)
      (filter (hasType "uml:Class") elements) perClass.
Proof.
  intros Hr H.
  destruct (parse_fields env r db elements model Hr H) as (perClass & Hf & HF).
  exists perClass. split; [exact Hf|].
  eapply Forall2_impl; [|exact HF].
  intros c es Hc. apply classHandled_fields in Hc.
  eapply Forall2_impl; [|exact Hc].
  intros a e (H1 & H2 & H3 & _). now repeat split.
Qed.

Lemma identifier_attributes_get_no_field_witness :
  exists model perClass,
    parse Sample.imports (Sample.document Sample.shop) = Ok model /\
    fields model = concat perClass /\
    Forall2
      (fun c es =>
         Forall2
           (fun a e =>
              fst (fst e) = xmi_id (element_ c) /\
              snd (fst e) = xmi_id (attribute_ a) /\
              field_name (snd e) = lowerFirst (name (attribute_ a)))
           (filter
              (fun a => negb (isAnId Sample.imports (name (attribute_ a))))
              (attributesOf c))
           es)
      (filter (hasType "uml:Class") Sample.shop) perClass.
Proof.
  eexists.
  destruct (identifier_attributes_get_no_field Sample.imports
              {| packagedElement := Some Sample.shop |} Sample.sql
              Sample.shop _ eq_refl eq_refl) as (perClass & Hf & HF).
  exists perClass. split; [reflexivity|]. split; [exact Hf | exact HF].
Defined.

(** C2 (as amended): in a parsed document, the field inserted for an
    attribute that carries an inline type attribute has the attribute's name
    with a lower-case first letter and the inline type as it is written, with
    no change of letter case: the field [name] of inline type [string] yields
    a field of name [name] and type [string]. *)
Theorem inline_type_is_kept_as_written (env : Imports) (r : Root)
  (db : DatabaseTypes) (elements : list PackagedElement)
  (model : ParsedData) :
  packagedElement r = Some elements ->
  parse env (UMLDesignerParser r db) = Ok model ->
  exists perClass,
    fields model = concat perClass /\
    Forall2
      (fun c es =>
         Forall2
           (fun a e =>
              truthy (type (attribute_ a)) = true ->
              field_name (snd e) = lowerFirst (name (attribute_ a)) /\
              field_type (snd e) = type (attribute_ a))
           (filter (isRegular env) (attributesOf c)) es)
      (filter (hasType "uml:Class") elements) perClass.
Proof.
  intros Hr H.
  destruct (parse_fields env r db elements model Hr H) as (perClass & Hf & HF).
  exists perClass. split; [exact Hf|].
  eapply Forall2_impl; [|exact HF].
  intros c es Hc. apply classHandled_fields in Hc.
  eapply Forall2_impl; [|exact Hc].
  intros a e (_ & _ & Hn & _ & Ht & _) Htruthy. split; [exact Hn|].
  now apply Ht.
Qed.

Lemma inline_type_is_kept_as_written_witness :
  exists model perClass,
    parse Sample.imports (Sample.document [Sample.customer]) = Ok model /\
    fields model = concat perClass /\
    Forall2
      (fun c es =>
         Forall2
           (fun a e =>
              truthy (type (attribute_ a)) = true ->
              field_name (snd e) = lowerFirst (name (attribute_ a)) /\
              field_type (snd e) = type (attribute_ a))
           (filter (isRegular Sample.imports) (attributesOf c)) es)
      (filter (hasType "uml:Class") [Sample.customer]) perClass.
Proof.
  eexists.
  destruct (inline_type_is_kept_as_written Sample.imports
              {| packagedElement := Some [Sample.customer] |} Sample.sql
              [Sample.customer] _ eq_refl eq_refl) as (perClass & Hf & HF).
  exists perClass. split; [reflexivity|]. split; [exact Hf | exact HF].
Defined.

(** C2 as it is stated fails: the field [name] of inline type [string] is
    inserted with type [string], not [String]. *)
Lemma inline_type_is_not_capitalized :
  parse Sample.imports (Sample.document [Sample.customer])
  = Ok {| types := []; enums := [];
          classes := [(Some "c1",
                       {| class_name := "Customer";
                          class_tableName := "customer";
                          class_comment := None |})];
          fields := [(Some "c1", Some "a1",
                      {| field_name := "name";
                         field_type := Some "string";
                         field_comment := None |})];
          associations := [] |} /\
  Some "string" <> Some "String".
Proof. split; [reflexivity | discriminate]. Qed.

(** What [parse] makes of the class elements of a document it accepts. *)
Lemma parse_classHandled (env : Imports) (r : Root) (db : DatabaseTypes)
  (elements : list PackagedElement) (model : ParsedData)
  (c : PackagedElement) :
  packagedElement r = Some elements ->
  parse env (UMLDesignerParser r db) = Ok model ->
  In c elements -> hasType "uml:Class" c = true ->
  exists es, classHandled env db c es.
Proof.
  intros Hr H Hin Hc.
  destruct (parse_fields env r db elements model Hr H) as (perClass & _ & HF).
  assert (Hf : In c (filter (hasType "uml:Class") elements))
    by (apply filter_In; now split).
  destruct (Forall2_In_left _ _ _ _ HF Hf) as (es & _ & Hes).
  now exists es.
Qed.

Lemma parse_attributeHandled (env : Imports) (r : Root) (db : DatabaseTypes)
  (elements : list PackagedElement) (model : ParsedData)
  (c : PackagedElement) (a : OwnedAttribute) :
  packagedElement r = Some elements ->
  parse env (UMLDesignerParser r db) = Ok model ->
  In c elements -> hasType "uml:Class" c = true ->
  In a (attributesOf c) ->
  exists es, attributeHandled env db (xmi_id (element_ c)) a es.
Proof.
  intros Hr H Hin Hc Ha.
  destruct (parse_classHandled env r db elements model c Hr H Hin Hc)
    as (es & _ & _ & _ & ess & _ & HF).
  destruct (Forall2_In_left _ _ _ _ HF Ha) as (es' & _ & Hes).
  now exists es'.
Qed.

(** C6 (as amended): a named attribute that does not follow the identifier
    convention and has neither an inline type nor a [type] element makes the
    parse fail; when its name is not a reserved field name of the backend,
    handling it fails with [WrongField] and a message that names the field
    (a reserved name is refused first, by the reserved-word check). *)
Theorem untyped_attribute_is_refused (env : Imports) (c : PackagedElement)
  (a : OwnedAttribute) (n : string) :
  name (attribute_ a) = Some n -> n <> "" ->
  isAnId env (Some n) = false ->
  truthy (type (attribute_ a)) = false ->
  attribute_type a = None ->
  (forall this,
     isReservedFieldName env (Some n) (getName (databaseTypes this)) = false ->
     handleAttribute env c a this =
       Throw (buildException WrongField
                ("The field '" ++ n ++ "' does not possess any type."))) /\
  (forall r db elements,
     packagedElement r = Some elements ->
     In c elements -> hasType "uml:Class" c = true ->
     In a (attributesOf c) ->
     exists e, parse env (UMLDesignerParser r db) = Throw e).
Proof.
  intros Hn Hne Hid Ht Hty. split.
  - intros this Hres.
    unfold handleAttribute, addField, addRegularField,
      checkForReservedFieldName, resolveFieldType.
    rewrite Hn, Hid, Hres, Ht, Hty. simpl.
    destruct (n =? "")%string eqn:E; [apply String.eqb_eq in E; contradiction|].
    reflexivity.
  - intros r db elements Hr Hin Hc Ha.
    destruct (parse env (UMLDesignerParser r db)) as [model|e] eqn:H;
      [|now exists e].
    exfalso.
    destruct (parse_attributeHandled env r db elements model c a
                Hr H Hin Hc Ha) as (es & _ & Hes).
    unfold isRegular in Hes. rewrite Hn, Hid in Hes. simpl in Hes.
    destruct Hes as (e & _ & _ & _ & _ & _ & _ & Hno).
    destruct (Hno Ht) as (Hsome & _). contradiction.
Qed.

Lemma untyped_attribute_is_refused_witness :
  handleAttribute Sample.imports Sample.untypedCustomer Sample.totalAttribute
    (Sample.document [Sample.untypedCustomer])
  = Throw (buildException WrongField
             "The field 'total' does not possess any type.") /\
  exists e,
    parse Sample.imports (Sample.document [Sample.untypedCustomer]) = Throw e.
Proof.
  destruct (untyped_attribute_is_refused Sample.imports
              Sample.untypedCustomer Sample.totalAttribute "total")
    as (Hattribute & Hparse).
  - reflexivity.
  - discriminate.
  - reflexivity.
  - reflexivity.
  - reflexivity.
  - split.
    + apply Hattribute. reflexivity.
    + apply (Hparse {| packagedElement := Some [Sample.untypedCustomer] |}
               Sample.sql [Sample.untypedCustomer]).
      * reflexivity.
      * left. reflexivity.
      * reflexivity.
      * left. reflexivity.
Defined.

(** C6 as it is stated fails: an attribute without any type whose name is a
    reserved word of the backend makes the parse fail with [ReservedName],
    not with [WrongField]. *)
Lemma untyped_reserved_attribute_is_a_ReservedName :
  name (attribute_ Sample.selectAttribute) = Some "select" /\
  isAnId Sample.imports (Some "select") = false /\
  type (attribute_ Sample.selectAttribute) = None /\
  attribute_type Sample.selectAttribute = None /\
  parse Sample.imports
    (Sample.document
       [Sample.classOf "c1" (Some "Customer")
          (Some [Sample.selectAttribute])])
  = Throw (buildException ReservedName "select").
Proof. repeat split; reflexivity. Qed.

(** C10: a named attribute whose name follows the identifier convention is
    passed over: handling it returns the parser as it was, whatever its name
    and type are, so it raises nothing; and the attributes of a class are
    handled as if it were not among them, wherever it stands. *)
Theorem identifier_attribute_is_not_validated (env : Imports)
  (c : PackagedElement) (a : OwnedAttribute) :
  truthy (name (attribute_ a)) = true ->
  isAnId env (name (attribute_ a)) = true ->
  (forall this, handleAttribute env c a this = Ok this) /\
  (forall before after this,
     forEach (handleAttribute env c) (before ++ a :: after) this =
     forEach (handleAttribute env c) (before ++ after) this).
Proof.
  intros Hn Hid.
  assert (Hskip : forall this, handleAttribute env c a this = Ok this).
  { intros this. unfold handleAttribute. now rewrite Hn, Hid. }
  split; [exact Hskip|].
  intros before after this. rewrite !forEach_app.
  destruct (forEach (handleAttribute env c) before this) as [this1|e];
    simpl; [|reflexivity].
  now rewrite Hskip.
Qed.

Lemma identifier_attribute_is_not_validated_witness :
  isReservedFieldName Sample.strict (name (attribute_ Sample.idAttribute))
    "sql" = true /\
  type (attribute_ Sample.idAttribute) = None /\
  attribute_type Sample.idAttribute = None /\
  handleAttribute Sample.strict Sample.customer Sample.idAttribute
    (Sample.document [Sample.customer])
  = Ok (Sample.document [Sample.customer]) /\
  forEach (handleAttribute Sample.imports Sample.customer)
    ([Sample.attributeOf "a1" (Some "name") (Some "string")]
     ++ Sample.idAttribute
     :: [Sample.attributeOf "a3" (Some "status") (Some "e1")])
    (Sample.document [Sample.customer])
  = forEach (handleAttribute Sample.imports Sample.customer)
      ([Sample.attributeOf "a1" (Some "name") (Some "string")]
       ++ [Sample.attributeOf "a3" (Some "status") (Some "e1")])
      (Sample.document [Sample.customer]).
Proof.
  split; [reflexivity|]. split; [reflexivity|]. split; [reflexivity|].
  split.
  - apply (identifier_attribute_is_not_validated Sample.strict
             Sample.customer Sample.idAttribute); reflexivity.
  - apply (identifier_attribute_is_not_validated Sample.imports
             Sample.customer Sample.idAttribute); reflexivity.
Defined.

(* ================================================================= *)
(** ** Reserved words *)




(* ================================================================= *)
(** ** The phases read the document through the classified elements *)

Lemma bind_mapResult {A B C : Type} (f : A -> B) (r : result A)
  (k : B -> result C) :
  bind (mapResult f r) k = bind r (fun a => k (f a)).
Proof. now destruct r. Qed.

Lemma mapResult_bind {A B C : Type} (f : B -> C) (r : result A)
  (k : A -> result B) :
  mapResult f (bind r k) = bind r (fun a => mapResult f (k a)).
Proof. now destruct r. Qed.

Lemma bind_ext {A B : Type} (r : result A) (k k' : A -> result B) :
  (forall a, r = Ok a -> k a = k' a) -> bind r k = bind r k'.
Proof. destruct r; simpl; auto. Qed.

(** A loop over the classified positions reads the classified elements, in
    document order, as long as its callback leaves the document alone. *)
Lemma forEach_indexesOf (f : PackagedElement -> Parser -> result Parser)
  (g : nat -> Parser -> result Parser) (p : PackagedElement -> bool) :
  (forall i s, g i s = (x <- at_ (packagedElement (root s)) i ;; f x s)) ->
  (forall x s s', f x s = Ok s' -> root s' = root s) ->
  forall l pre s,
    packagedElement (root s) = Some (pre ++ l) ->
    forEach g (indexesOf p l (length pre)) s = forEach f (filter p l) s.
Proof.
  intros Hg Hroot l.
  induction l as [|x l IH]; intros pre s Hs; simpl; [reflexivity|].
  assert (Htail : forall s', root s' = root s ->
    forEach g (indexesOf p l (S (length pre))) s'
    = forEach f (filter p l) s').
  { intros s' Hs'.
    replace (S (length pre)) with (length (pre ++ [x]))
      by (rewrite length_app; simpl; lia).
    apply IH. rewrite Hs', Hs, <- app_assoc. reflexivity. }
  destruct (p x); [|now apply Htail].
  simpl. rewrite Hg, Hs. unfold at_.
  rewrite nth_error_app2 by lia. rewrite Nat.sub_diag. simpl.
  apply bind_ext. intros s' Hs'. apply Htail. eapply Hroot; eassumption.
Qed.

Lemma bind_Ok_mapResult {A B : Type} (f : A -> B) (r : result A) :
  bind r (fun a => Ok (f a)) = mapResult f r.
Proof. now destruct r. Qed.

Lemma fillEnum_fillEnumOf (index : nat) (this : Parser) :
  fillEnum index this
  = (e <- at_ (packagedElement (root this)) index ;; fillEnumOf e this).
Proof. reflexivity. Qed.

Lemma fillClassAndFields_Of (env : Imports) (index : nat) (this : Parser) :
  fillClassAndFields env index this
  = (e <- at_ (packagedElement (root this)) index ;;
     fillClassAndFieldsOf env e this).
Proof. reflexivity. Qed.

Lemma fillAssociation_Of (index : nat) (this : Parser) :
  fillAssociation index this
  = (a <- at_ (packagedElement (root this)) index ;; fillAssociationOf a this).
Proof. reflexivity. Qed.

Lemma fillTypeOf_frame (type : PackagedElement) (this this' : Parser) :
  fillTypeOf type this = Ok this' -> typesFrame this this'.
Proof. apply addType_frame. Qed.

Lemma fillEnumOf_frame (e : PackagedElement) (this this' : Parser) :
  fillEnumOf e this = Ok this' -> enumsFrame this this'.
Proof. unfold fillEnumOf. intros H. returns H; frame_refl. Qed.

Lemma fillClassAndFieldsOf_frame (env : Imports) (element : PackagedElement)
  (this this' : Parser) :
  fillClassAndFieldsOf env element this = Ok this' -> classesFrame this this'.
Proof.
  unfold fillClassAndFieldsOf. intros H.
  destruct (negb (truthy (name (element_ element)))); [discriminate|].
  apply bind_Ok in H. destruct H as (this1 & H1 & H).
  apply bind_Ok in H. destruct H as (this2 & H2 & H).
  apply checkForUserClass_frame in H1. destruct H1 as [Hs Hd].
  apply addClass_frame in H2.
  assert (H12 : classesFrame this this2).
  { unfold classesFrame in *. rewrite <- Hs, <- Hd. exact H2. }
  destruct (ownedAttribute element).
  - apply handleAttributes_frame in H.
    eapply classesFrame_trans; eassumption.
  - now inversion H; subst.
Qed.

Lemma fillAssociationOf_frame (a : PackagedElement) (this this' : Parser) :
  fillAssociationOf a this = Ok this' -> associationsFrame this this'.
Proof. unfold fillAssociationOf. intros H. returns H. frame_refl. Qed.

(** The loops of the element callbacks keep the scan state. *)
Lemma forEach_fillTypeOf_scan (l : list PackagedElement)
  (this this' : Parser) :
  forEach fillTypeOf l this = Ok this' -> typesFrame this this'.
Proof.
  apply forEach_preserves; [intros; frame_refl | frame_trans |].
  intros x a b. apply fillTypeOf_frame.
Qed.

Lemma forEach_fillEnumOf_scan (l : list PackagedElement)
  (this this' : Parser) :
  forEach fillEnumOf l this = Ok this' -> enumsFrame this this'.
Proof.
  apply forEach_preserves; [intros; frame_refl | frame_trans |].
  intros x a b. apply fillEnumOf_frame.
Qed.

Lemma forEach_fillClassAndFieldsOf_scan (env : Imports)
  (l : list PackagedElement) (this this' : Parser) :
  forEach (fillClassAndFieldsOf env) l this = Ok this' ->
  classesFrame this this'.
Proof.
  apply forEach_preserves; [intros; frame_refl | frame_trans |].
  intros x a b. apply fillClassAndFieldsOf_frame.
Qed.

Lemma forEach_fillAssociationOf_scan (l : list PackagedElement)
  (this this' : Parser) :
  forEach fillAssociationOf l this = Ok this' -> associationsFrame this this'.
Proof.
  apply forEach_preserves; [intros; frame_refl | frame_trans |].
  intros x a b. apply fillAssociationOf_frame.
Qed.

(** The phases of a scanned parser are loops over the elements of each
    kind. *)
Lemma fillTypes_elements (r : Root) (db : DatabaseTypes)
  (elements : list PackagedElement) (this : Parser) :
  packagedElement r = Some elements -> scanned r db elements this ->
  fillTypes this = forEach fillTypeOf (filter isTypeElement elements) this.
Proof.
  intros Hr Hs. unfold fillTypes.
  replace (rawTypesIndexes this) with (indexesOf isTypeElement elements 0)
    by (unfold scanned, scanOf in Hs; now inversion Hs).
  apply (forEach_indexesOf fillTypeOf _ isTypeElement) with (pre := []).
  - reflexivity.
  - intros x s s' H. apply fillTypeOf_frame in H. destruct H as (H & _).
    now apply scanOf_root.
  - now rewrite (scanned_root _ _ _ _ Hs).
Qed.

Lemma fillEnums_elements (r : Root) (db : DatabaseTypes)
  (elements : list PackagedElement) (this : Parser) :
  packagedElement r = Some elements -> scanned r db elements this ->
  fillEnums this
  = forEach fillEnumOf (filter (hasType "uml:Enumeration") elements) this.
Proof.
  intros Hr Hs. unfold fillEnums. rewrite (scanned_enums _ _ _ _ Hs).
  apply (forEach_indexesOf fillEnumOf _ _) with (pre := []).
  - apply fillEnum_fillEnumOf.
  - intros x s s' H. apply fillEnumOf_frame in H. destruct H as (H & _).
    now apply scanOf_root.
  - now rewrite (scanned_root _ _ _ _ Hs).
Qed.

Lemma fillClassesAndFields_elements (env : Imports) (r : Root)
  (db : DatabaseTypes) (elements : list PackagedElement) (this : Parser) :
  packagedElement r = Some elements -> scanned r db elements this ->
  fillClassesAndFields env this
  = forEach (fillClassAndFieldsOf env)
      (filter (hasType "uml:Class") elements) this.
Proof.
  intros Hr Hs. unfold fillClassesAndFields.
  rewrite (scanned_classes _ _ _ _ Hs).
  apply (forEach_indexesOf (fillClassAndFieldsOf env) _ _) with (pre := []).
  - apply fillClassAndFields_Of.
  - intros x s s' H. apply fillClassAndFieldsOf_frame in H.
    destruct H as (H & _). now apply scanOf_root.
  - now rewrite (scanned_root _ _ _ _ Hs).
Qed.

Lemma fillAssociations_elements (r : Root) (db : DatabaseTypes)
  (elements : list PackagedElement) (this : Parser) :
  packagedElement r = Some elements -> scanned r db elements this ->
  fillAssociations this
  = forEach fillAssociationOf
      (filter (hasType "uml:Association") elements) this.
Proof.
  intros Hr Hs. unfold fillAssociations.
  rewrite (scanned_associations _ _ _ _ Hs).
  apply (forEach_indexesOf fillAssociationOf _ _) with (pre := []).
  - apply fillAssociation_Of.
  - intros x s s' H. apply fillAssociationOf_frame in H.
    destruct H as (H & _). now apply scanOf_root.
  - now rewrite (scanned_root _ _ _ _ Hs).
Qed.

(** The parser that [findElements] leaves from a fresh one. *)
Lemma findElements_fresh (r : Root) (db : DatabaseTypes)
  (elements : list PackagedElement) :
  packagedElement r = Some elements ->
  exists this1,
    findElements (UMLDesignerParser r db) = Ok this1 /\
    scanned r db elements this1 /\
    databaseTypes this1 = db /\
    parsedData this1 = emptyParsedData /\
    userClassId this1 = None.
Proof.
  intros Hr. unfold findElements, UMLDesignerParser, findConstraints.
  simpl. rewrite Hr. eexists. split; [reflexivity|].
  pose proof (forEachIndexed_classify elements 0 (AbstractParser r db)) as S1.
  simpl in S1. destruct S1 as (Sr & Sd & Sp & Su & St & Se & Sc & Sa).
  repeat split; try assumption.
  unfold scanned, scanOf. now rewrite Sr, Sd, St, Se, Sc, Sa.
Qed.

(** [parse] on a fresh parser is the four filling phases over the elements
    of each kind. *)
Lemma parse_fillAll (env : Imports) (r : Root) (db : DatabaseTypes)
  (elements : list PackagedElement) :
  packagedElement r = Some elements ->
  exists this1,
    findElements (UMLDesignerParser r db) = Ok this1 /\
    scanned r db elements this1 /\
    databaseTypes this1 = db /\
    parsedData this1 = emptyParsedData /\
    userClassId this1 = None /\
    parse env (UMLDesignerParser r db)
    = mapResult parsedData
        (fillAll env
           (filter isTypeElement elements)
           (filter (hasType "uml:Enumeration") elements)
           (filter (hasType "uml:Class") elements)
           (filter (hasType "uml:Association") elements) this1).
Proof.
  intros Hr.
  destruct (findElements_fresh r db elements Hr)
    as (this1 & H1 & S1 & Hdb & Hp & Hu).
  exists this1. repeat split; try assumption.
  unfold parse, fillAll. rewrite H1. simpl.
  rewrite (fillTypes_elements r db elements this1 Hr S1).
  rewrite !mapResult_bind.
  apply bind_ext. intros this2 H2.
  assert (S2 : scanned r db elements this2).
  { apply forEach_fillTypeOf_scan in H2. destruct H2 as (H2 & _).
    unfold scanned in *. congruence. }
  rewrite (fillEnums_elements r db elements this2 Hr S2).
  rewrite !mapResult_bind.
  apply bind_ext. intros this3 H3.
  assert (S3 : scanned r db elements this3).
  { apply forEach_fillEnumOf_scan in H3. destruct H3 as (H3 & _).
    unfold scanned in *. congruence. }
  rewrite (fillClassesAndFields_elements env r db elements this3 Hr S3).
  rewrite !mapResult_bind.
  apply bind_ext. intros this4 H4.
  assert (S4 : scanned r db elements this4).
  { apply forEach_fillClassAndFieldsOf_scan in H4. destruct H4 as (H4 & _).
    unfold scanned in *. congruence. }
  rewrite (fillAssociations_elements r db elements this4 Hr S4).
  apply bind_Ok_mapResult.
Qed.

(* ================================================================= *)
(** ** The filling phases do not look at the scan state *)

Section SetScan.

Variable env : Imports.
Variable scan : Parser.

Lemma forEach_setScan {A : Type} (f : A -> Parser -> result Parser) :
  (forall x s, f x (setScan scan s) = mapResult (setScan scan) (f x s)) ->
  forall l s,
    forEach f l (setScan scan s) = mapResult (setScan scan) (forEach f l s).
Proof.
  intros Hf l. induction l as [|x l IH]; intros s; simpl; [reflexivity|].
  rewrite Hf. destruct (f x s) as [s'|e]; simpl; [apply IH|reflexivity].
Qed.

Lemma addType_setScan (typeName typeId : option string) (this : Parser) :
  addType typeName typeId (setScan scan this)
  = mapResult (setScan scan) (addType typeName typeId this).
Proof.
  unfold addType. simpl.
  now destruct (contains (databaseTypes this) (upperFirst typeName)).
Qed.

Lemma fillEnumOf_setScan (e : PackagedElement) (this : Parser) :
  fillEnumOf e (setScan scan this)
  = mapResult (setScan scan) (fillEnumOf e this).
Proof.
  unfold fillEnumOf.
  destruct (negb (truthy (name (element_ e)))); [reflexivity|].
  now destruct (match ownedLiteral e with
                | Some literals => forEach pushLiteral literals []
                | None => Ok []
                end).
Qed.

Lemma checkForUserClass_setScan (element : PackagedElement) (this : Parser) :
  checkForUserClass element (setScan scan this)
  = mapResult (setScan scan) (checkForUserClass element this).
Proof.
  unfold checkForUserClass. simpl.
  destruct (negb (truthy (userClassId this))); [|reflexivity].
  destruct (callToLowerCase (name (element_ element))) as [lower|];
    simpl; [|reflexivity].
  now destruct (lower =? "")%string, (lower =? "user")%string.
Qed.

Lemma addClass_setScan (element : PackagedElement) (this : Parser) :
  addClass env element (setScan scan this)
  = mapResult (setScan scan) (addClass env element this).
Proof.
  unfold addClass. simpl.
  destruct (checkForReservedClassName env _ true); simpl; [|reflexivity].
  destruct (checkForReservedTableName env _ _ true); simpl; [|reflexivity].
  now destruct (firstCommentBody (ownedComment element)).
Qed.

Lemma resolveFieldType_setScan (element : OwnedAttribute) (this : Parser) :
  resolveFieldType env element (setScan scan this)
  = mapResult (fun p => (fst p, setScan scan (snd p)))
      (resolveFieldType env element this).
Proof.
  unfold resolveFieldType.
  destruct (truthy (type (attribute_ element))); [reflexivity|].
  destruct (attribute_type element) as [l|]; [|reflexivity].
  destruct (at_ (Some l) 0) as [type0|]; simpl; [|reflexivity].
  destruct (getTypeNameFromURL env (href (leaf_ type0))) as [extracted|];
    simpl; [|reflexivity].
  rewrite addType_setScan.
  now destruct (addType _ _ this).
Qed.

Lemma addRegularField_setScan (element : OwnedAttribute)
  (classId : option string) (this : Parser) :
  addRegularField env element classId (setScan scan this)
  = mapResult (setScan scan) (addRegularField env element classId this).
Proof.
  unfold addRegularField. simpl.
  destruct (checkForReservedFieldName env _ _ true); simpl; [|reflexivity].
  rewrite resolveFieldType_setScan.
  destruct (resolveFieldType env element this) as [[ty this']|];
    simpl; [|reflexivity].
  now destruct (firstCommentBody (attribute_ownedComment element)).
Qed.

Lemma handleAttribute_setScan (element : PackagedElement)
  (attribute : OwnedAttribute) (this : Parser) :
  handleAttribute env element attribute (setScan scan this)
  = mapResult (setScan scan) (handleAttribute env element attribute this).
Proof.
  unfold handleAttribute, addField.
  destruct (negb (truthy (name (attribute_ attribute)))); [reflexivity|].
  destruct (negb (isAnId env (name (attribute_ attribute)))); [|reflexivity].
  apply addRegularField_setScan.
Qed.

Lemma handleAttributes_setScan (element : PackagedElement) (this : Parser) :
  handleAttributes env element (setScan scan this)
  = mapResult (setScan scan) (handleAttributes env element this).
Proof.
  unfold handleAttributes.
  destruct (ownedAttribute element) as [attributes|]; [|reflexivity].
  apply forEach_setScan. apply handleAttribute_setScan.
Qed.

Lemma fillClassAndFieldsOf_setScan (element : PackagedElement)
  (this : Parser) :
  fillClassAndFieldsOf env element (setScan scan this)
  = mapResult (setScan scan) (fillClassAndFieldsOf env element this).
Proof.
  unfold fillClassAndFieldsOf.
  destruct (negb (truthy (name (element_ element)))); [reflexivity|].
  rewrite checkForUserClass_setScan.
  destruct (checkForUserClass element this) as [this1|]; simpl;
    [|reflexivity].
  rewrite addClass_setScan.
  destruct (addClass env element this1) as [this2|]; simpl; [|reflexivity].
  destruct (ownedAttribute element); [|reflexivity].
  apply handleAttributes_setScan.
Qed.

Lemma fillAssociationOf_setScan (a : PackagedElement) (this : Parser) :
  fillAssociationOf a (setScan scan this)
  = mapResult (setScan scan) (fillAssociationOf a this).
Proof.
  unfold fillAssociationOf. now destruct (buildAssociationData a).
Qed.

Lemma fillAll_setScan (ts es cs associations : list PackagedElement)
  (this : Parser) :
  fillAll env ts es cs associations (setScan scan this)
  = mapResult (setScan scan) (fillAll env ts es cs associations this).
Proof.
  unfold fillAll.
  rewrite (forEach_setScan fillTypeOf) by (intros; apply addType_setScan).
  destruct (forEach fillTypeOf ts this) as [this2|]; simpl; [|reflexivity].
  rewrite (forEach_setScan fillEnumOf) by apply fillEnumOf_setScan.
  destruct (forEach fillEnumOf es this2) as [this3|]; simpl; [|reflexivity].
  rewrite (forEach_setScan (fillClassAndFieldsOf env))
    by apply fillClassAndFieldsOf_setScan.
  destruct (forEach (fillClassAndFieldsOf env) cs this3) as [this4|]; simpl;
    [|reflexivity].
  apply (forEach_setScan fillAssociationOf). apply fillAssociationOf_setScan.
Qed.

End SetScan.

Lemma setScan_same (scan this : Parser) :
  databaseTypes scan = databaseTypes this ->
  parsedData scan = parsedData this ->
  userClassId scan = userClassId this ->
  setScan scan this = scan.
Proof.
  destruct scan, this. simpl. intros -> -> ->. reflexivity.
Qed.

Lemma mapResult_parsedData_setScan (scan : Parser) (r : result Parser) :
  mapResult parsedData (mapResult (setScan scan) r) = mapResult parsedData r.
Proof. now destruct r. Qed.

(** The outcome of [parse] is decided by the type elements, the
    enumerations, the classes and the associations of the document, each
    sequence in its own order: two documents that agree on the four sequences
    are parsed alike, wherever the elements stand among each other and
    whatever other elements lie between them. *)
Lemma parse_same_kinds (env : Imports)
  (r r' : Root) (db : DatabaseTypes) (elements elements' : list PackagedElement) :
  packagedElement r = Some elements ->
  packagedElement r' = Some elements' ->
  filter isTypeElement elements = filter isTypeElement elements' ->
  filter (hasType "uml:Enumeration") elements
    = filter (hasType "uml:Enumeration") elements' ->
  filter (hasType "uml:Class") elements
    = filter (hasType "uml:Class") elements' ->
  filter (hasType "uml:Association") elements
    = filter (hasType "uml:Association") elements' ->
  parse env (UMLDesignerParser r db) = parse env (UMLDesignerParser r' db).
Proof.
  intros Hr Hr' Ht He Hc Ha.
  destruct (parse_fillAll env r db elements Hr)
    as (this1 & _ & _ & Hd & Hp & Hu & ->).
  destruct (parse_fillAll env r' db elements' Hr')
    as (this1' & _ & _ & Hd' & Hp' & Hu' & ->).
  rewrite Ht, He, Hc, Ha.
  rewrite <- (setScan_same this1' this1) by congruence.
  now rewrite fillAll_setScan, mapResult_parsedData_setScan.
Qed.

(** X2: the outcome of [parse] is decided by the type elements, the
    enumerations, the classes and the associations of the document, each
    sequence in its own order: two documents that agree on these four
    sequences are parsed alike, wherever the elements of different kinds
    stand among each other. *)
Theorem parse_reads_each_kind_in_its_own_order (env : Imports)
  (r r' : Root) (db : DatabaseTypes)
  (elements elements' : list PackagedElement) :
  packagedElement r = Some elements ->
  packagedElement r' = Some elements' ->
  filter isTypeElement elements = filter isTypeElement elements' ->
  filter (hasType "uml:Enumeration") elements
    = filter (hasType "uml:Enumeration") elements' ->
  filter (hasType "uml:Class") elements
    = filter (hasType "uml:Class") elements' ->
  filter (hasType "uml:Association") elements
    = filter (hasType "uml:Association") elements' ->
  parse env (UMLDesignerParser r db) = parse env (UMLDesignerParser r' db).
Proof. apply parse_same_kinds. Qed.

Lemma parse_reads_each_kind_in_its_own_order_witness :
  parse Sample.imports (Sample.document Sample.shop)
  = parse Sample.imports (Sample.document Sample.shopReordered).
Proof.
  apply (parse_reads_each_kind_in_its_own_order Sample.imports
           {| packagedElement := Some Sample.shop |}
           {| packagedElement := Some Sample.shopReordered |}
           Sample.sql Sample.shop Sample.shopReordered); reflexivity.
Defined.

(** X3: a top-level element whose [xmi:type] is none of the five that
    [findElements] has a case for is skipped: the document is parsed as if
    the element were not there, wherever it stands. *)
Theorem unrecognized_elements_are_skipped (env : Imports)
  (db : DatabaseTypes) (before after : list PackagedElement)
  (x : PackagedElement) :
  xmi_type (element_ x) <> Some "uml:PrimitiveType" ->
  xmi_type (element_ x) <> Some "uml:DataType" ->
  xmi_type (element_ x) <> Some "uml:Enumeration" ->
  xmi_type (element_ x) <> Some "uml:Class" ->
  xmi_type (element_ x) <> Some "uml:Association" ->
  parse env
    (UMLDesignerParser {| packagedElement := Some (before ++ x :: after) |} db)
  = parse env
      (UMLDesignerParser {| packagedElement := Some (before ++ after) |} db).
Proof.
  intros H1 H2 H3 H4 H5.
  apply strictEq_false in H1, H2, H3, H4, H5.
  apply (parse_same_kinds env _ _ db (before ++ x :: after) (before ++ after));
    try reflexivity;
    rewrite !filter_app; simpl; unfold isTypeElement, hasType;
    now rewrite ?H1, ?H2, ?H3, ?H4, ?H5.
Qed.

Lemma unrecognized_elements_are_skipped_witness :
  parse Sample.imports
    (Sample.document ([Sample.customer] ++ Sample.package :: []))
  = parse Sample.imports (Sample.document ([Sample.customer] ++ [])).
Proof.
  apply (unrecognized_elements_are_skipped Sample.imports Sample.sql
           [Sample.customer] [] Sample.package); discriminate.
Defined.

(* ================================================================= *)
(** ** The buckets of [findElements] *)

Lemma indexesOf_bound (p : PackagedElement -> bool)
  (l : list PackagedElement) :
  forall k, Forall (fun i => k <= i) (indexesOf p l k).
Proof.
  induction l as [|x l IH]; intros k; simpl; [constructor|].
  assert (Hl : Forall (fun i => k <= i) (indexesOf p l (S k))).
  { eapply Forall_impl; [|apply IH]. intros i Hi. simpl in Hi. lia. }
  destruct (p x); [constructor; [lia | exact Hl] | exact Hl].
Qed.

Lemma indexesOf_sorted (p : PackagedElement -> bool)
  (l : list PackagedElement) :
  forall k, StronglySorted lt (indexesOf p l k).
Proof.
  induction l as [|x l IH]; intros k; simpl; [constructor|].
  destruct (p x); [|apply IH].
  constructor; [apply IH|].
  eapply Forall_impl; [|apply (indexesOf_bound p l (S k))].
  intros i Hi. simpl in Hi. lia.
Qed.

Lemma In_indexesOf (p : PackagedElement -> bool) (l : list PackagedElement) :
  forall k i,
    In i (indexesOf p l k) <->
    k <= i /\ exists e, nth_error l (i - k) = Some e /\ p e = true.
Proof.
  induction l as [|x l IH]; intros k i; simpl.
  - split; [contradiction|]. intros (_ & e & He & _).
    destruct (i - k); discriminate.
  - assert (Htail : In i (indexesOf p l (S k)) <->
      S k <= i /\ exists e, nth_error (x :: l) (i - k) = Some e /\ p e = true).
    { rewrite IH. split; intros (Hk & e & He & Hp); (split; [lia|]);
        exists e; (split; [|exact Hp]).
      - replace (i - k) with (S (i - S k)) by lia. exact He.
      - replace (i - k) with (S (i - S k)) in He by lia. exact He. }
    destruct (p x) eqn:Hx.
    + simpl. rewrite Htail. split.
      * intros [<-|(Hk & He)].
        -- split; [lia|]. exists x. rewrite Nat.sub_diag. now split.
        -- split; [lia | exact He].
      * intros (Hk & e & He & Hp).
        destruct (Nat.eq_dec k i) as [->|Hne]; [now left|].
        right. split; [lia|]. now exists e.
    + rewrite Htail. split.
      * intros (Hk & He). split; [lia | exact He].
      * intros (Hk & e & He & Hp). split; [|now exists e].
        destruct (Nat.eq_dec k i) as [->|Hne]; [|lia].
        rewrite Nat.sub_diag in He. simpl in He. congruence.
Qed.

(** X1: on a fresh parser [findElements] fills each index array with the
    positions of the top-level elements of its kind, in increasing order: an
    index is in an array exactly when the element at that position has the
    [xmi:type] of the array; an element of any other type is in none.  The
    model is left empty. *)
Theorem findElements_sorts_positions_by_kind (r : Root) (db : DatabaseTypes)
  (elements : list PackagedElement) :
  packagedElement r = Some elements ->
  exists this',
    findElements (UMLDesignerParser r db) = Ok this' /\
    parsedData this' = emptyParsedData /\
    (forall i, In i (rawTypesIndexes this') <->
       exists e, nth_error elements i = Some e /\
         (xmi_type (element_ e) = Some "uml:PrimitiveType" \/
          xmi_type (element_ e) = Some "uml:DataType")) /\
    (forall i, In i (rawEnumsIndexes this') <->
       exists e, nth_error elements i = Some e /\
         xmi_type (element_ e) = Some "uml:Enumeration") /\
    (forall i, In i (rawClassesIndexes this') <->
       exists e, nth_error elements i = Some e /\
         xmi_type (element_ e) = Some "uml:Class") /\
    (forall i, In i (rawAssociationsIndexes this') <->
       exists e, nth_error elements i = Some e /\
         xmi_type (element_ e) = Some "uml:Association") /\
    StronglySorted lt (rawTypesIndexes this') /\
    StronglySorted lt (rawEnumsIndexes this') /\
    StronglySorted lt (rawClassesIndexes this') /\
    StronglySorted lt (rawAssociationsIndexes this').
Proof.
  intros Hr.
  destruct (findElements_fresh r db elements Hr)
    as (this' & H & Hs & _ & Hp & _).
  exists this'. split; [exact H|]. split; [exact Hp|].
  unfold scanned, scanOf in Hs. injection Hs as _ _ Ht He Hc Ha.
  rewrite Ht, He, Hc, Ha.
  assert (Hkind : forall t i,
    In i (indexesOf (hasType t) elements 0) <->
    exists e, nth_error elements i = Some e /\
              xmi_type (element_ e) = Some t).
  { intros t i. rewrite In_indexesOf, Nat.sub_0_r. unfold hasType.
    split.
    - intros (_ & e & He' & Hp'). exists e. split; [exact He'|].
      now apply strictEq_true.
    - intros (e & He' & Hp'). split; [lia|]. exists e. split; [exact He'|].
      now apply strictEq_true. }
  repeat split; try apply Hkind; try apply indexesOf_sorted.
  - intros Hin. apply In_indexesOf in Hin.
    destruct Hin as (_ & e & He' & Hp'). rewrite Nat.sub_0_r in He'.
    exists e. split; [exact He'|].
    unfold isTypeElement, hasType in Hp'. apply orb_true_iff in Hp'.
    destruct Hp' as [Hp'|Hp']; apply strictEq_true in Hp'; auto.
  - intros (e & He' & Hp'). apply In_indexesOf. split; [lia|].
    exists e. rewrite Nat.sub_0_r. split; [exact He'|].
    unfold isTypeElement, hasType. apply orb_true_iff.
    destruct Hp' as [Hp'|Hp']; [left|right]; now apply strictEq_true.
Qed.

Lemma findElements_sorts_positions_by_kind_witness :
  exists this',
    findElements (Sample.document Sample.shopReordered) = Ok this' /\
    rawClassesIndexes this' = [1; 4] /\
    rawEnumsIndexes this' = [3] /\
    rawAssociationsIndexes this' = [0] /\
    rawTypesIndexes this' = [] /\
    (forall i, In i (rawClassesIndexes this') <->
       exists e, nth_error Sample.shopReordered i = Some e /\
         xmi_type (element_ e) = Some "uml:Class").
Proof.
  destruct (findElements_sorts_positions_by_kind
              {| packagedElement := Some Sample.shopReordered |} Sample.sql
              Sample.shopReordered eq_refl)
    as (this' & H & _ & _ & _ & Hc & _).
  exists this'. split; [exact H|].
  unfold Sample.document in *.
  vm_compute in H. inversion H; subst this'.
  repeat split; try reflexivity; apply Hc.
Defined.

(* ================================================================= *)
(** ** The type table *)

Lemma upperChar_idempotent (c : ascii) : upperChar (upperChar c) = upperChar c.
Proof. unfold upperChar at 1. now rewrite upperChar_not_lower. Qed.

Lemma upperFirst_idempotent (v : option string) :
  upperFirst (Some (upperFirst v)) = upperFirst v.
Proof.
  destruct v as [[|c r]|]; simpl; try reflexivity.
  now rewrite upperChar_idempotent.
Qed.

Lemma forEach_invariant {A T : Type} (f : A -> T -> result T)
  (I : T -> Prop) :
  (forall x s s', I s -> f x s = Ok s' -> I s') ->
  forall l s s', I s -> forEach f l s = Ok s' -> I s'.
Proof.
  intros Hf l. induction l as [|x l IH]; intros s s' HI H; simpl in H.
  - now inversion H; subst.
  - apply bind_Ok in H. destruct H as (s1 & H1 & H2). eauto.
Qed.

Lemma fillTypeOf_supported (t : PackagedElement) (this : Parser) :
  isSupported (databaseTypes this) t = true ->
  fillTypeOf t this
  = Ok (setParsedData
          (ParsedDataOps.addType (fst (typeEntry t)) (snd (typeEntry t))
             (parsedData this)) this).
Proof.
  unfold fillTypeOf, addType, isSupported. intros ->. reflexivity.
Qed.

Lemma fillTypeOf_unsupported (t : PackagedElement) (this : Parser) :
  isSupported (databaseTypes this) t = false ->
  fillTypeOf t this
  = Throw (buildException WrongType
             ("The type '" ++ interpolate (name (element_ t))
              ++ "' isn't supported by JHipster.")).
Proof.
  unfold fillTypeOf, addType, isSupported. intros ->. reflexivity.
Qed.

(** Over supported type elements the type phase returns, with one entry per
    element registered in the type table. *)
Lemma forEach_fillTypeOf_supported (db : DatabaseTypes)
  (l : list PackagedElement) :
  Forall (fun t => isSupported db t = true) l ->
  forall this,
    databaseTypes this = db ->
    exists this',
      forEach fillTypeOf l this = Ok this' /\
      typesFrame this this' /\
      types (parsedData this')
      = insertTypes (map typeEntry l) (types (parsedData this)).
Proof.
  induction 1 as [|t l Ht _ IH]; intros this Hdb; simpl.
  - exists this. split; [reflexivity|]. split; [frame_refl|reflexivity].
  - rewrite fillTypeOf_supported by now rewrite Hdb. simpl.
    destruct (IH (setParsedData
                    (ParsedDataOps.addType (fst (typeEntry t))
                       (snd (typeEntry t)) (parsedData this)) this) Hdb)
      as (this' & H & Hf & Hlog).
    exists this'. split; [exact H|]. split.
    + destruct Hf as (F1 & F2 & F3 & F4 & F5 & F6).
      rewrite scanOf_setParsedData in F1. simpl in F2, F3, F4, F5, F6.
      unfold typesFrame. repeat split; assumption.
    + rewrite Hlog. reflexivity.
Qed.

(** The type phase returns only over supported type elements. *)
Lemma forEach_fillTypeOf_Ok (l : list PackagedElement) (this this' : Parser) :
  forEach fillTypeOf l this = Ok this' ->
  Forall (fun t => isSupported (databaseTypes this) t = true) l.
Proof.
  revert this. induction l as [|t l IH]; intros this H; [constructor|].
  simpl in H. apply bind_Ok in H. destruct H as (s1 & H1 & H2).
  assert (Ht : isSupported (databaseTypes this) t = true).
  { destruct (isSupported (databaseTypes this) t) eqn:E; [reflexivity|].
    rewrite (fillTypeOf_unsupported _ _ E) in H1. discriminate. }
  constructor; [exact Ht|].
  apply fillTypeOf_frame in H1. destruct H1 as (Hs & _).
  rewrite <- (scanOf_databaseTypes _ _ Hs). now apply IH.
Qed.

(** X4: a document with a type element that the database types do not support
    is refused with [WrongType], whatever else it holds: the message quotes
    the name of the first such element as it is written. *)
Theorem unsupported_type_element_is_a_WrongType (env : Imports) (r : Root)
  (db : DatabaseTypes) (elements before after : list PackagedElement)
  (t : PackagedElement) :
  packagedElement r = Some elements ->
  filter isTypeElement elements = before ++ t :: after ->
  Forall (fun x => contains db (upperFirst (name (element_ x))) = true)
    before ->
  contains db (upperFirst (name (element_ t))) = false ->
  parse env (UMLDesignerParser r db)
  = Throw (buildException WrongType
             ("The type '" ++ interpolate (name (element_ t))
              ++ "' isn't supported by JHipster.")).
Proof.
  intros Hr Hsplit Hbefore Ht.
  destruct (parse_fillAll env r db elements Hr)
    as (this1 & _ & _ & Hdb & _ & _ & ->).
  unfold fillAll. rewrite Hsplit, forEach_app.
  destruct (forEach_fillTypeOf_supported db before Hbefore this1 Hdb)
    as (this' & -> & (Hs & _) & _).
  simpl. rewrite fillTypeOf_unsupported; [reflexivity|].
  unfold isSupported. now rewrite (scanOf_databaseTypes _ _ Hs), Hdb.
Qed.

Lemma unsupported_type_element_is_a_WrongType_witness :
  parse Sample.imports
    (Sample.document
       [Sample.classOf "c2" (Some "Class") None;
        Sample.primitiveTypeOf "t1" (Some "string");
        Sample.primitiveTypeOf "t2" (Some "money")])
  = Throw (buildException WrongType
             "The type 'money' isn't supported by JHipster.").
Proof.
  apply (unsupported_type_element_is_a_WrongType Sample.imports _ Sample.sql
           [Sample.classOf "c2" (Some "Class") None;
            Sample.primitiveTypeOf "t1" (Some "string");
            Sample.primitiveTypeOf "t2" (Some "money")]
           [Sample.primitiveTypeOf "t1" (Some "string")] []
           (Sample.primitiveTypeOf "t2" (Some "money"))).
  - reflexivity.
  - reflexivity.
  - repeat constructor.
  - reflexivity.
Defined.

Lemma insertTypes_app (es1 es2 table : list (option string * TypeData)) :
  insertTypes (es1 ++ es2) table = insertTypes es2 (insertTypes es1 table).
Proof. unfold insertTypes. apply fold_left_app. Qed.

(** What a loop registers in the type table, when each call of the callback
    registers entries that are related to the element it visits. *)
Lemma forEach_registers {A : Type} (f : A -> Parser -> result Parser)
  (I : Parser -> Prop) (R : A -> list (option string * TypeData) -> Prop) :
  (forall x s s', I s -> f x s = Ok s' ->
     I s' /\ exists es,
       types (parsedData s') = insertTypes es (types (parsedData s)) /\
       R x es) ->
  forall l s s', I s -> forEach f l s = Ok s' ->
    I s' /\ exists ess,
      types (parsedData s') = insertTypes (concat ess) (types (parsedData s)) /\
      Forall2 R l ess.
Proof.
  intros Hf l. induction l as [|x l IH]; intros s s' HI H; simpl in H.
  - inversion H; subst. split; [exact HI|]. exists []. now split.
  - apply bind_Ok in H. destruct H as (s1 & H1 & H2).
    destruct (Hf _ _ _ HI H1) as (HI1 & es & Hes & HR).
    destruct (IH _ _ HI1 H2) as (HI' & ess & Hess & HF).
    split; [exact HI'|]. exists (es :: ess). simpl.
    rewrite insertTypes_app, <- Hes. split; [exact Hess | now constructor].
Qed.

Lemma hasKey_false (id : option string)
  (table : list (option string * TypeData)) :
  ParsedDataOps.hasKey id table = false -> ~ In id (map fst table).
Proof.
  unfold ParsedDataOps.hasKey. intros H Hin.
  apply in_map_iff in Hin. destruct Hin as (e & He & Hin).
  assert (Hex : existsb (fun e => strictEq (fst e) id) table = true).
  { apply existsb_exists. exists e. split; [exact Hin|].
    now apply strictEq_true. }
  congruence.
Qed.

(** The type table keeps one entry per key. *)
Lemma insertType_NoDup (id : option string) (data : TypeData)
  (table : list (option string * TypeData)) :
  NoDup (map fst table) ->
  NoDup (map fst (ParsedDataOps.insertType id data table)).
Proof.
  intros H. unfold ParsedDataOps.insertType.
  destruct (ParsedDataOps.hasKey id table) eqn:E; [exact H|].
  rewrite map_app. simpl. apply NoDup_app;
    [exact H | repeat constructor; intros [] |].
  intros k Hk [<-|[]]. now apply (hasKey_false _ _ E).
Qed.

Lemma insertTypes_NoDup (es table : list (option string * TypeData)) :
  NoDup (map fst table) -> NoDup (map fst (insertTypes es table)).
Proof.
  revert table. induction es as [|e es IH]; intros table H; simpl;
    [exact H|].
  apply IH. now apply insertType_NoDup.
Qed.

(** Every entry of the type table is one that was registered. *)
Lemma In_insertTypes (es table : list (option string * TypeData))
  (e : option string * TypeData) :
  In e (insertTypes es table) -> In e table \/ In e es.
Proof.
  revert table. induction es as [|x es IH]; intros table H; simpl in H;
    [now left|].
  apply IH in H. destruct H as [H|H]; [|right; now right].
  unfold ParsedDataOps.insertType in H.
  destruct (ParsedDataOps.hasKey (fst x) table); [now left|].
  apply in_app_or in H. destruct H as [H|[H|[]]]; [now left|].
  right. left. rewrite <- H. now destruct x.
Qed.

Section TypeTable.

Variable env : Imports.

Lemma addRegularField_types (a : OwnedAttribute) (classId : option string)
  (this this' : Parser) :
  addRegularField env a classId this = Ok this' ->
  exists es,
    types (parsedData this') = insertTypes es (types (parsedData this)) /\
    if negb (truthy (type (attribute_ a)))
    then exists e, es = [e] /\ referenceEntry env (databaseTypes this) a e
    else es = [].
Proof.
  unfold addRegularField. intros H.
  apply bind_Ok in H. destruct H as (u & _ & H).
  apply bind_Ok in H. destruct H as ((ty & this1) & Hty & H).
  apply bind_Ok in H. destruct H as (comment & _ & H).
  inversion H; subst this'; clear H. simpl.
  unfold resolveFieldType in Hty.
  destruct (truthy (type (attribute_ a))); simpl.
  - inversion Hty; subst. exists []. now split.
  - destruct (attribute_type a) as [l|] eqn:El; [|discriminate].
    apply bind_Ok in Hty. destruct Hty as (t0 & Ht0 & Hty).
    apply bind_Ok in Hty. destruct Hty as (extracted & Hurl & Hty).
    apply bind_Ok in Hty. destruct Hty as (this2 & Hadd & Hty).
    inversion Hty; subst; clear Hty.
    unfold addType in Hadd. rewrite upperFirst_idempotent in Hadd.
    destruct (contains (databaseTypes this) (upperFirst (Some extracted)))
      eqn:Ec; [|discriminate].
    inversion Hadd; subst this1; clear Hadd.
    exists [(Some (upperFirst (Some extracted)),
             {| type_name := upperFirst (Some extracted) |})].
    split; [reflexivity|]. eexists. split; [reflexivity|].
    destruct l as [|t0' rest]; [discriminate|].
    inversion Ht0; subst t0'.
    exists t0, rest, extracted. now repeat split.
Qed.

Lemma handleAttributes_types (c : PackagedElement) (this this' : Parser) :
  handleAttributes env c this = Ok this' ->
  exists es,
    types (parsedData this') = insertTypes es (types (parsedData this)) /\
    Forall2 (referenceEntry env (databaseTypes this))
      (filter (isTypedByReference env) (attributesOf c)) es.
Proof.
  unfold handleAttributes, attributesOf.
  destruct (ownedAttribute c) as [attributes|]; [|discriminate].
  intros H.
  apply (forEach_registers (handleAttribute env c)
           (fun s => databaseTypes s = databaseTypes this)
           (fun a es =>
              if isTypedByReference env a
              then exists e, es = [e] /\
                             referenceEntry env (databaseTypes this) a e
              else es = [])) in H; [| |reflexivity].
  - destruct H as (_ & ess & Hlog & HF).
    exists (concat ess). split; [exact Hlog|].
    now apply Forall2_filtered.
  - clear. intros a s s' Hdb H.
    pose proof (handleAttribute_frame env _ _ _ _ H) as (Hs & _).
    split; [now rewrite (scanOf_databaseTypes _ _ Hs)|].
    unfold handleAttribute, addField in H.
    unfold isTypedByReference, isRegular.
    destruct (negb (truthy (name (attribute_ a)))); [discriminate|].
    destruct (negb (isAnId env (name (attribute_ a)))); simpl.
    + apply addRegularField_types in H. now rewrite Hdb in H.
    + inversion H; subst. exists []. now split.
Qed.

Lemma fillClassAndFieldsOf_types (c : PackagedElement)
  (this this' : Parser) :
  fillClassAndFieldsOf env c this = Ok this' ->
  exists es,
    types (parsedData this') = insertTypes es (types (parsedData this)) /\
    Forall2 (referenceEntry env (databaseTypes this))
      (filter (isTypedByReference env) (attributesOf c)) es.
Proof.
  unfold fillClassAndFieldsOf. intros H.
  destruct (negb (truthy (name (element_ c)))); [discriminate|].
  apply bind_Ok in H. destruct H as (this1 & H1 & H).
  apply bind_Ok in H. destruct H as (this2 & H2 & H).
  apply checkForUserClass_frame in H1. destruct H1 as (Hs1 & Hd1).
  assert (Hd2 : types (parsedData this2) = types (parsedData this1) /\
                databaseTypes this2 = databaseTypes this1).
  { unfold addClass in H2. returns H2. now split. }
  destruct Hd2 as (Ht2 & Hdb2).
  assert (Hdb : databaseTypes this2 = databaseTypes this)
    by (rewrite Hdb2; now apply scanOf_databaseTypes).
  destruct (ownedAttribute c) eqn:Ho.
  - apply handleAttributes_types in H. destruct H as (es & Hes & HP).
    exists es. rewrite Hes, Ht2, Hd1, <- Hdb. now split.
  - inversion H; subst. exists []. rewrite Ht2, Hd1.
    split; [reflexivity|]. unfold attributesOf. rewrite Ho. constructor.
Qed.

(** X5: the type table of a parsed document is what registering, each under
    its key unless the key is already present, leaves of: first one entry per
    type element, in document order, keyed by the element's [xmi:id] and
    named by its name with a capital first letter; then, class by class, one
    entry per attribute that is handled as a field and has no inline type,
    in document order, keyed and named by the name extracted from the link of
    its first [type] child, with a capital first letter.  The table has one
    entry per key, and the database types allow every name in it. *)
Theorem type_table_of_a_parsed_document (r : Root) (db : DatabaseTypes)
  (elements : list PackagedElement) (model : ParsedData) :
  packagedElement r = Some elements ->
  parse env (UMLDesignerParser r db) = Ok model ->
  exists perClass,
    types model
    = fold_left
        (fun table e => ParsedDataOps.insertType (fst e) (snd e) table)
        (map (fun t => (xmi_id (element_ t),
                        {| type_name := upperFirst (name (element_ t)) |}))
           (filter isTypeElement elements)
         ++ concat perClass)
        [] /\
    Forall2
      (fun c es =>
         Forall2
           (fun a e => exists type0 rest extracted,
              attribute_type a = Some (type0 :: rest) /\
              getTypeNameFromURL env (href (leaf_ type0)) = Ok extracted /\
              e = (Some (upperFirst (Some extracted)),
                   {| type_name := upperFirst (Some extracted) |}))
           (filter
              (fun a => negb (isAnId env (name (attribute_ a)))
                        && negb (truthy (type (attribute_ a))))
              (attributesOf c))
           es)
      (filter (hasType "uml:Class") elements) perClass /\
    NoDup (map fst (types model)) /\
    Forall (fun e => contains db (type_name (snd e)) = true) (types model).
Proof.
  intros Hr H.
  destruct (parse_fillAll env r db elements Hr)
    as (this1 & _ & _ & Hdb & Hp & _ & Hparse).
  rewrite Hparse in H. clear Hparse.
  destruct (fillAll env _ _ _ _ this1) as [this5|] eqn:Hall; [|discriminate].
  inversion H; subst model; clear H.
  unfold fillAll in Hall.
  apply bind_Ok in Hall. destruct Hall as (this2 & H2 & Hall).
  apply bind_Ok in Hall. destruct Hall as (this3 & H3 & Hall).
  apply bind_Ok in Hall. destruct Hall as (this4 & H4 & H5).
  pose proof (forEach_fillTypeOf_Ok _ _ _ H2) as Hsup. rewrite Hdb in Hsup.
  destruct (forEach_fillTypeOf_supported db _ Hsup this1 Hdb)
    as (this2' & H2' & (Hs2 & _) & Hlog2).
  rewrite H2 in H2'. inversion H2'; subst this2'; clear H2'.
  rewrite Hp in Hlog2. simpl in Hlog2.
  pose proof (forEach_fillEnumOf_scan _ _ _ H3) as (Hs3 & _ & Ht3 & _).
  assert (Hdb3 : databaseTypes this3 = db).
  { rewrite (scanOf_databaseTypes _ _ Hs3), (scanOf_databaseTypes _ _ Hs2).
    exact Hdb. }
  apply (forEach_registers (fillClassAndFieldsOf env)
           (fun s => databaseTypes s = db)
           (fun c es =>
              Forall2 (referenceEntry env db)
                (filter (isTypedByReference env) (attributesOf c)) es))
    in H4; [| |exact Hdb3].
  2:{ clear. intros c s s' Hdb H.
      pose proof (fillClassAndFieldsOf_frame env _ _ _ H) as (Hs & _).
      split; [now rewrite (scanOf_databaseTypes _ _ Hs)|].
      apply fillClassAndFieldsOf_types in H. now rewrite Hdb in H. }
  destruct H4 as (_ & perClass & Hlog4 & Href).
  pose proof (forEach_fillAssociationOf_scan _ _ _ H5) as (_ & _ & Ht5 & _).
  assert (Htable : types (parsedData this5)
                   = insertTypes
                       (map typeEntry (filter isTypeElement elements)
                        ++ concat perClass) []).
  { rewrite Ht5, Hlog4, Ht3, Hlog2. symmetry. apply insertTypes_app. }
  exists perClass. split; [exact Htable|]. split; [|split].
  - eapply Forall2_impl; [|exact Href]. intros c es Hc.
    eapply Forall2_impl; [|exact Hc].
    intros a e (type0 & rest & extracted & Hty & Hurl & _ & He).
    now exists type0, rest, extracted.
  - rewrite Htable. apply insertTypes_NoDup. constructor.
  - rewrite Htable. apply Forall_forall. intros e He.
    apply In_insertTypes in He. destruct He as [[]|He].
    apply in_app_or in He. destruct He as [He|He].
    + apply in_map_iff in He. destruct He as (t & <- & Ht).
      rewrite Forall_forall in Hsup. exact (Hsup t Ht).
    + apply in_concat in He. destruct He as (es & Hes & He).
      destruct (Forall2_In_left (fun es c => Forall2 (referenceEntry env db)
                  (filter (isTypedByReference env) (attributesOf c)) es)
                  perClass (filter (hasType "uml:Class") elements) es)
        as (c & _ & Hc); [|exact Hes|].
      * clear -Href. induction Href; constructor; assumption.
      * destruct (Forall2_In_left (fun e a => referenceEntry env db a e)
                    es (filter (isTypedByReference env) (attributesOf c)) e)
          as (a & _ & type0 & rest & extracted & _ & _ & Hc' & ->);
          [|exact He|].
        -- clear -Hc. induction Hc; constructor; assumption.
        -- exact Hc'.
Qed.

End TypeTable.

Lemma type_table_of_a_parsed_document_witness :
  exists model perClass,
    parse Sample.imports (Sample.document Sample.ledger) = Ok model /\
    types model
    = [(Some "t1", {| type_name := "String" |});
       (Some "t2", {| type_name := "Long" |});
       (Some "BigDecimal", {| type_name := "BigDecimal" |})] /\
    perClass
    = [[(Some "BigDecimal", {| type_name := "BigDecimal" |});
        (Some "BigDecimal", {| type_name := "BigDecimal" |})]] /\
    types model
    = fold_left
        (fun table e => ParsedDataOps.insertType (fst e) (snd e) table)
        (map (fun t => (xmi_id (element_ t),
                        {| type_name := upperFirst (name (element_ t)) |}))
           (filter isTypeElement Sample.ledger)
         ++ concat perClass)
        [] /\
    NoDup (map fst (types model)) /\
    Forall (fun e => contains Sample.sql (type_name (snd e)) = true)
      (types model).
Proof.
  eexists.
  destruct (type_table_of_a_parsed_document Sample.imports
              {| packagedElement := Some Sample.ledger |} Sample.sql
              Sample.ledger _ eq_refl eq_refl)
    as (perClass & H1 & H2 & H3 & H4).
  exists perClass. split; [reflexivity|]. split; [reflexivity|].
  split; [|split; [exact H1 | split; [exact H3 | exact H4]]].
  simpl in H2.
  inversion H2 as [|c es cs ess Hc Hrest]; subst.
  inversion Hrest; subst.
  inversion Hc as [|a1 e1 ? ? (t1 & r1 & x1 & Ha1 & Hu1 & He1) Hc']; subst.
  inversion Hc' as [|a2 e2 ? ? (t2 & r2 & x2 & Ha2 & Hu2 & He2) Hc'']; subst.
  inversion Hc''; subst.
  inversion Ha1; subst. inversion Ha2; subst.
  inversion Hu1; subst. inversion Hu2; subst.
  reflexivity.
Defined.

(* ================================================================= *)
(** ** The enumeration table and the names of a parsed document *)

Lemma toUpperCase_nonempty (n : string) : n <> "" -> toUpperCase n <> "".
Proof.
  intros Hn H. apply (proj1 (toUpperCase_empty n)) in H. contradiction.
Qed.

(** X6: the enumeration table of a parsed document has one entry per
    enumeration element, in document order, keyed by the element's [xmi:id]
    and holding its name; the values of an entry are the names of the
    element's literals in upper case, in the order of the literals, so none
    is empty and none keeps a lower-case letter. *)
Theorem enum_table_of_a_parsed_document (env : Imports) (r : Root)
  (db : DatabaseTypes) (elements : list PackagedElement)
  (model : ParsedData) :
  packagedElement r = Some elements ->
  parse env (UMLDesignerParser r db) = Ok model ->
  Forall2
    (fun a e =>
       fst e = xmi_id (element_ a) /\
       enum_name (snd e) = name (element_ a) /\
       Forall2 (fun l v => exists n, name (literal_ l) = Some n /\
                                     v = toUpperCase n)
         (literalsOf a) (values (snd e)) /\
       Forall (fun v => v <> "" /\ noLowerLetter v = true) (values (snd e)))
    (filter (hasType "uml:Enumeration") elements) (enums model).
Proof.
  intros Hr H.
  eapply Forall2_impl; [|exact (parse_enums env r db _ _ Hr H)].
  intros a e (Hid & _ & Hname & Hl & Hv).
  split; [exact Hid|]. split; [exact Hname|].
  rewrite Hv. clear Hv. induction Hl as [|l ls Hl _ IH]; simpl.
  - split; constructor.
  - apply truthy_Some in Hl. destruct Hl as (n & Hn & Hne).
    destruct IH as (IH1 & IH2). rewrite Hn. simpl. split.
    + constructor; [now exists n | exact IH1].
    + constructor; [|exact IH2].
      split; [now apply toUpperCase_nonempty|].
      apply toUpperCase_noLowerLetter.
Qed.

Lemma enum_table_of_a_parsed_document_witness :
  exists model,
    parse Sample.imports (Sample.document Sample.shopReordered) = Ok model /\
    enums model
    = [(Some "e1",
        {| enum_name := Some "Status"; values := ["ACTIVE"; "INACTIVE"] |})] /\
    Forall2
      (fun a e =>
         fst e = xmi_id (element_ a) /\
         enum_name (snd e) = name (element_ a) /\
         Forall2 (fun l v => exists n, name (literal_ l) = Some n /\
                                       v = toUpperCase n)
           (literalsOf a) (values (snd e)) /\
         Forall (fun v => v <> "" /\ noLowerLetter v = true) (values (snd e)))
      (filter (hasType "uml:Enumeration") Sample.shopReordered)
      (enums model).
Proof.
  eexists. split; [reflexivity|]. split; [reflexivity|].
  apply (enum_table_of_a_parsed_document Sample.imports
           {| packagedElement := Some Sample.shopReordered |} Sample.sql);
    reflexivity.
Defined.

Lemma fillEnumOf_haveName (this : Parser) (enumElement : PackagedElement) :
  literalsHaveName enumElement ->
  if lacksAName enumElement
  then exists message,
         fillEnumOf enumElement this
         = Throw (buildException NullPointer message) /\
         (message = "The enumeration's name can't be null." \/
          message = "The Enumeration's values can't be null.")
  else exists this', fillEnumOf enumElement this = Ok this'.
Proof.
  unfold fillEnumOf, lacksAName, literalsHaveName, literalsOf.
  intros Hl.
  destruct (truthy (name (element_ enumElement))); simpl;
    [|eexists; split; [reflexivity | now left]].
  destruct (ownedLiteral enumElement) as [literals|]; simpl;
    [|eexists; reflexivity].
  pose proof (forEach_pushLiteral_haveName literals Hl []) as H.
  destruct (existsb _ literals).
  - rewrite H. simpl. eexists. split; [reflexivity | now right].
  - destruct H as (values' & ->). simpl. eexists. reflexivity.
Qed.

Lemma forEach_fillEnumOf_NullPointer (l : list PackagedElement) :
  Forall literalsHaveName l ->
  Exists (fun e => lacksAName e = true) l ->
  forall this,
    exists message,
      forEach fillEnumOf l this = Throw (buildException NullPointer message) /\
      (message = "The enumeration's name can't be null." \/
       message = "The Enumeration's values can't be null.").
Proof.
  induction 1 as [|e l He _ IH]; intros Hex this; [inversion Hex|].
  simpl. pose proof (fillEnumOf_haveName this e He) as H.
  destruct (lacksAName e) eqn:Hlack.
  - destruct H as (message & -> & Hm). simpl. now exists message.
  - destruct H as (this' & ->). simpl. apply IH.
    inversion Hex as [? ? Hhead|? ? Htail]; subst; [congruence | exact Htail].
Qed.

(** X7: when the database types support every type element and every literal
    carries a [name] attribute, a document with an enumeration that has no
    name (none, or the empty string) or with a literal whose name is empty
    is refused with [NullPointer], whatever its classes and associations
    are. *)
Theorem unnamed_enumeration_is_a_NullPointer (env : Imports) (r : Root)
  (db : DatabaseTypes) (elements : list PackagedElement) :
  packagedElement r = Some elements ->
  Forall (fun t => contains db (upperFirst (name (element_ t))) = true)
    (filter isTypeElement elements) ->
  Forall (fun e => Forall (fun l => name (literal_ l) <> None) (literalsOf e))
    (filter (hasType "uml:Enumeration") elements) ->
  Exists
    (fun e => truthy (name (element_ e)) = false \/
              Exists (fun l => name (literal_ l) = Some "") (literalsOf e))
    (filter (hasType "uml:Enumeration") elements) ->
  exists message,
    parse env (UMLDesignerParser r db)
    = Throw (buildException NullPointer message) /\
    (message = "The enumeration's name can't be null." \/
     message = "The Enumeration's values can't be null.").
Proof.
  intros Hr Htypes Hlits Hex.
  destruct (parse_fillAll env r db elements Hr)
    as (this1 & _ & _ & Hdb & _ & _ & ->).
  unfold fillAll.
  destruct (forEach_fillTypeOf_supported db _ Htypes this1 Hdb)
    as (this2 & -> & _ & _).
  simpl.
  destruct (forEach_fillEnumOf_NullPointer
              (filter (hasType "uml:Enumeration") elements) Hlits) with
    (this := this2) as (message & -> & Hm).
  - eapply Exists_impl; [|exact Hex].
    intros e [Hn|Hl]; unfold lacksAName.
    + now rewrite Hn.
    + apply orb_true_iff. right. apply existsb_exists.
      apply Exists_exists in Hl. destruct Hl as (l & Hin & Hl).
      exists l. split; [exact Hin|]. now rewrite Hl.
  - exists message. now split.
Qed.

Lemma unnamed_enumeration_is_a_NullPointer_witness :
  exists message,
    parse Sample.imports
      (Sample.document
         [Sample.classOf "c2" (Some "Class") None;
          Sample.statusWithEmptyLiteral])
    = Throw (buildException NullPointer message) /\
    (message = "The enumeration's name can't be null." \/
     message = "The Enumeration's values can't be null.").
Proof.
  apply (unnamed_enumeration_is_a_NullPointer Sample.imports
           {| packagedElement :=
                Some [Sample.classOf "c2" (Some "Class") None;
                      Sample.statusWithEmptyLiteral] |} Sample.sql
           [Sample.classOf "c2" (Some "Class") None;
            Sample.statusWithEmptyLiteral]).
  - reflexivity.
  - constructor.
  - repeat constructor; discriminate.
  - constructor. right. apply Exists_cons_tl. constructor. reflexivity.
Defined.

(** X8: a document is parsed only if every class, every enumeration, every
    attribute of a class and every literal of an enumeration has a name that
    is not empty. *)
Theorem parsed_documents_have_names (env : Imports) (r : Root)
  (db : DatabaseTypes) (elements : list PackagedElement)
  (model : ParsedData) :
  packagedElement r = Some elements ->
  parse env (UMLDesignerParser r db) = Ok model ->
  Forall
    (fun e => truthy (name (element_ e)) = true /\
              Forall (fun l => truthy (name (literal_ l)) = true)
                (literalsOf e))
    (filter (hasType "uml:Enumeration") elements) /\
  Forall
    (fun c => truthy (name (element_ c)) = true /\
              Forall (fun a => truthy (name (attribute_ a)) = true)
                (attributesOf c))
    (filter (hasType "uml:Class") elements).
Proof.
  intros Hr H. split.
  - eapply Forall2_Forall_left; [|exact (parse_enums env r db _ _ Hr H)].
    intros e x (_ & Hn & _ & Hl & _). now split.
  - destruct (parse_fields env r db elements model Hr H)
      as (perClass & _ & HF).
    eapply Forall2_Forall_left; [|exact HF].
    intros c es (Hn & _ & _ & ess & _ & Hattrs). split; [exact Hn|].
    eapply Forall2_Forall_left; [|exact Hattrs].
    now intros a es' (Ha & _).
Qed.

Lemma parsed_documents_have_names_witness :
  Forall
    (fun e => truthy (name (element_ e)) = true /\
              Forall (fun l => truthy (name (literal_ l)) = true)
                (literalsOf e))
    (filter (hasType "uml:Enumeration") Sample.shop) /\
  Forall
    (fun c => truthy (name (element_ c)) = true /\
              Forall (fun a => truthy (name (attribute_ a)) = true)
                (attributesOf c))
    (filter (hasType "uml:Class") Sample.shop).
Proof.
  eapply (parsed_documents_have_names Sample.imports
            {| packagedElement := Some Sample.shop |} Sample.sql Sample.shop);
    reflexivity.
Defined.

(* ================================================================= *)
(** ** The class table and the user class *)

Section ClassTable.

Variable env : Imports.

(** Adding fields leaves the class table and the user class alone. *)
Lemma addRegularField_keeps (a : OwnedAttribute) (classId : option string)
  (this this' : Parser) :
  addRegularField env a classId this = Ok this' ->
  classes (parsedData this') = classes (parsedData this) /\
  userClassId this' = userClassId this.
Proof.
  unfold addRegularField. intros H.
  apply bind_Ok in H. destruct H as (u & _ & H).
  apply bind_Ok in H. destruct H as ((ty & this1) & Hty & H).
  apply bind_Ok in H. destruct H as (comment & _ & H).
  inversion H; subst this'; clear H. simpl.
  unfold resolveFieldType in Hty.
  destruct (truthy (type (attribute_ a))).
  - inversion Hty; subst. now split.
  - destruct (attribute_type a) as [l|]; [|discriminate].
    apply bind_Ok in Hty. destruct Hty as (t0 & _ & Hty).
    apply bind_Ok in Hty. destruct Hty as (extracted & _ & Hty).
    apply bind_Ok in Hty. destruct Hty as (this2 & Hadd & Hty).
    inversion Hty; subst; clear Hty.
    apply addType_frame in Hadd.
    destruct Hadd as (_ & Hu & _ & Hc & _). now split.
Qed.

Lemma handleAttributes_keeps (c : PackagedElement) (this this' : Parser) :
  handleAttributes env c this = Ok this' ->
  classes (parsedData this') = classes (parsedData this) /\
  userClassId this' = userClassId this.
Proof.
  unfold handleAttributes.
  destruct (ownedAttribute c) as [attributes|]; [|discriminate].
  apply (forEach_preserves (handleAttribute env c)
           (fun a b => classes (parsedData b) = classes (parsedData a) /\
                       userClassId b = userClassId a)).
  - now split.
  - intros a b d (H1 & H2) (H3 & H4). split; congruence.
  - intros a s s' H. unfold handleAttribute, addField in H.
    destruct (negb (truthy (name (attribute_ a)))); [discriminate|].
    destruct (negb (isAnId env (name (attribute_ a)))).
    + now apply addRegularField_keeps in H.
    + inversion H. now split.
Qed.

(** What handling one class element appends to the class table, and what it
    makes of the user class. *)
Lemma fillClassAndFieldsOf_class (c : PackagedElement) (this this' : Parser) :
  fillClassAndFieldsOf env c this = Ok this' ->
  exists n comment,
    name (element_ c) = Some n /\
    firstCommentBody (ownedComment c) = Ok comment /\
    classes (parsedData this')
    = classes (parsedData this)
      ++ [(xmi_id (element_ c),
           {| class_name := className env c;
              class_tableName := classTableName env c;
              class_comment := comment |})] /\
    userClassId this'
    = if truthy (userClassId this) then userClassId this
      else if (toLowerCase n =? "user")%string then xmi_id (element_ c)
      else userClassId this.
Proof.
  unfold fillClassAndFieldsOf. intros H.
  destruct (truthy (name (element_ c))) eqn:Hn; simpl in H; [|discriminate].
  apply truthy_Some in Hn. destruct Hn as (n & Hn & _).
  apply bind_Ok in H. destruct H as (this1 & H1 & H).
  apply bind_Ok in H. destruct H as (this2 & H2 & H).
  assert (Hkeep : classes (parsedData this') = classes (parsedData this2) /\
                  userClassId this' = userClassId this2).
  { destruct (ownedAttribute c).
    - now apply handleAttributes_keeps in H.
    - inversion H. now split. }
  destruct Hkeep as (Hc & Hu).
  unfold addClass in H2.
  apply bind_Ok in H2. destruct H2 as (u1 & _ & H2).
  apply bind_Ok in H2. destruct H2 as (u2 & _ & H2).
  apply bind_Ok in H2. destruct H2 as (comment & Hcomment & H2).
  inversion H2; subst this2; clear H2. simpl in Hc, Hu.
  exists n, comment. split; [exact Hn|]. split; [exact Hcomment|].
  unfold checkForUserClass in H1. rewrite Hn in H1. simpl in H1.
  rewrite Hc, Hu.
  destruct (truthy (userClassId this)); simpl in H1.
  - inversion H1; subst. now split.
  - destruct (toLowerCase n =? "user")%string;
      inversion H1; subst; now split.
Qed.

(** The class table of a parsed document, class element by class element. *)
Lemma parse_classes (r : Root) (db : DatabaseTypes)
  (elements : list PackagedElement) (model : ParsedData) :
  packagedElement r = Some elements ->
  parse env (UMLDesignerParser r db) = Ok model ->
  Forall2
    (fun c e =>
       fst e = xmi_id (element_ c) /\
       class_name (snd e) = className env c /\
       class_tableName (snd e) = classTableName env c /\
       firstCommentBody (ownedComment c) = Ok (class_comment (snd e)))
    (filter (hasType "uml:Class") elements) (classes model).
Proof.
  intros Hr H.
  destruct (parse_phases env r db elements model Hr H)
    as (this1 & this2 & this3 & this4 & this5 & _ & _ & H4 & _ & -> &
        _ & _ & S3 & _ & _ & _ & C3 & _ & _ & _ & C5 & _).
  rewrite (fillClassesAndFields_elements env r db elements this3 Hr S3) in H4.
  apply (forEach_log (fillClassAndFieldsOf env)
           (fun s => classes (parsedData s)) (fun _ => True)
           (fun c es => exists e, es = [e] /\
              fst e = xmi_id (element_ c) /\
              class_name (snd e) = className env c /\
              class_tableName (snd e) = classTableName env c /\
              firstCommentBody (ownedComment c) = Ok (class_comment (snd e))))
    in H4; [| |exact I].
  - destruct H4 as (_ & ess & Hlog & HF).
    rewrite C5, Hlog, C3. simpl. now apply Forall2_singletons.
  - clear. intros c s s' _ H. split; [exact I|].
    apply fillClassAndFieldsOf_class in H.
    destruct H as (n & comment & _ & Hcomment & Hlog & _).
    eexists. split; [exact Hlog|]. eexists. split; [reflexivity|].
    now repeat split.
Qed.

End ClassTable.

(** X9: the class table of a parsed document has one entry per class element, in
    document order, keyed by the element's [xmi:id]: its name is the entity
    name that [extractClassName] gives for the element's name, with a capital
    first letter, its table name is the one [extractClassName] gives, and its
    comment is the first body of the element's first comment, if any. *)
Theorem class_table_of_a_parsed_document (env : Imports) (r : Root)
  (db : DatabaseTypes) (elements : list PackagedElement)
  (model : ParsedData) :
  packagedElement r = Some elements ->
  parse env (UMLDesignerParser r db) = Ok model ->
  Forall2
    (fun c e =>
       fst e = xmi_id (element_ c) /\
       class_name (snd e)
       = upperFirst
           (Some (fst (extractClassName env (name (element_ c))))) /\
       class_tableName (snd e)
       = snd (extractClassName env (name (element_ c))) /\
       firstCommentBody (ownedComment c) = Ok (class_comment (snd e)))
    (filter (hasType "uml:Class") elements) (classes model).
Proof. apply parse_classes. Qed.

Lemma class_table_of_a_parsed_document_witness :
  exists model,
    parse Sample.imports (Sample.document Sample.shop) = Ok model /\
    classes model
    = [(Some "c1", {| class_name := "Customer";
                      class_tableName := "customer";
                      class_comment := None |});
       (Some "c2", {| class_name := "Invoice";
                      class_tableName := "invoice";
                      class_comment := None |})] /\
    Forall2
      (fun c e =>
         fst e = xmi_id (element_ c) /\
         class_name (snd e)
         = upperFirst
             (Some (fst (extractClassName Sample.imports
                           (name (element_ c))))) /\
         class_tableName (snd e)
         = snd (extractClassName Sample.imports (name (element_ c))) /\
         firstCommentBody (ownedComment c) = Ok (class_comment (snd e)))
      (filter (hasType "uml:Class") Sample.shop) (classes model).
Proof.
  eexists. split; [reflexivity|]. split; [reflexivity|].
  apply (class_table_of_a_parsed_document Sample.imports
           {| packagedElement := Some Sample.shop |} Sample.sql);
    reflexivity.
Defined.

(** X10: every field of a parsed document belongs to a class of its class table:
    the class id of each entry of the field table is the key of an entry of
    the class table. *)
Theorem fields_belong_to_parsed_classes (env : Imports) (r : Root)
  (db : DatabaseTypes) (elements : list PackagedElement)
  (model : ParsedData) :
  packagedElement r = Some elements ->
  parse env (UMLDesignerParser r db) = Ok model ->
  Forall (fun f => In (fst (fst f)) (map fst (classes model)))
    (fields model).
Proof.
  intros Hr H.
  pose proof (parse_classes env r db elements model Hr H) as Hclasses.
  destruct (parse_fields env r db elements model Hr H)
    as (perClass & -> & HF).
  apply Forall_concat.
  revert Hclasses HF. generalize (classes model).
  generalize (filter (hasType "uml:Class") elements). clear.
  intros cs table Hclasses HF. revert table Hclasses.
  induction HF as [|c es cs perClass Hc _ IH]; intros table Hclasses;
    [constructor|].
  inversion Hclasses as [|? e ? table' (Hid & _) Hrest]; subst.
  constructor.
  - apply classHandled_fields in Hc.
    eapply Forall2_Forall_left with (l' := filter (isRegular env)
                                              (attributesOf c)).
    + intros f a Hfa. exact Hfa.
    + clear -Hc Hid. induction Hc as [|a f ? ? (Hf & _) _ IHc];
        constructor; [|exact IHc].
      simpl. left. congruence.
  - eapply Forall_impl; [|exact (IH table' Hrest)].
    intros l Hl. eapply Forall_impl; [|exact Hl].
    intros f Hf. simpl. now right.
Qed.

Lemma fields_belong_to_parsed_classes_witness :
  exists model,
    parse Sample.imports (Sample.document Sample.shop) = Ok model /\
    Forall (fun f => In (fst (fst f)) (map fst (classes model)))
      (fields model).
Proof.
  eexists. split; [reflexivity|].
  apply (fields_belong_to_parsed_classes Sample.imports
           {| packagedElement := Some Sample.shop |} Sample.sql Sample.shop);
    reflexivity.
Defined.

(** X11: the first class element whose name is [user] in any letter case and
    whose [xmi:id] is not empty becomes the user class, and no later class
    element replaces it. *)
Theorem first_user_class_is_kept (env : Imports) (r : Root)
  (db : DatabaseTypes) (elements before after : list PackagedElement)
  (u : PackagedElement) (this1 this2 this3 this4 : Parser) :
  packagedElement r = Some elements ->
  findElements (UMLDesignerParser r db) = Ok this1 ->
  fillTypes this1 = Ok this2 ->
  fillEnums this2 = Ok this3 ->
  fillClassesAndFields env this3 = Ok this4 ->
  filter (hasType "uml:Class") elements = before ++ u :: after ->
  Forall
    (fun c => forall n, name (element_ c) = Some n ->
                        toLowerCase n = "user" ->
                        truthy (xmi_id (element_ c)) = false)
    before ->
  (exists n, name (element_ u) = Some n /\ toLowerCase n = "user") ->
  truthy (xmi_id (element_ u)) = true ->
  userClassId this4 = xmi_id (element_ u).
Proof.
  intros Hr H1 H2 H3 H4 Hsplit Hbefore (n & Hn & Huser) Hid.
  destruct (findElements_fresh r db elements Hr)
    as (this1' & H1' & S1 & _ & _ & Hu1).
  rewrite H1 in H1'. inversion H1'; subst this1'; clear H1'.
  pose proof (fillTypes_frame _ _ H2) as (F2 & Hu2 & _).
  pose proof (fillEnums_frame _ _ H3) as (F3 & Hu3 & _).
  assert (S3 : scanned r db elements this3)
    by (unfold scanned in *; congruence).
  assert (Hnone : truthy (userClassId this3) = false)
    by (rewrite Hu3, Hu2, Hu1; reflexivity).
  rewrite (fillClassesAndFields_elements env r db elements this3 Hr S3),
    Hsplit, forEach_app in H4.
  apply bind_Ok in H4. destruct H4 as (thisA & HA & H4).
  simpl in H4. apply bind_Ok in H4. destruct H4 as (thisB & HB & H4).
  assert (HnoneA : truthy (userClassId thisA) = false).
  { clear -HA Hbefore Hnone. revert this3 HA Hnone.
    induction Hbefore as [|c before Hc _ IH]; intros s HA Hnone; simpl in HA.
    - now inversion HA; subst.
    - apply bind_Ok in HA. destruct HA as (s1 & Hs1 & HA).
      apply (IH s1 HA).
      apply fillClassAndFieldsOf_class in Hs1.
      destruct Hs1 as (m & comment & Hm & _ & _ & Hu).
      rewrite Hu, Hnone.
      destruct (toLowerCase m =? "user")%string eqn:E; [|exact Hnone].
      apply String.eqb_eq in E. now apply (Hc m). }
  assert (HuB : userClassId thisB = xmi_id (element_ u)).
  { apply fillClassAndFieldsOf_class in HB.
    destruct HB as (m & comment & Hm & _ & _ & Hu).
    rewrite Hu, HnoneA. assert (m = n) by congruence. subst m.
    rewrite Huser. reflexivity. }
  apply (forEach_invariant (fillClassAndFieldsOf env)
           (fun s => userClassId s = xmi_id (element_ u)))
    with (l := after) (s := thisB); [|exact HuB|exact H4].
  intros c s s' Hs H. apply fillClassAndFieldsOf_class in H.
  destruct H as (m & comment & _ & _ & _ & Hu).
  rewrite Hu, Hs, Hid. reflexivity.
Qed.

Lemma first_user_class_is_kept_witness :
  exists this1 this2 this3 this4,
    findElements (Sample.document Sample.twoUsers) = Ok this1 /\
    fillTypes this1 = Ok this2 /\
    fillEnums this2 = Ok this3 /\
    fillClassesAndFields Sample.imports this3 = Ok this4 /\
    userClassId this4 = Some "c2".
Proof.
  do 4 eexists.
  split; [reflexivity|]. split; [reflexivity|]. split; [reflexivity|].
  split; [reflexivity|].
  eapply (first_user_class_is_kept Sample.imports
            {| packagedElement := Some Sample.twoUsers |} Sample.sql
            Sample.twoUsers
            [Sample.classOf "c1" (Some "Customer") None]
            [Sample.classOf "c3" (Some "USER") None]
            (Sample.classOf "c2" (Some "User") None)).
  - reflexivity.
  - reflexivity.
  - reflexivity.
  - reflexivity.
  - reflexivity.
  - reflexivity.
  - constructor; [|constructor]. intros n Hn Hu.
    inversion Hn; subst n. discriminate Hu.
  - exists "User". split; reflexivity.
  - reflexivity.
Defined.

(* ================================================================= *)
(** ** More on associations *)

Lemma buildAssociationData_ends (a : PackagedElement) (d : AssociationData) :
  buildAssociationData a = Ok d ->
  exists end0 end1,
    at_ (ownedEnd a) 0 = Ok end0 /\ at_ (ownedEnd a) 1 = Ok end1 /\
    from d = type (end_ end0) /\ to d = type (end_ end1) /\
    injectedFieldInFrom d = name (end_ end1) /\
    injectedFieldInTo d = name (end_ end0).
Proof.
  unfold buildAssociationData. intros H.
  apply bind_Ok in H. destruct H as (end0 & He0 & H).
  apply bind_Ok in H. destruct H as (end1 & He1 & H).
  apply bind_Ok in H. destruct H as (lower0 & _ & H).
  apply bind_Ok in H. destruct H as (lower1 & _ & H).
  apply bind_Ok in H. destruct H as (upper1 & _ & H).
  apply bind_Ok in H. destruct H as (upper0 & _ & H).
  apply bind_Ok in H. destruct H as (b & _ & H).
  inversion H; subst d; clear H.
  exists end0, end1. split; [exact He0|]. split; [exact He1|].
  destruct (strictEq lower0 (Some "0")), (strictEq lower1 (Some "0")),
    (strictEq upper1 (Some "*")), (strictEq upper0 (Some "*")), b;
    simpl; repeat split; reflexivity.
Qed.

(** X12: in every association of a parsed document, [from] is the type of end 0
    and [to] the type of end 1, while the field injected in [from] is named
    by end 1 and the field injected in [to] by end 0. *)
Theorem association_ends_are_cross_assigned (env : Imports) (r : Root)
  (db : DatabaseTypes) (elements : list PackagedElement)
  (model : ParsedData) :
  packagedElement r = Some elements ->
  parse env (UMLDesignerParser r db) = Ok model ->
  Forall2
    (fun a e => exists end0 end1,
       at_ (ownedEnd a) 0 = Ok end0 /\ at_ (ownedEnd a) 1 = Ok end1 /\
       from (snd e) = type (end_ end0) /\
       to (snd e) = type (end_ end1) /\
       injectedFieldInFrom (snd e) = name (end_ end1) /\
       injectedFieldInTo (snd e) = name (end_ end0))
    (filter (hasType "uml:Association") elements) (associations model).
Proof.
  intros Hr H.
  eapply Forall2_impl; [|exact (parse_associations env r db _ _ Hr H)].
  intros a e (_ & Hd). now apply buildAssociationData_ends.
Qed.

Lemma association_ends_are_cross_assigned_witness :
  exists model d,
    parse Sample.imports (Sample.document Sample.shop) = Ok model /\
    associations model = [(Some "x1", d)] /\
    from d = Some "c1" /\ to d = Some "c2" /\
    injectedFieldInFrom d = Some "invoice" /\
    injectedFieldInTo d = Some "customer" /\
    Forall2
      (fun a e => exists end0 end1,
         at_ (ownedEnd a) 0 = Ok end0 /\ at_ (ownedEnd a) 1 = Ok end1 /\
         from (snd e) = type (end_ end0) /\
         to (snd e) = type (end_ end1) /\
         injectedFieldInFrom (snd e) = name (end_ end1) /\
         injectedFieldInTo (snd e) = name (end_ end0))
      (filter (hasType "uml:Association") Sample.shop) (associations model).
Proof.
  do 2 eexists. split; [reflexivity|]. split; [reflexivity|].
  do 4 (split; [reflexivity|]).
  apply (association_ends_are_cross_assigned Sample.imports
           {| packagedElement := Some Sample.shop |} Sample.sql);
    reflexivity.
Defined.

Lemma at_Throw {A : Type} (a : option (list A)) (i : nat) (e : Thrown) :
  at_ a i = Throw e -> e = TypeError.
Proof.
  unfold at_. destruct a as [l|]; [destruct (nth_error l i)|];
    intros H; now inversion H.
Qed.

Lemma bind_Throw {A B : Type} (r : result A) (k : A -> result B)
  (e : Thrown) :
  bind r k = Throw e -> r = Throw e \/ exists a, r = Ok a /\ k a = Throw e.
Proof.
  destruct r as [a|e']; simpl; intros H;
    [right; now exists a | left; now inversion H].
Qed.

Lemma lowerBound_Throw (e0 : OwnedEnd) (e : Thrown) :
  lowerBound e0 = Throw e -> e = TypeError.
Proof.
  unfold lowerBound. intros H. apply bind_Throw in H.
  destruct H as [H|(l & _ & H)]; [now apply at_Throw in H | discriminate].
Qed.

Lemma upperBound_Throw (e0 : OwnedEnd) (e : Thrown) :
  upperBound e0 = Throw e -> e = TypeError.
Proof.
  unfold upperBound. intros H. apply bind_Throw in H.
  destruct H as [H|(l & _ & H)]; [now apply at_Throw in H | discriminate].
Qed.

Lemma ownedCommentBody_Throw (c : option (list Comment)) (e : Thrown) :
  ownedCommentBody c = Throw e -> e = TypeError.
Proof.
  unfold ownedCommentBody. destruct c as [l|]; [|discriminate].
  intros H. apply bind_Throw in H.
  destruct H as [H|(c0 & _ & H)]; [now apply at_Throw in H | discriminate].
Qed.

Lemma buildAssociationData_Throw (a : PackagedElement) (e : Thrown) :
  buildAssociationData a = Throw e -> e = TypeError.
Proof.
  unfold buildAssociationData. intros H.
  apply bind_Throw in H. destruct H as [H|(end0 & _ & H)];
    [now apply at_Throw in H|].
  apply bind_Throw in H. destruct H as [H|(end1 & _ & H)];
    [now apply at_Throw in H|].
  apply bind_Throw in H. destruct H as [H|(lower0 & _ & H)];
    [now apply lowerBound_Throw in H|].
  apply bind_Throw in H. destruct H as [H|(lower1 & _ & H)];
    [now apply lowerBound_Throw in H|].
  apply bind_Throw in H. destruct H as [H|(upper1 & _ & H)];
    [now apply upperBound_Throw in H|].
  apply bind_Throw in H. destruct H as [H|(upper0 & _ & H)];
    [now apply upperBound_Throw in H|].
  apply bind_Throw in H. destruct H as [H|(b & _ & H)];
    [now apply ownedCommentBody_Throw in H | discriminate].
Qed.

Lemma forEach_Throw {A T : Type} (f : A -> T -> result T) (e : Thrown) :
  forall l s, forEach f l s = Throw e ->
    exists x s0, In x l /\ f x s0 = Throw e.
Proof.
  induction l as [|x l IH]; intros s H; simpl in H; [discriminate|].
  apply bind_Throw in H. destruct H as [H|(s1 & _ & H)].
  - exists x, s. split; [now left | exact H].
  - destruct (IH _ H) as (y & s0 & Hin & Hy).
    exists y, s0. split; [now right | exact Hy].
Qed.

(** X13: the association phase raises none of the parser's own exceptions: it
    returns, or it stops on the [TypeError] of reading a missing end, bound
    or comment. *)
Theorem fillAssociations_fails_only_with_TypeError (this : Parser) :
  (exists this', fillAssociations this = Ok this') \/
  fillAssociations this = Throw TypeError.
Proof.
  destruct (fillAssociations this) as [this'|e] eqn:H;
    [left; now exists this'|right].
  f_equal. unfold fillAssociations in H.
  apply forEach_Throw in H. destruct H as (i & s & _ & H).
  unfold fillAssociation in H.
  apply bind_Throw in H. destruct H as [H|(a & _ & H)];
    [now apply at_Throw in H|].
  apply bind_Throw in H. destruct H as [H|(d & _ & H)];
    [now apply buildAssociationData_Throw in H | discriminate].
Qed.

(** X14: an association element is built exactly when it has two ends whose lower
    and upper bounds can be read and its comment, if any, can be read. *)
Theorem association_is_built_iff_well_formed (a : PackagedElement) :
  (exists d, buildAssociationData a = Ok d) <->
  (exists lower0 lower1 upper0 upper1 b,
     lowerBounds a lower0 lower1 /\ upperBounds a upper0 upper1 /\
     ownedCommentBody (ownedComment a) = Ok b).
Proof.
  split.
  - intros (d & H). apply buildAssociationData_Ok in H.
    destruct H as (l0 & l1 & u0 & u1 & b & HL & HU & Hb & _).
    now exists l0, l1, u0, u1, b.
  - intros (l0 & l1 & u0 & u1 & b & HL & HU & Hb).
    eapply buildAssociationData_total; eassumption.
Qed.

(* ================================================================= *)
(** ** Fields typed by a cross-reference *)

(** X15: a field without inline type whose [type] child links to a type gets the
    name extracted from the link, with a capital first letter, as its type,
    after a type of that name, keyed by that name, is added to the type
    table; when the database types do not allow the name, the field is
    refused with [WrongType], which quotes the capitalised name. *)
Theorem field_typed_by_reference (env : Imports) (a : OwnedAttribute)
  (classId : option string) (this : Parser) (type0 : Leaf) (rest : list Leaf)
  (extracted : string) (comment : option string) :
  isReservedFieldName env (name (attribute_ a))
    (getName (databaseTypes this)) = false ->
  truthy (type (attribute_ a)) = false ->
  attribute_type a = Some (type0 :: rest) ->
  getTypeNameFromURL env (href (leaf_ type0)) = Ok extracted ->
  firstCommentBody (attribute_ownedComment a) = Ok comment ->
  addRegularField env a classId this
  = if contains (databaseTypes this) (upperFirst (Some extracted))
    then Ok (setParsedData
               (ParsedDataOps.addField classId (xmi_id (attribute_ a))
                  {| field_name := lowerFirst (name (attribute_ a));
                     field_type := Some (upperFirst (Some extracted));
                     field_comment := comment |}
                  (ParsedDataOps.addType (Some (upperFirst (Some extracted)))
                     {| type_name := upperFirst (Some extracted) |}
                     (parsedData this)))
               this)
    else Throw (buildException WrongType
                  ("The type '" ++ upperFirst (Some extracted)
                   ++ "' isn't supported by JHipster.")).
Proof.
  intros Hres Ht Hty Hurl Hcomment.
  unfold addRegularField, checkForReservedFieldName, resolveFieldType, addType.
  rewrite Hres, Ht, Hty.
  change (at_ (Some (type0 :: rest)) 0) with (Ok type0).
  cbn [bind checkForReserved andb]. rewrite Hurl. cbn [bind].
  rewrite upperFirst_idempotent.
  destruct (contains (databaseTypes this) (upperFirst (Some extracted)));
    cbn [bind negb]; [|reflexivity].
  rewrite Hcomment. reflexivity.
Qed.

Lemma field_typed_by_reference_witness :
  addRegularField Sample.imports
    (Sample.referenceAttributeOf "a1" (Some "Balance")
       (Some "pathmap://UML_LIBRARIES/Types.uml#bigDecimal"))
    (Some "c1") (Sample.document [])
  = Ok (setParsedData
          {| types := [(Some "BigDecimal", {| type_name := "BigDecimal" |})];
             enums := []; classes := [];
             fields := [(Some "c1", Some "a1",
                         {| field_name := "balance";
                            field_type := Some "BigDecimal";
                            field_comment := Some "in cents" |})];
             associations := [] |}
          (Sample.document [])) /\
  addRegularField Sample.imports
    (Sample.referenceAttributeOf "a1" (Some "Balance")
       (Some "pathmap://UML_LIBRARIES/Types.uml#money"))
    (Some "c1") (Sample.document [])
  = Throw (buildException WrongType
             "The type 'Money' isn't supported by JHipster.").
Proof.
  split.
  - etransitivity.
    + eapply field_typed_by_reference; reflexivity.
    + reflexivity.
  - etransitivity.
    + eapply field_typed_by_reference; reflexivity.
    + reflexivity.
Defined.

(* ================================================================= *)
(** ** Associations are not matched against the classes *)

Lemma filter_app_one_false {A : Type} (p : A -> bool) (l : list A) (x : A) :
  p x = false -> filter p (l ++ [x]) = filter p l.
Proof. intros H. rewrite filter_app. simpl. rewrite H. apply app_nil_r. Qed.

Lemma filter_app_one_true {A : Type} (p : A -> bool) (l : list A) (x : A) :
  p x = true -> filter p (l ++ [x]) = filter p l ++ [x].
Proof. intros H. rewrite filter_app. simpl. now rewrite H. Qed.

(** X16: an association element with two ends and readable bounds, put at the end
    of a document that is parsed, gives a document that is parsed too, with
    the same model and the association added to it: the types of the ends
    are not looked up among the classes. *)
Theorem association_is_added_whatever_its_ends (env : Imports)
  (db : DatabaseTypes) (elements : list PackagedElement)
  (model : ParsedData) (a : PackagedElement) (d : AssociationData) :
  parse env (UMLDesignerParser {| packagedElement := Some elements |} db)
  = Ok model ->
  xmi_type (element_ a) = Some "uml:Association" ->
  buildAssociationData a = Ok d ->
  parse env
    (UMLDesignerParser {| packagedElement := Some (elements ++ [a]) |} db)
  = Ok (ParsedDataOps.addAssociation (xmi_id (element_ a)) d model).
Proof.
  intros H Ha Hd.
  assert (Hassoc : hasType "uml:Association" a = true)
    by (unfold hasType; now apply strictEq_true).
  destruct (parse_fillAll env {| packagedElement := Some elements |} db
              elements eq_refl)
    as (this1 & _ & _ & Hdb & Hp & Hu & Hparse).
  destruct (parse_fillAll env {| packagedElement := Some (elements ++ [a]) |}
              db (elements ++ [a]) eq_refl)
    as (this1' & _ & _ & Hdb' & Hp' & Hu' & ->).
  rewrite Hparse in H. clear Hparse.
  rewrite (filter_app_one_true _ _ _ Hassoc).
  rewrite !filter_app_one_false;
    try (unfold isTypeElement; exclusive Hassoc; reflexivity).
  rewrite <- (setScan_same this1' this1) by congruence.
  rewrite fillAll_setScan, mapResult_parsedData_setScan.
  unfold fillAll in *.
  destruct (forEach fillTypeOf _ this1) as [this2|]; [|discriminate].
  simpl in *.
  destruct (forEach fillEnumOf _ this2) as [this3|]; [|discriminate].
  simpl in *.
  destruct (forEach (fillClassAndFieldsOf env) _ this3) as [this4|];
    [|discriminate].
  simpl in *. rewrite forEach_app.
  destruct (forEach fillAssociationOf _ this4) as [this5|]; [|discriminate].
  simpl in *. inversion H; subst model.
  unfold fillAssociationOf. rewrite Hd. reflexivity.
Qed.

Lemma association_is_added_whatever_its_ends_witness :
  exists model d,
    parse Sample.imports (Sample.document Sample.shop) = Ok model /\
    from d = Some "nowhere" /\ to d = Some "nobody" /\
    ~ In (Some "nowhere") (map fst (classes model)) /\
    parse Sample.imports (Sample.document (Sample.shop ++ [Sample.dangling]))
    = Ok (ParsedDataOps.addAssociation (Some "x3") d model).
Proof.
  eexists.
  exists (setType ONE_TO_MANY
            {| from := Some "nowhere"; to := Some "nobody";
               injectedFieldInFrom := Some "right";
               injectedFieldInTo := Some "left";
               isInjectedFieldInFromRequired := None;
               isInjectedFieldInToRequired := None;
               association_type := None;
               commentInFrom := None; commentInTo := None |}).
  split; [reflexivity|].
  split; [reflexivity|]. split; [reflexivity|]. split.
  - simpl. intros [H|[H|[]]]; discriminate.
  - apply (association_is_added_whatever_its_ends Sample.imports Sample.sql
             Sample.shop _ Sample.dangling _ eq_refl eq_refl eq_refl).
Defined.

(* ================================================================= *)
(** ** Determinism *)



Lemma sameOutcome_refl (r : result Parser) : sameOutcome r r.
Proof. reflexivity. Qed.






Section UserClassId.

Variable env : Imports.
Variable u : option string.












End UserClassId.

Section SameOutcome.

Variable env : Imports.





End SameOutcome.



